(** * CoreWaEasy: the run selector, the channel selector and the cache index

    A shallow embedding of [corewaeasy/corewaeasy.py] (class [CoReManager])
    and the properties of its selection and caching methods.

    Conventions of the embedding:
    - a Python [str] is a [string]: a sequence of code points below 256
      (one [ascii] per code point), so [len], slices and comparison are the
      ones of Python on such strings;
    - a Python [float] is a binary64 value, [spec_float] with precision 53
      and maximal exponent 1024; [np.nan] is [S754_nan];
    - a Python [int] is a [Z];
    - a [dict] whose iteration order is observed (the runs of a simulation,
      the channels of a dataset) is an association list in insertion order;
      a [dict] that is only looked up and updated is a [gmap];
    - a raised exception is a value of [exn]; a method is a function of the
      manager's state that ends in [Ok] or in [Raise]. *)

From Stdlib Require Import ZArith Lia Bool List Ascii String.
From Stdlib Require Import Floats.SpecFloat.
From stdpp Require Import base option list strings gmap fin_maps pretty.

Local Open Scope string_scope.
Local Open Scope Z_scope.

(** ** Exceptions *)

Inductive exn : Type :=
  | KeyError
  | ValueError
  | IndexError
  | EOFError
  | OSError
  | ExternalError.

Inductive result (A : Type) : Type :=
  | Ok (a : A)
  | Raise (e : exn).

Arguments Ok {A} a.
Arguments Raise {A} e.

Definition rbind {A B : Type} (r : result A) (k : A -> result B) : result B :=
  match r with
  | Ok a => k a
  | Raise e => Raise e
  end.

(** ** Python strings *)

Module PyStr.

Definition chars (s : string) : list ascii := list_ascii_of_string s.
Definition str (l : list ascii) : string := string_of_list_ascii l.

Definition code (c : ascii) : N := N_of_ascii c.

(** [str.isspace] on one code point below 256. *)
Definition is_space (c : ascii) : bool :=
  let n := code c in
  ((9 <=? n) && (n <=? 13) || (28 <=? n) && (n <=? 32)
   || (n =? 133) || (n =? 160))%N.

Definition is_digit (c : ascii) : bool :=
  let n := code c in ((48 <=? n) && (n <=? 57))%N.

Definition digit_val (c : ascii) : Z := Z.of_N (code c) - 48.

(** ASCII lower-casing, for the case-insensitive words of [float]. *)
Definition lower (c : ascii) : ascii :=
  let n := code c in
  if ((65 <=? n) && (n <=? 90))%N then ascii_of_N (n + 32) else c.

(** [s.split()]: the maximal runs of non-space characters. *)
Fixpoint split_acc (cur : list ascii) (l : list ascii) : list string :=
  match l with
  | [] => match cur with [] => [] | _ => [str (rev cur)] end
  | c :: l' =>
      if is_space c
      then match cur with
           | [] => split_acc [] l'
           | _ => str (rev cur) :: split_acc [] l'
           end
      else split_acc (c :: cur) l'
  end.

Definition split (s : string) : list string := split_acc [] (chars s).

Fixpoint is_prefix (p l : list ascii) : bool :=
  match p, l with
  | [], _ => true
  | _ :: _, [] => false
  | a :: p', b :: l' => Ascii.eqb a b && is_prefix p' l'
  end.

Fixpoint contains_chars (sub l : list ascii) : bool :=
  is_prefix sub l ||
  match l with
  | [] => false
  | _ :: l' => contains_chars sub l'
  end.

(** [sub in s] *)
Definition contains (sub s : string) : bool :=
  contains_chars (chars sub) (chars s).

Definition startswith (s p : string) : bool := is_prefix (chars p) (chars s).
Definition endswith (s p : string) : bool :=
  is_prefix (rev (chars p)) (rev (chars s)).

(** Index normalisation of a slice bound. *)
Definition clamp (len i : Z) : Z :=
  if i <? 0 then Z.max (len + i) 0 else Z.min i len.

(** [s[a:b]] *)
Definition slice (s : string) (a b : Z) : string :=
  let l := chars s in
  let n := Z.of_nat (length l) in
  let lo := clamp n a in
  let hi := clamp n b in
  str (firstn (Z.to_nat (hi - lo)) (skipn (Z.to_nat lo) l)).

(** [s[a:]] *)
Definition slice_from (s : string) (a : Z) : string :=
  let l := chars s in
  str (skipn (Z.to_nat (clamp (Z.of_nat (length l)) a)) l).

(** [s.replace(a, b)] for one-character [a] and [b]. *)
Definition replace_char (a b : ascii) (s : string) : string :=
  str (map (fun c => if Ascii.eqb c a then b else c) (chars s)).

(** [s1 < s2]: lexicographic on code points. *)
Fixpoint lt_chars (l1 l2 : list ascii) : bool :=
  match l1, l2 with
  | _, [] => false
  | [], _ :: _ => true
  | a :: l1', b :: l2' =>
      if (code a <? code b)%N then true
      else if (code b <? code a)%N then false
      else lt_chars l1' l2'
  end.

Definition ltb (s1 s2 : string) : bool := lt_chars (chars s1) (chars s2).

End PyStr.

(** ** Python numbers *)

Module PyNum.
Import PyStr.

Definition pyfloat : Type := spec_float.

Definition nan : pyfloat := S754_nan.

(** [np.isnan] *)
Definition isnan (x : pyfloat) : bool :=
  match x with S754_nan => true | _ => false end.

(** [x < y] on floats. *)
Definition flt (x y : pyfloat) : bool := SFltb x y.

(** [x == y] on floats. *)
Definition feq (x y : pyfloat) : bool := SFeqb x y.

(** The blanks that [float] and [int] drop at both ends of a string of
    code points below 256: the ASCII ones of C and the two beyond ASCII.
    The separators 28 to 31, blanks for [split], are not among them. *)
Definition is_blank (c : ascii) : bool :=
  let n := code c in
  ((9 <=? n) && (n <=? 13) || (n =? 32) || (n =? 133) || (n =? 160))%N.

Fixpoint lstrip (l : list ascii) : list ascii :=
  match l with
  | c :: l' => if is_blank c then lstrip l' else l
  | [] => []
  end.

Definition strip (l : list ascii) : list ascii :=
  rev (lstrip (rev (lstrip l))).

(** Underscores in a numeric string: each one stands between two digits.
    Returns the string without them. *)
Fixpoint strip_underscores (prev : option ascii) (l : list ascii)
  : option (list ascii) :=
  match l with
  | [] => match prev with
          | Some c => if Ascii.eqb c "_" then None else Some []
          | None => Some []
          end
  | c :: l' =>
      if Ascii.eqb c "_"
      then match prev with
           | Some p => if is_digit p then strip_underscores (Some c) l' else None
           | None => None
           end
      else
        let bad := match prev with
                   | Some p => Ascii.eqb p "_" && negb (is_digit c)
                   | None => false
                   end in
        if bad then None
        else option_map (cons c) (strip_underscores (Some c) l')
  end.

Definition digits_val (l : list ascii) : Z :=
  fold_left (fun acc c => 10 * acc + digit_val c) l 0.

Definition all_digits (l : list ascii) : bool := forallb is_digit l.

(** An optional sign; [true] is minus. *)
Definition take_sign (l : list ascii) : bool * list ascii :=
  match l with
  | c :: l' =>
      if Ascii.eqb c "-" then (true, l')
      else if Ascii.eqb c "+" then (false, l')
      else (false, l)
  | [] => (false, [])
  end.

(** [int(s)] in base 10; [None] is [ValueError]. *)
Definition int_of_string (s : string) : option Z :=
  match strip_underscores None (strip (chars s)) with
  | None => None
  | Some l =>
      let '(neg, d) := take_sign l in
      match d with
      | [] => None
      | _ => if all_digits d
             then Some (if neg then - digits_val d else digits_val d)
             else None
      end
  end.

Fixpoint span_digits (l : list ascii) : list ascii * list ascii :=
  match l with
  | c :: l' =>
      if is_digit c
      then let '(d, r) := span_digits l' in (c :: d, r)
      else ([], l)
  | [] => ([], [])
  end.

(** The correctly rounded binary64 value of [(-1)^neg * m * 10^e]:
    round to nearest, ties to even, overflow to infinity. *)
Definition binary64_of_decimal (neg : bool) (m : Z) (e : Z) : pyfloat :=
  match m with
  | Zpos p =>
      if 0 <=? e
      then binary_round 53 1024 neg (p * Z.to_pos (10 ^ e)) 0
      else SFdiv 53 1024 (S754_finite neg p 0)
                 (S754_finite false (Z.to_pos (10 ^ (- e))) 0)
  | _ => S754_zero neg
  end.

(** The exponent part: empty, or [e]/[E], an optional sign and digits. *)
Definition parse_exponent (l : list ascii) : option Z :=
  match l with
  | [] => Some 0
  | c :: l' =>
      if Ascii.eqb (lower c) "e"
      then let '(neg, d) := take_sign l' in
           match d with
           | [] => None
           | _ => if all_digits d
                  then Some (if neg then - digits_val d else digits_val d)
                  else None
           end
      else None
  end.

(** [float(s)]; [None] is [ValueError]. *)
Definition float_of_string (s : string) : option pyfloat :=
  match strip_underscores None (strip (chars s)) with
  | None => None
  | Some l =>
      let '(neg, body) := take_sign l in
      let word := str (map lower body) in
      if String.eqb word "inf" || String.eqb word "infinity"
      then Some (S754_infinity neg)
      else if String.eqb word "nan" then Some S754_nan
      else
        let '(ip, r1) := span_digits body in
        let '(fp, r2) :=
          match r1 with
          | c :: r1' => if Ascii.eqb c "." then span_digits r1' else ([], r1)
          | [] => ([], [])
          end in
        match (ip ++ fp)%list with
        | [] => None
        | ds =>
            match parse_exponent r2 with
            | None => None
            | Some ex =>
                Some (binary64_of_decimal neg (digits_val ds)
                        (ex - Z.of_nat (length fp)))
            end
        end
  end.

End PyNum.

(** ** Paths and the directory tree *)

Abbreviation Path := (list string).

Module PyPath.
Import PyStr.

(** [p.parts[-k]] for [k >= 1]; [None] is [IndexError]. *)
Definition part_from_end (p : Path) (k : nat) : option string :=
  if (length p <? k)%nat then None else nth_error p (length p - k).

(** [p.name] of a path that ends in a name. *)
Definition name (p : Path) : string :=
  match part_from_end p 1 with Some n => n | None => "" end.

(** [p.parent] of a path with at least one part. *)
Definition parent (p : Path) : Path := removelast p.

(** [p / child] *)
Definition joinpath (p : Path) (child : string) : Path := (p ++ [child])%list.

(** [n.rfind('.')] as a number of characters before the last dot. *)
Fixpoint rfind_dot (l : list ascii) : option nat :=
  match l with
  | [] => None
  | c :: l' =>
      match rfind_dot l' with
      | Some i => Some (S i)
      | None => if Ascii.eqb c "." then Some O else None
      end
  end.

(** [p.stem]: the name without its last suffix. *)
Definition stem (p : Path) : string :=
  let n := chars (name p) in
  match rfind_dot n with
  | Some i =>
      if ((0 <? i) && (i <? length n - 1))%nat then str (firstn i n)
      else name p
  | None => name p
  end.

(** A name against the pattern [Rh*.txt]. *)
Definition matches_Rh_txt (n : string) : bool :=
  startswith n "Rh" && endswith n ".txt" && (6 <=? String.length n)%nat.

(** A name against the pattern [*.h5]. *)
Definition matches_h5 (n : string) : bool := endswith n ".h5".

Fixpoint strict_prefix (d p : Path) : bool :=
  match d, p with
  | [], _ :: _ => true
  | a :: d', b :: p' => String.eqb a b && strict_prefix d' p'
  | _, [] => false
  end.

End PyPath.

Inductive node : Type :=
  | File (lines : list string)
  | Dir.

(** ** The objects the manager works on *)

(** A run of a simulation ([watpy]'s [CoRe_run]): its folder and the
    dictionary [run.md.data], whose values are strings or [None]. *)
Record CoRe_run : Type := {
  run_path : Path;
  md_data : gmap string (option string);
}.

(** A simulation ([CoRe_sim]): its folder and a reference to the dictionary
    [sim.run], which lives in the heap. *)
Record CoRe_sim : Type := {
  sim_path : Path;
  sim_run : nat;
}.

(** An entry of [self.downloaded[simkey][run]]. *)
Record Artifact : Type := {
  file : Path;
  eccentricity : PyNum.pyfloat;
  r_extraction : Z;
}.

(** What a call can be observed to do besides changing the state. *)
Inductive event : Type :=
  | EvSync (skey : string)
  | EvEccentricity (rkey : string)
  | EvReadDset (run : Path)
  | EvSavetxt (ofile : Path)
  | EvUnlink (f : Path)
  | EvRmtree (d : Path)
  | EvPrint (msg : string).

(** What [watpy] and the disk hold: the directory tree, the dictionaries
    [sim.run] (Python objects, by reference) and [cdb.sim]. *)
Record world : Type := {
  fs : gmap (list string) node;
  heap : gmap nat (list (string * CoRe_run));
  sim : gmap string CoRe_sim;
}.

(** The manager: its [cdb] and the disk, [self.downloaded], and what has
    been observed so far. *)
Record state : Type := {
  env : world;
  downloaded : gmap string (gmap string Artifact);
  trace : list event;
}.

Definition set_env (w : world) (st : state) : state :=
  {| env := w; downloaded := downloaded st; trace := trace st |}.

Definition set_fs (f : gmap (list string) node) (w : world) : world :=
  {| fs := f; heap := heap w; sim := sim w |}.

Definition set_heap (h : gmap nat (list (string * CoRe_run))) (st : state)
  : state :=
  set_env {| fs := fs (env st); heap := h; sim := sim (env st) |} st.

Definition set_downloaded (d : gmap string (gmap string Artifact))
  (st : state) : state :=
  {| env := env st; downloaded := d; trace := trace st |}.

Definition log (ev : event) (st : state) : state :=
  {| env := env st; downloaded := downloaded st;
     trace := (trace st ++ [ev])%list |}.

(** ** Computations: a state and an exception *)

Definition M (A : Type) : Type := state -> result A * state.

Definition ret {A : Type} (a : A) : M A := fun st => (Ok a, st).

Definition raise {A : Type} (e : exn) : M A := fun st => (Raise e, st).

Definition bind {A B : Type} (m : M A) (k : A -> M B) : M B :=
  fun st =>
    match m st with
    | (Ok a, st') => k a st'
    | (Raise e, st') => (Raise e, st')
    end.

Notation "'let*' x ':=' m 'in' k" := (bind m (fun x => k))
  (at level 10, x pattern, m at level 100, k at level 200).

Definition lift {A : Type} (r : result A) : M A := fun st => (r, st).

Definition or_raise {A : Type} (e : exn) (o : option A) : result A :=
  match o with
  | Some a => Ok a
  | None => Raise e
  end.

Definition get : M state := fun st => (Ok st, st).

Definition modify (f : state -> state) : M unit := fun st => (Ok tt, f st).

Definition emit (ev : event) : M unit := modify (log ev).

(** ** Dictionaries with an iteration order *)

Module PyDict.

Section Assoc.
Context {V : Type}.

(** [d[k]] *)
Fixpoint getitem (k : string) (d : list (string * V)) : option V :=
  match d with
  | [] => None
  | (k', v) :: d' => if String.eqb k k' then Some v else getitem k d'
  end.

(** [d] without the key [k]. *)
Fixpoint remove (k : string) (d : list (string * V)) : list (string * V) :=
  match d with
  | [] => []
  | (k', v) :: d' => if String.eqb k k' then d' else (k', v) :: remove k d'
  end.

(** [d.keys()] *)
Definition keys (d : list (string * V)) : list string := map fst d.

End Assoc.

(** A reference always names an object in Python; on a heap where it
    names none the operations below end in [ExternalError]. *)

(** [d.copy()]: a new dictionary object with the same items. *)
Definition copy (l : nat) : M nat :=
  fun st =>
    match heap (env st) !! l with
    | None => (Raise ExternalError, st)
    | Some d =>
        let l' := fresh (dom (heap (env st))) in
        (Ok l', set_heap (<[l' := d]> (heap (env st))) st)
    end.

(** [d.pop(k)]: removes the item from the object at [l]. *)
Definition pop (l : nat) (k : string) : M CoRe_run :=
  fun st =>
    match heap (env st) !! l with
    | None => (Raise ExternalError, st)
    | Some d =>
        match getitem k d with
        | None => (Raise KeyError, st)
        | Some v => (Ok v, set_heap (<[l := remove k d]> (heap (env st))) st)
        end
    end.

(** [d.items()], in iteration order. *)
Definition items (l : nat) : M (list (string * CoRe_run)) :=
  fun st => (or_raise ExternalError (heap (env st) !! l), st).

(** [d[k]] on the object at [l]. *)
Definition lookup (l : nat) (k : string) : M CoRe_run :=
  fun st =>
    match heap (env st) !! l with
    | None => (Raise ExternalError, st)
    | Some d => (or_raise KeyError (getitem k d), st)
    end.

End PyDict.

(** ** The methods of [CoReManager] *)

Module CoReManager.
Import PyStr PyNum PyPath.

Definition header_gw_txt : string :=
  "u/M:0 Reh/M:1 Imh/M:2 Redh/M:3 Imdh/M:4 Momega:5 A/M:6 phi:7 t:8".

(** [cast_to_float(string)]: [string in ['', None]] gives [np.nan],
    anything else goes through [float]. *)
Definition cast_to_float (s : option string) : result pyfloat :=
  match s with
  | None => Ok nan
  | Some s' =>
      if String.eqb s' "" then Ok nan
      else or_raise ValueError (float_of_string s')
  end.

(** [self.cdb.sim[skey]] *)
Definition cdb_sim (skey : string) : M CoRe_sim :=
  fun st => (or_raise KeyError (sim (env st) !! skey), st).

(** [run.md.data['id_eccentricity']] of the run found under [rkey]; the
    read is observed, so that the trace tells which runs were looked at. *)
Definition id_eccentricity (rkey : string) (run : CoRe_run)
  : M (option string) :=
  let* _ := emit (EvEccentricity rkey) in
  lift (or_raise KeyError (md_data run !! "id_eccentricity")).

(** The loop of [get_runkey_lowest_eccentricity] over [runs.items()],
    with the current [run_key] and [ecc]. *)
Fixpoint lowest_loop (items : list (string * CoRe_run))
  (run_key : string) (ecc : pyfloat) : M (string * pyfloat) :=
  match items with
  | [] => ret (run_key, ecc)
  | (rkey, run) :: rest =>
      let* e := id_eccentricity rkey run in
      let* ecc_i := lift (cast_to_float e) in
      if flt ecc_i ecc then lowest_loop rest rkey ecc_i
      else if isnan ecc_i then ret (rkey, ecc_i)
      else lowest_loop rest run_key ecc
  end.

Definition get_runkey_lowest_eccentricity (skey : string)
  : M (string * pyfloat) :=
  let* s := cdb_sim skey in
  let* runs := PyDict.copy (sim_run s) in
  let run_key := "R01" in
  let* r01 := PyDict.pop runs "R01" in
  let* e := id_eccentricity "R01" r01 in
  let* ecc := lift (cast_to_float e) in
  if isnan ecc then ret (run_key, ecc)
  else
    let* items := PyDict.items runs in
    lowest_loop items run_key ecc.

(** [max(keys)]: the first of the greatest; [ValueError] when empty. *)
Definition py_max (keys : list string) : result string :=
  match keys with
  | [] => Raise ValueError
  | k :: keys' =>
      Ok (fold_left (fun m k' => if ltb m k' then k' else m) keys' k)
  end.

Section Extraction.
Context {array : Type}.

Definition _get_highest_r_extraction_
  (extractions : list (string * array)) : result (string * Z) :=
  rbind (py_max (PyDict.keys extractions)) (fun rext_key =>
  if contains "Inf" rext_key then Ok (rext_key, 99999)
  else
    rbind (or_raise ValueError (int_of_string (slice rext_key (-9) (-4))))
          (fun rext => Ok (rext_key, rext))).

End Extraction.

(** [open(file)] and its lines. *)
Definition open_lines (f : Path) : M (list string) :=
  fun st =>
    match fs (env st) !! f with
    | Some (File lines) => (Ok lines, st)
    | _ => (Raise OSError, st)
    end.

(** The first line with the tag, as the [for]/[else] finds it. *)
Fixpoint first_tagged (lines : list string) : option string :=
  match lines with
  | [] => None
  | line :: rest =>
      if contains "id_eccentricity" line then Some line
      else first_tagged rest
  end.

Definition _read_eccentricity (f : Path) : M pyfloat :=
  let* lines := open_lines f in
  match first_tagged lines with
  | None => raise EOFError
  | Some line =>
      let* ecc_txt := lift (or_raise IndexError (last (split line))) in
      match float_of_string ecc_txt with
      | Some ecc => ret ecc
      | None => ret nan
      end
  end.

(** [int(f.stem[-5:])] *)
Definition stem_radius (f : Path) : result Z :=
  or_raise ValueError (int_of_string (slice_from (stem f) (-5))).

(** [txt_files[key][run]], when both keys are there. *)
Definition record_of (txt_files : gmap string (gmap string Artifact))
  (key run : string) : option Artifact :=
  match txt_files !! key with
  | Some d => d !! run
  | None => None
  end.

(** [txt_files[key][run] = a], the entry [txt_files[key]] being there. *)
Definition store (key run : string) (a : Artifact)
  (txt_files : gmap string (gmap string Artifact))
  : gmap string (gmap string Artifact) :=
  <[key := <[run := a]> (default ∅ (txt_files !! key))]> txt_files.

(** The loop of [_look_for_existing_strains] over the files that
    [self.db_path.rglob('Rh*.txt')] yields, in the order it yields them. *)
Fixpoint look_loop (scan : list (list string))
  (txt_files : gmap string (gmap string Artifact))
  : M (gmap string (gmap string Artifact)) :=
  match scan with
  | [] => ret txt_files
  | f :: rest =>
      let* p3 := lift (or_raise IndexError (part_from_end f 3)) in
      let key := replace_char "_" ":" p3 in
      let* run := lift (or_raise IndexError (part_from_end f 2)) in
      let* ecc := _read_eccentricity (joinpath (parent f) "metadata.txt") in
      let* rext := lift (stem_radius f) in
      let a := {| file := f; eccentricity := ecc; r_extraction := rext |} in
      match txt_files !! key with
      | None => look_loop rest (store key run a (<[key := ∅]> txt_files))
      | Some d =>
          match d !! run with
          | Some a0 =>
              let* r0 := lift (stem_radius (file a0)) in
              if rext <? r0 then look_loop rest txt_files
              else look_loop rest (store key run a txt_files)
          | None => look_loop rest (store key run a txt_files)
          end
      end
  end.

(** [scan] is what [self.db_path.rglob('Rh*.txt')] yields. *)
Definition _look_for_existing_strains (scan : list (list string))
  : M (gmap string (gmap string Artifact)) :=
  look_loop scan ∅.

(** The entries that [db_path.rglob('Rh*.txt')] yields on a tree: the
    ones below [db_path] whose name matches. *)
Definition rglob_match (db_path p : Path) : bool :=
  strict_prefix db_path p && matches_Rh_txt (name p).

Definition rglob_entries (tree : gmap (list string) node) (db_path : Path)
  : list (list string) :=
  filter (fun p => rglob_match db_path p = true) (map_to_list tree).*1.

(** The sequences it may yield them in: each entry once, in any order. *)
Definition rglob_yields (tree : gmap (list string) node)
  (db_path : Path) (scan : list (list string)) : Prop :=
  scan ≡ₚ rglob_entries tree db_path.

(** *** Removing the raw data *)

(** An entry that [root.glob('*/*.h5')] yields. *)
Definition glob_h5_match (root p : Path) : bool :=
  (length p =? length root + 2)%nat
  && strict_prefix root p && matches_h5 (name p).

Definition glob_h5 (root : Path) : M (list (list string)) :=
  fun st =>
    (Ok (filter (fun p => glob_h5_match root p = true)
           (map_to_list (fs (env st))).*1), st).

(** [f.unlink()] *)
Definition unlink (f : Path) : M unit :=
  let* _ := emit (EvUnlink f) in
  fun st =>
    match fs (env st) !! f with
    | Some (File _) =>
        (Ok tt, set_env (set_fs (delete f (fs (env st))) (env st)) st)
    | _ => (Raise OSError, st)
    end.

Fixpoint unlink_all (files : list (list string)) : M unit :=
  match files with
  | [] => ret tt
  | f :: rest => let* _ := unlink f in unlink_all rest
  end.

(** [rmtree(d)]: [d] and everything below it. *)
Definition rmtree (d : Path) : M unit :=
  let* _ := emit (EvRmtree d) in
  fun st =>
    match fs (env st) !! d with
    | Some Dir =>
        let keep (e : list string * node) :=
          e.1 <> d /\ strict_prefix d e.1 = false in
        (Ok tt, set_env (set_fs (filter keep (fs (env st))) (env st)) st)
    | _ => (Raise OSError, st)
    end.

Definition _clean_h5_data (skey : string) : M unit :=
  let* s := cdb_sim skey in
  let root := sim_path s in
  let* files := glob_h5 root in
  let* _ := unlink_all files in
  let folder := joinpath root ".git" in
  rmtree folder.

(** *** Downloading *)

(** [f'{n:05d}'] *)
Definition fmt_05d (n : Z) : string :=
  let sign := if n <? 0 then "-" else "" in
  let digits := pretty (Z.abs_N n) in
  let pad := (5 - String.length sign - String.length digits)%nat in
  sign +:+ str (repeat "0"%char pad) +:+ digits.

(** [print(msg)] when [verbose]. *)
Definition print_if (verbose : bool) (msg : string) : M unit :=
  if verbose then emit (EvPrint msg) else ret tt.

(** A collaborator: it is run on the world, and the call is observed. *)
Definition extern {A : Type} (ev : event)
  (f : world -> result A * world) : M A :=
  let* _ := emit ev in
  fun st => let '(r, w) := f (env st) in (r, set_env w st).

Section Download.
Context {array : Type}.

(** [self.cdb.sync(dbkeys=[skey], prot=prot, lfs=lfs, verbose=False)] *)
Variable cdb_sync : string -> string -> bool -> world -> result unit * world.

(** [run.data.read_dset()] *)
Variable read_dset :
  CoRe_run -> world
  -> result (gmap string (list (string * array))) * world.

(** [np.savetxt(ofile, gw_data, header=header)] *)
Variable np_savetxt :
  Path -> array -> string -> world -> result unit * world.

(** The body of the loop of [download_strains] past the check of
    [self.downloaded]. *)
Definition download_one (skey : string) (keep_h5 : bool)
  (prot : string) (lfs verbose : bool) : M unit :=
  let* _ := extern (EvSync skey) (cdb_sync skey prot lfs) in
  let* (runkey, ecc) := get_runkey_lowest_eccentricity skey in
  let* s := cdb_sim skey in
  let* run := PyDict.lookup (sim_run s) runkey in
  let* dsets := extern (EvReadDset (run_path run)) (read_dset run) in
  let* data := lift (or_raise KeyError (dsets !! "rh_22")) in
  let* (rext_key, rext) := lift (_get_highest_r_extraction_ data) in
  let* gw_data := lift (or_raise KeyError (PyDict.getitem rext_key data)) in
  let ofile :=
    joinpath (run_path run) ("Rh_l2_m2_r" +:+ fmt_05d rext +:+ ".txt") in
  let* _ := extern (EvSavetxt ofile) (np_savetxt ofile gw_data header_gw_txt) in
  let a := {| file := ofile; eccentricity := ecc; r_extraction := rext |} in
  let* _ := modify (fun st =>
              set_downloaded (<[skey := {[runkey := a]}]> (downloaded st)) st) in
  let* _ := if negb keep_h5 then _clean_h5_data skey else ret tt in
  print_if verbose (skey +:+ " downloaded.").

Fixpoint download_strains (simkeys : list string)
  (keep_h5 overwrite : bool) (prot : string) (lfs verbose : bool)
  : M unit :=
  match simkeys with
  | [] => ret tt
  | skey :: rest =>
      let* st := get in
      let* _ :=
        if negb overwrite && bool_decide (is_Some (downloaded st !! skey))
        then print_if verbose (skey +:+ " already downloaded, skipping.")
        else download_one skey keep_h5 prot lfs verbose in
      download_strains rest keep_h5 overwrite prot lfs verbose
  end.

End Download.

End CoReManager.

(** ** Vocabulary of the statements *)

Module Spec.
Import PyStr PyNum PyPath CoReManager.

(** The eccentricity of a run as the selector obtains it: the entry of
    [run.md.data], then [cast_to_float]. *)
Definition run_ecc (run : CoRe_run) : result pyfloat :=
  rbind (or_raise KeyError (md_data run !! "id_eccentricity")) cast_to_float.

(** The run has an eccentricity that is a number. *)
Definition numeric (run : CoRe_run) : Prop :=
  exists x, run_ecc run = Ok x /\ isnan x = false.

(** The state after the events [evs] have been observed. *)
Definition log_all (evs : list event) (st : state) : state :=
  {| env := env st; downloaded := downloaded st;
     trace := (trace st ++ evs)%list |}.

(** The reads of the eccentricity of the runs of [items], in order. *)
Definition reads (items : list (string * CoRe_run)) : list event :=
  map (fun kr => EvEccentricity kr.1) items.

(** The state in which the loop of [get_runkey_lowest_eccentricity]
    starts: the copy of the runs is a new object, without the reference
    run, and the eccentricity of that run has been read. *)
Definition after_pop (runs : list (string * CoRe_run)) (st : state)
  : state :=
  let l' := fresh (dom (heap (env st))) in
  log (EvEccentricity "R01")
    (set_heap (<[l' := PyDict.remove "R01" runs]>
                 (<[l' := runs]> (heap (env st)))) st).

(** The place of a float that is a number in the order of the floats:
    a class (infinities, signs, zero) and, within the finite ones of a
    sign, exponent and mantissa. *)
Definition fkey (x : pyfloat) : Z * Z * Z :=
  match x with
  | S754_infinity true => (-2, 0, 0)
  | S754_finite true m e => (-1, - e, Z.neg m)
  | S754_zero _ => (0, 0, 0)
  | S754_finite false m e => (1, e, Z.pos m)
  | S754_infinity false => (2, 0, 0)
  | S754_nan => (3, 0, 0)
  end.

Definition key_lt (a b : Z * Z * Z) : Prop :=
  a.1.1 < b.1.1 \/
  (a.1.1 = b.1.1 /\ (a.1.2 < b.1.2 \/ (a.1.2 = b.1.2 /\ a.2 < b.2))).

(** The runs of [items] hold the numbers of [vals], key by key. *)
Definition holds (items : list (string * CoRe_run))
  (vals : list (string * pyfloat)) : Prop :=
  Forall2 (fun kr kx => kr.1 = kx.1 /\ run_ecc kr.2 = Ok kx.2
                        /\ isnan kx.2 = false) items vals.

(** *** Decimal literals *)

(** The sign of a literal: none, [+] ([false]) or [-] ([true]). *)
Definition sign_chars (s : option bool) : list ascii :=
  match s with
  | None => []
  | Some true => ["-"%char]
  | Some false => ["+"%char]
  end.

Definition sign_neg (s : option bool) : bool :=
  match s with
  | Some true => true
  | _ => false
  end.

(** The exponent of a literal: none, or the letter ([E] when the flag is
    set), a sign and digits. *)
Definition exponent_chars (ex : option (bool * option bool * list ascii))
  : list ascii :=
  match ex with
  | None => []
  | Some (upper, s, d) =>
      ((if upper : bool then "E"%char else "e"%char) :: sign_chars s ++ d)%list
  end.

Definition exponent_val (ex : option (bool * option bool * list ascii)) : Z :=
  match ex with
  | None => 0
  | Some (_, s, d) => if sign_neg s then - digits_val d else digits_val d
  end.

Definition point_chars (fp : option (list ascii)) : list ascii :=
  match fp with
  | Some f => "."%char :: f
  | None => []
  end.

(** The characters of a decimal literal: sign, integer part, point and
    fractional part, exponent. *)
Definition literal_chars (s : option bool) (ip : list ascii)
  (fp : option (list ascii)) (ex : option (bool * option bool * list ascii))
  : list ascii :=
  (sign_chars s ++ ip ++ point_chars fp ++ exponent_chars ex)%list.

(** The parts are digits, with one at least before the exponent and one
    at least in it. *)
Definition literal_ok (ip : list ascii) (fp : option (list ascii))
  (ex : option (bool * option bool * list ascii)) : Prop :=
  all_digits ip = true /\
  all_digits (default [] fp) = true /\
  (ip ++ default [] fp)%list <> [] /\
  match ex with
  | None => True
  | Some (_, _, d) => all_digits d = true /\ d <> []
  end.

(** The number a literal denotes, rounded to a float. *)
Definition literal_value (s : option bool) (ip : list ascii)
  (fp : option (list ascii)) (ex : option (bool * option bool * list ascii))
  : pyfloat :=
  binary64_of_decimal (sign_neg s) (digits_val (ip ++ default [] fp))
    (exponent_val ex - Z.of_nat (length (default [] fp))).

(** A character of a literal: a digit, a sign, the point or the letter of
    the exponent. *)
Definition plain (c : ascii) : Prop :=
  is_digit c = true \/ c = "+"%char \/ c = "-"%char \/ c = "."%char
  \/ c = "e"%char \/ c = "E"%char.

(** The head of what follows the sign: a digit or the point. *)
Definition starts_number (l : list ascii) : Prop :=
  match l with
  | c :: _ => is_digit c = true \/ c = "."%char
  | [] => False
  end.

(** *** The files of the cache *)

(** What [_read_eccentricity] returns on the lines of a metadata file;
    [None] when no line has the tag. *)
Definition lines_ecc (lines : list string) : option pyfloat :=
  match first_tagged lines with
  | Some line =>
      match last (split line) with
      | Some tok => Some (default nan (float_of_string tok))
      | None => None
      end
  | None => None
  end.

(** What the scan makes of one file of the tree: the simulation key, the
    run key and the record; [None] when the scan raises on it. *)
Definition scanned (tree : gmap (list string) node) (f : Path)
  : option (string * string * Artifact) :=
  match part_from_end f 3, part_from_end f 2,
        tree !! joinpath (parent f) "metadata.txt",
        int_of_string (slice_from (stem f) (-5)) with
  | Some p3, Some run, Some (File lines), Some rext =>
      match lines_ecc lines with
      | Some ecc =>
          Some (replace_char "_" ":" p3, run,
                {| file := f; eccentricity := ecc; r_extraction := rext |})
      | None => None
      end
  | _, _, _, _ => None
  end.

Definition scannable (tree : gmap (list string) node) (f : Path) : Prop :=
  is_Some (scanned tree f).

(** The record of [f] when [f] is a file of the pair [(key, run)]. *)
Definition artifact_for (tree : gmap (list string) node)
  (key run : string) (f : Path) : option Artifact :=
  match scanned tree f with
  | Some (k, r, a) =>
      if String.eqb k key && String.eqb r run then Some a else None
  | None => None
  end.

(** The rule of the scan on one pair: a file is skipped only when its
    radius is strictly below the one on record. *)
Definition keep (cur : option Artifact) (a : Artifact) : Artifact :=
  match cur with
  | Some a0 => if r_extraction a <? r_extraction a0 then a0 else a
  | None => a
  end.

(** The record of the pair [(key, run)] after the files of [scan], from
    the record [cur]. *)
Definition winner (tree : gmap (list string) node) (key run : string)
  (scan : list (list string)) (cur : option Artifact) : option Artifact :=
  fold_left (fun cur f =>
               match artifact_for tree key run f with
               | Some a => Some (keep cur a)
               | None => cur
               end) scan cur.

(** Every record names a file whose stem ends in its radius. *)
Definition radii_ok (txt_files : gmap string (gmap string Artifact)) : Prop :=
  forall key run a,
    record_of txt_files key run = Some a ->
    stem_radius (file a) = Ok (r_extraction a).

(** *** Downloading *)

(** The computation leaves [self.downloaded] as it was. *)
Definition keeps_downloaded {A : Type} (m : M A) : Prop :=
  forall st, downloaded (m st).2 = downloaded st.

(** What is printed for keys that are skipped. *)
Definition skip_prints (verbose : bool) (simkeys : list string)
  : list event :=
  if verbose
  then map (fun skey => EvPrint (skey +:+ " already downloaded, skipping."))
           simkeys
  else [].

End Spec.

(** ** Sample data *)

Module Examples.
Import PyStr PyNum PyPath CoReManager Spec.

(** A run of the simulation BAM:0001 with eccentricity [e]. *)
Definition run_with (rkey : string) (e : option string) : CoRe_run :=
  {| run_path := ["CoRe_DB_clone"; "BAM_0001"; rkey];
     md_data := {[ "id_eccentricity" := e ]} |}.

Definition sim_BAM : CoRe_sim :=
  {| sim_path := ["CoRe_DB_clone"; "BAM_0001"]; sim_run := 0%nat |}.

(** A manager that knows the simulation with the runs [runs], on the
    tree [tree], with nothing downloaded. *)
Definition manager (runs : list (string * CoRe_run))
  (tree : gmap (list string) node) : state :=
  {| env := {| fs := tree; heap := {[ 0%nat := runs ]};
               sim := {[ "BAM:0001" := sim_BAM ]} |};
     downloaded := ∅;
     trace := [] |}.

Definition r01_005 : CoRe_run := run_with "R01" (Some "0.05").
Definition r02_001 : CoRe_run := run_with "R02" (Some "0.01").
Definition r03_NAN : CoRe_run := run_with "R03" (Some "NAN").

(** R01: 0.05, R02: 0.01, R03: NAN. *)
Definition runs_nan_last : list (string * CoRe_run) :=
  [("R01", r01_005); ("R02", r02_001); ("R03", r03_NAN)].

Definition r01_NAN : CoRe_run := run_with "R01" (Some "NAN").
Definition r02_0 : CoRe_run := run_with "R02" (Some "0.0").

(** R01: NAN, R02: 0.0. *)
Definition runs_nan_first : list (string * CoRe_run) :=
  [("R01", r01_NAN); ("R02", r02_0)].

(** R02: 0.01, R03: 0.01, R04: 0.05, to be scanned after a reference
    run with 0.05. *)
Definition runs_tie : list (string * CoRe_run) :=
  [("R02", r02_001); ("R03", run_with "R03" (Some "0.01"));
   ("R04", run_with "R04" (Some "0.05"))].

Definition f_0_05 : pyfloat := S754_finite false 7205759403792794 (-57).
Definition f_0_01 : pyfloat := S754_finite false 5764607523034235 (-59).

Definition run_dir : Path := ["CoRe_DB_clone"; "BAM_0001"; "R01"].
Definition backup_dir : Path :=
  ["CoRe_DB_clone"; "backup"; "BAM_0001"; "R01"].

Definition f_r00100 : Path := joinpath run_dir "Rh_l2_m2_r00100.txt".
Definition f_r00250 : Path := joinpath run_dir "Rh_l2_m2_r00250.txt".
Definition f_backup : Path := joinpath backup_dir "Rh_l2_m2_r00100.txt".

Definition metadata_lines : list string :=
  ["database_key            = BAM:0001:R01";
   "id_eccentricity         = 0.01";
   "id_mass                 = 2.7"].

(** One run folder with the same strain extracted at two radii. *)
Definition tree_two_radii : gmap (list string) node :=
  list_to_map
    [(["CoRe_DB_clone"], Dir);
     (["CoRe_DB_clone"; "BAM_0001"], Dir);
     (run_dir, Dir);
     (joinpath run_dir "metadata.txt", File metadata_lines);
     (f_r00100, File [header_gw_txt]);
     (f_r00250, File [header_gw_txt])].

(** A run folder and a copy of it, with the strain at the same radius. *)
Definition tree_backup : gmap (list string) node :=
  list_to_map
    [(["CoRe_DB_clone"], Dir);
     (["CoRe_DB_clone"; "BAM_0001"], Dir);
     (run_dir, Dir);
     (joinpath run_dir "metadata.txt", File metadata_lines);
     (f_r00100, File [header_gw_txt]);
     (["CoRe_DB_clone"; "backup"], Dir);
     (["CoRe_DB_clone"; "backup"; "BAM_0001"], Dir);
     (backup_dir, Dir);
     (joinpath backup_dir "metadata.txt", File metadata_lines);
     (f_backup, File [header_gw_txt])].

Definition artifact_of (f : Path) (rext : Z) : Artifact :=
  {| file := f; eccentricity := f_0_01; r_extraction := rext |}.

(** A metadata file whose eccentricity is not a float. *)
Definition metadata_unknown : list string :=
  ["database_key            = BAM:0001:R01";
   "id_eccentricity         = unknown"].

Definition tree_unknown : gmap (list string) node :=
  {[ joinpath run_dir "metadata.txt" := File metadata_unknown ]}.

(** Collaborators for a simulation that is on disk already: the
    synchronisation changes nothing, the dataset has two channels, and
    saving writes the header. The arrays are numbered. *)
Definition sync_noop (skey prot : string) (lfs : bool) (w : world)
  : result unit * world := (Ok tt, w).

Definition dset_two (run : CoRe_run) (w : world)
  : result (gmap string (list (string * nat))) * world :=
  (Ok {[ "rh_22" := [("Rh_l2_m2_r00100.txt", 1%nat);
                     ("Rh_l2_m2_r00250.txt", 2%nat)] ]}, w).

Definition savetxt_header (ofile : Path) (data : nat) (header : string)
  (w : world) : result unit * world :=
  (Ok tt, set_fs (<[ofile := File ["# " +:+ header]]> (fs w)) w).

Definition tree_raw : gmap (list string) node :=
  list_to_map
    [(["CoRe_DB_clone"], Dir);
     (["CoRe_DB_clone"; "BAM_0001"], Dir);
     (["CoRe_DB_clone"; "BAM_0001"; "R03"], Dir)].

End Examples.

(** ** Loading a strain *)

Module Loading.
Import PyStr PyNum PyPath CoReManager.

(** How a call of [load_sim] ends: with the data, with an exception of
    the methods above, or with the [StopIteration] of [next] on a
    dictionary without runs. *)
Inductive loaded (A : Type) : Type :=
  | Loaded (data : A)
  | LoadRaise (e : exn)
  | StopIteration.

Arguments Loaded {A} data.
Arguments LoadRaise {A} e.
Arguments StopIteration {A}.

Section Load.
Context {array : Type}.

(** [meta_sim.values()], in the iteration order of the dictionary. *)
Variable values : gmap string Artifact -> list Artifact.

(** [np.loadtxt(file)] *)
Variable np_loadtxt : Path -> world -> result array.

Definition load_sim (skey : string) (st : state) : loaded array :=
  match downloaded st !! skey with
  | None => LoadRaise KeyError
  | Some meta_sim =>
      match values meta_sim with
      | [] => StopIteration
      | a :: _ =>
          match np_loadtxt (file a) (env st) with
          | Ok gw_data => Loaded gw_data
          | Raise e => LoadRaise e
          end
      end
  end.

End Load.

End Loading.

(** ** More vocabulary *)

Module MoreSpec.
Import PyStr PyNum PyPath CoReManager Spec.

(** *** What the scan raises *)

(** The exception that the scan raises on a file it cannot read, by the
    statement that fails first. *)
Definition scan_error (tree : gmap (list string) node) (f : Path) : exn :=
  match part_from_end f 3, part_from_end f 2 with
  | Some _, Some _ =>
      match tree !! joinpath (parent f) "metadata.txt" with
      | Some (File lines) =>
          match first_tagged lines with
          | None => EOFError
          | Some _ => ValueError
          end
      | _ => OSError
      end
  | _, _ => IndexError
  end.

(** No dictionary of runs in the index is empty. *)
Definition inner_nonempty (txt_files : gmap string (gmap string Artifact))
  : Prop :=
  forall key d, txt_files !! key = Some d -> d <> ∅.


(** *** File and channel names *)

(** The name of the file that [download_strains] writes for a radius. *)
Definition saved_name (rext : Z) : string :=
  "Rh_l2_m2_r" +:+ fmt_05d rext +:+ ".txt".

(** The name of the channel extracted at infinity. *)
Definition inf_name : string := "Rh_l2_m2_rInf.txt".

(** A name that the channel [rh_22] of the database uses: a radius of
    five figures, or infinity. *)
Definition standard_channel (k : string) : Prop :=
  k = inf_name \/ exists r, 0 <= r <= 99999 /\ k = saved_name r.

(** *** Records of downloads *)

(** A record as [download_strains] makes it: a radius of five characters
    and, in some folder, the file named after it. *)
Definition saved_record (a : Artifact) : Prop :=
  -9999 <= r_extraction a <= 99999 /\
  exists p, file a = joinpath p (saved_name (r_extraction a)).

(** *** Runs with different numbers *)

(** No two entries hold the same number: of any two, one is below the
    other. *)
Definition distinct_values (l : list (string * pyfloat)) : Prop :=
  forall i j k x k' x',
    l !! i = Some (k, x) -> l !! j = Some (k', x') -> i <> j ->
    flt x x' = true \/ flt x' x = true.

(** *** Iteration orders *)

(** An iteration order of the values of the dictionaries: each value
    once. *)
Definition iterates (values : gmap string Artifact -> list Artifact)
  : Prop :=
  forall d, values d ≡ₚ (map_to_list d).*2.

End MoreSpec.

(** ** More sample data *)

Module MoreExamples.
Import PyStr PyNum PyPath CoReManager Spec Examples.

(** The raw data of the simulation as a clone holds it: an archive in
    the folder of the run, and the folder of the version control. *)
Definition tree_clone : gmap (list string) node :=
  list_to_map
    [(["CoRe_DB_clone"], Dir);
     (["CoRe_DB_clone"; "BAM_0001"], Dir);
     (["CoRe_DB_clone"; "BAM_0001"; ".git"], Dir);
     (["CoRe_DB_clone"; "BAM_0001"; ".git"; "config"], File []);
     (["CoRe_DB_clone"; "BAM_0001"; "R03"], Dir);
     (["CoRe_DB_clone"; "BAM_0001"; "R03"; "data.h5"], File []);
     (["CoRe_DB_clone"; "BAM_0001"; "R03"; "metadata.txt"],
      File ["id_eccentricity         = NAN"])].

(** R01: 0.05, R02: circular, R03: NAN. *)
Definition runs_unreadable : list (string * CoRe_run) :=
  [("R01", r01_005); ("R02", run_with "R02" (Some "circular"));
   ("R03", r03_NAN)].

(** R01: 0.05, R02: 0.01, R03: 0.0, and the same runs in another order. *)
Definition runs_distinct : list (string * CoRe_run) :=
  [("R01", r01_005); ("R02", r02_001); ("R03", run_with "R03" (Some "0.0"))].

Definition runs_distinct_rev : list (string * CoRe_run) :=
  [("R03", run_with "R03" (Some "0.0")); ("R02", r02_001); ("R01", r01_005)].

(** A reader that gives the number of lines of a file. *)
Definition loadtxt_lines (f : Path) (w : world) : result nat :=
  match fs w !! f with
  | Some (File lines) => Ok (length lines)
  | _ => Raise OSError
  end.

(** The values of a dictionary in the order of its keys. *)
Definition values_by_key (d : gmap string Artifact) : list Artifact :=
  (map_to_list d).*2.

End MoreExamples.

(** ** The strings that [float] reads *)

Module FloatSyntax.
Import PyStr PyNum Spec.

(** The characters [body] spell the word [w], each letter in either
    case. *)
Definition spells (w : string) (body : list ascii) : Prop :=
  map lower body = chars w.

(** What [float] reads, blanks and underscores apart: a sign and then one
    of the words [inf], [infinity] and [nan], or a decimal literal. *)
Inductive float_form : list ascii -> pyfloat -> Prop :=
  | form_inf (sg : option bool) (body : list ascii) :
      spells "inf" body \/ spells "infinity" body ->
      float_form (sign_chars sg ++ body) (S754_infinity (sign_neg sg))
  | form_nan (sg : option bool) (body : list ascii) :
      spells "nan" body ->
      float_form (sign_chars sg ++ body) S754_nan
  | form_literal (sg : option bool) (ip : list ascii)
      (fp : option (list ascii))
      (ex : option (bool * option bool * list ascii)) :
      literal_ok ip fp ex ->
      float_form (literal_chars sg ip fp ex) (literal_value sg ip fp ex).

(** [underscored core l]: [l] is [core] without its underscores, each of
    which stands between two digits. *)
Inductive underscored : list ascii -> list ascii -> Prop :=
  | und_nil : underscored [] []
  | und_char (c : ascii) (core l : list ascii) :
      c <> "_"%char -> underscored core l ->
      underscored (c :: core) (c :: l)
  | und_digits (a b : ascii) (core l : list ascii) :
      is_digit a = true -> is_digit b = true ->
      underscored (b :: core) l ->
      underscored (a :: "_"%char :: b :: core) (a :: l).

(** [float(s)] is [x]: blanks, what [float] reads with underscores
    between digits, blanks. *)
Definition float_reads (s : string) (x : pyfloat) : Prop :=
  exists b1 core b2 l,
    chars s = (b1 ++ core ++ b2)%list /\
    forallb is_blank b1 = true /\ forallb is_blank b2 = true /\
    underscored core l /\ float_form l x.

(** [s] is a decimal literal. *)
Definition decimal_literal (s : string) : Prop :=
  exists sg ip fp ex,
    literal_ok ip fp ex /\ chars s = literal_chars sg ip fp ex.

End FloatSyntax.

(** * Properties *)

(** ** Strings *)

Module PyStrFacts.
Import PyStr.

Lemma chars_inj (s1 s2 : string) : chars s1 = chars s2 -> s1 = s2.
Proof.
  intros H. rewrite <- (string_of_list_ascii_of_string s1).
  rewrite <- (string_of_list_ascii_of_string s2).
  unfold chars in H. by rewrite H.
Qed.

Lemma code_inj (a b : ascii) : code a = code b -> a = b.
Proof.
  unfold code. intros H.
  rewrite <- (ascii_N_embedding a), <- (ascii_N_embedding b). by rewrite H.
Qed.

Lemma lt_chars_irrefl (l : list ascii) : lt_chars l l = false.
Proof.
  induction l as [|a l IH]; simpl; [done|].
  rewrite N.ltb_irrefl. exact IH.
Qed.

Lemma lt_chars_trans (l1 l2 l3 : list ascii) :
  lt_chars l1 l2 = true -> lt_chars l2 l3 = true -> lt_chars l1 l3 = true.
Proof.
  revert l2 l3. induction l1 as [|a l1 IH]; intros [|b l2] [|c l3]; simpl;
    try done.
  destruct (N.ltb_spec (code a) (code b)), (N.ltb_spec (code b) (code a)),
    (N.ltb_spec (code b) (code c)), (N.ltb_spec (code c) (code b)),
    (N.ltb_spec (code a) (code c)), (N.ltb_spec (code c) (code a));
    try done; try lia.
  apply IH.
Qed.

Lemma lt_chars_total (l1 l2 : list ascii) :
  l1 <> l2 -> lt_chars l1 l2 = true \/ lt_chars l2 l1 = true.
Proof.
  revert l2. induction l1 as [|a l1 IH]; intros [|b l2] Hne; simpl;
    try done; auto.
  destruct (N.ltb_spec (code a) (code b)), (N.ltb_spec (code b) (code a));
    auto; try lia.
  assert (a = b) by (apply code_inj; lia). subst b.
  apply IH. congruence.
Qed.

Lemma ltb_irrefl (s : string) : ltb s s = false.
Proof. apply lt_chars_irrefl. Qed.

Lemma ltb_trans (s1 s2 s3 : string) :
  ltb s1 s2 = true -> ltb s2 s3 = true -> ltb s1 s3 = true.
Proof. apply lt_chars_trans. Qed.

Lemma ltb_total (s1 s2 : string) :
  s1 <> s2 -> ltb s1 s2 = true \/ ltb s2 s1 = true.
Proof.
  intros Hne. apply lt_chars_total. intros H. by apply Hne, chars_inj.
Qed.

(** [s3 <= s2 <= s1] gives [s3 <= s1]. *)
Lemma geb_trans (s1 s2 s3 : string) :
  ltb s1 s2 = false -> ltb s2 s3 = false -> ltb s1 s3 = false.
Proof.
  intros H12 H23. destruct (ltb s1 s3) eqn:H13; [|done].
  destruct (decide (s1 = s2)) as [->|Hne]; [congruence|].
  destruct (ltb_total _ _ Hne) as [H|H]; [congruence|].
  pose proof (ltb_trans _ _ _ H H13). congruence.
Qed.

(** A line that contains a word with a non-space first character has a
    token. *)
Lemma contains_chars_In (c : ascii) (sub l : list ascii) :
  contains_chars (c :: sub) l = true -> In c l.
Proof.
  induction l as [|a l IH]; simpl; [done|].
  intros H. apply orb_true_iff in H as [H|H].
  - apply andb_true_iff in H as [H _]. apply Ascii.eqb_eq in H. by left.
  - right. by apply IH.
Qed.

Lemma split_acc_cur (cur l : list ascii) :
  cur <> [] -> split_acc cur l <> [].
Proof.
  revert cur. induction l as [|a l IH]; intros cur Hcur; simpl.
  - by destruct cur.
  - destruct (is_space a).
    + by destruct cur.
    + by apply IH.
Qed.

Lemma split_acc_nonspace (c : ascii) (cur l : list ascii) :
  In c l -> is_space c = false -> split_acc cur l <> [].
Proof.
  revert cur. induction l as [|a l IH]; intros cur Hin Hc; simpl; [done|].
  destruct (is_space a) eqn:Ha.
  - destruct Hin as [->|Hin]; [congruence|].
    destruct cur; [by apply IH|done].
  - by apply split_acc_cur.
Qed.

Lemma split_tagged (line : string) :
  contains "id_eccentricity" line = true ->
  exists tok, last (split line) = Some tok.
Proof.
  intros H. apply contains_chars_In in H.
  assert (Hne : split line <> []).
  { unfold split. by eapply split_acc_nonspace. }
  destruct (last (split line)) as [tok|] eqn:E; [by exists tok|].
  apply last_None in E. done.
Qed.

Lemma length_chars (s : string) : length (chars s) = String.length s.
Proof.
  induction s as [|a s IH]; simpl; [done|]. by rewrite IH.
Qed.

Lemma length_str (l : list ascii) : String.length (str l) = length l.
Proof.
  induction l as [|a l IH]; simpl; [done|]. by rewrite IH.
Qed.

(** On a name of nine characters or more, [s[-9:-4]] has five. *)
Lemma slice_9_4_length (s : string) :
  (9 <= String.length s)%nat -> String.length (slice s (-9) (-4)) = 5%nat.
Proof.
  intros H. unfold slice. rewrite length_str, length_firstn, length_skipn.
  rewrite length_chars. unfold clamp. simpl. lia.
Qed.

End PyStrFacts.

(** ** Parsing an eccentricity *)

Module ParseFacts.
Import PyStr PyNum CoReManager Spec FloatSyntax.

Lemma float_of_empty : float_of_string "" = None.
Proof. reflexivity. Qed.

(** What the spellings of the undefined value parse to. *)
Lemma float_of_NAN : float_of_string "NAN" = Some nan.
Proof. reflexivity. Qed.

Example float_of_0_05 :
  float_of_string "0.05" = Some (S754_finite false 7205759403792794 (-57)).
Proof. vm_compute. reflexivity. Qed.

Example float_of_0_01 :
  float_of_string "0.01" = Some (S754_finite false 5764607523034235 (-59)).
Proof. vm_compute. reflexivity. Qed.

Example float_of_word : float_of_string "circular" = None.
Proof. reflexivity. Qed.

(** *** Decimal literals *)

Lemma plain_not_blank (c : ascii) : plain c -> is_blank c = false.
Proof.
  intros [H|[->|[->|[->|[->| ->]]]]]; try reflexivity.
  unfold is_digit, is_blank in *. destruct (code c) eqn:E; [done|].
  apply andb_true_iff in H as [H1 H2].
  apply N.leb_le in H1, H2.
  repeat match goal with
         | |- context [(?a <=? ?b)%N] => destruct (N.leb_spec a b)
         | |- context [(?a =? ?b)%N] => destruct (N.eqb_spec a b)
         end; simpl; try done; lia.
Qed.

Lemma plain_not_underscore (c : ascii) : plain c -> Ascii.eqb c "_" = false.
Proof.
  intros [H|[->|[->|[->|[->| ->]]]]]; try reflexivity.
  destruct (Ascii.eqb_spec c "_") as [->|]; [done|done].
Qed.

Lemma lstrip_plain (l : list ascii) : Forall plain l -> lstrip l = l.
Proof.
  destruct 1 as [|c l Hc _]; [done|]. simpl.
  by rewrite plain_not_blank.
Qed.

Lemma strip_plain (l : list ascii) : Forall plain l -> strip l = l.
Proof.
  intros H. unfold strip. rewrite (lstrip_plain l H).
  rewrite lstrip_plain; [apply rev_involutive|].
  apply Forall_forall. intros c Hc. apply list_elem_of_In, in_rev in Hc.
  rewrite Forall_forall in H. apply H. by apply list_elem_of_In.
Qed.

Lemma strip_underscores_plain (l : list ascii) (prev : option ascii) :
  Forall plain l ->
  match prev with Some p => Ascii.eqb p "_" = false | None => True end ->
  strip_underscores prev l = Some l.
Proof.
  intros H. revert prev. induction H as [|c l Hc _ IH]; intros prev Hp.
  - simpl. destruct prev as [p|]; [by rewrite Hp|done].
  - simpl. rewrite (plain_not_underscore c Hc).
    destruct prev as [p|]; [rewrite Hp|]; simpl;
      by rewrite IH by by apply plain_not_underscore.
Qed.

Lemma all_digits_plain (d : list ascii) : all_digits d = true -> Forall plain d.
Proof.
  unfold all_digits. rewrite forallb_forall, Forall_forall.
  intros H c Hc. left. apply H. by apply list_elem_of_In.
Qed.

Lemma sign_chars_plain (s : option bool) : Forall plain (sign_chars s).
Proof.
  destruct s as [[]|]; simpl; [| |constructor];
    (constructor; [unfold plain; auto 10|constructor]).
Qed.

Lemma digit_not_sign (c : ascii) :
  is_digit c = true ->
  Ascii.eqb c "-" = false /\ Ascii.eqb c "+" = false.
Proof.
  intros H. split.
  - by destruct (Ascii.eqb_spec c "-") as [->|].
  - by destruct (Ascii.eqb_spec c "+") as [->|].
Qed.

Lemma take_sign_chars (s : option bool) (body : list ascii) :
  starts_number body ->
  take_sign (sign_chars s ++ body) = (sign_neg s, body).
Proof.
  intros Hb. destruct s as [[]|]; [done..|].
  destruct body as [|c body]; [done|]. simpl in Hb.
  destruct Hb as [Hd| ->]; [|done].
  unfold take_sign, sign_chars, sign_neg. simpl.
  destruct (digit_not_sign c Hd) as [-> ->]. done.
Qed.

Lemma number_not_word (body : list ascii) (w : string) (a : ascii) (w' : string) :
  starts_number body ->
  w = String a w' ->
  is_digit a = false -> a <> "."%char ->
  String.eqb (str (map lower body)) w = false.
Proof.
  intros Hb -> Ha Hdot. destruct body as [|c body]; [done|]. simpl.
  assert (E : Ascii.eqb (lower c) a = false).
  { destruct Hb as [Hd| ->].
    - assert (lower c = c) as ->.
      { unfold lower, is_digit in *. apply andb_true_iff in Hd as [H1 H2].
        apply N.leb_le in H1, H2.
        destruct (N.leb_spec 65 (code c)); [|done].
        destruct (N.leb_spec (code c) 90); [lia|done]. }
      destruct (Ascii.eqb_spec c a) as [->|]; [congruence|done].
    - destruct (Ascii.eqb_spec (lower ".") a) as [<-|]; [done|done]. }
  by rewrite E.
Qed.

Lemma span_digits_app (d rest : list ascii) :
  all_digits d = true ->
  match rest with c :: _ => is_digit c = false | [] => True end ->
  span_digits (d ++ rest) = (d, rest).
Proof.
  intros Hd Hr. induction d as [|c d IH].
  - destruct rest as [|c rest]; [done|]. cbn. by rewrite Hr.
  - simpl in Hd. apply andb_true_iff in Hd as [Hc Hd].
    cbn. fold (d ++ rest)%list. by rewrite Hc, IH.
Qed.

Lemma parse_exponent_chars (ex : option (bool * option bool * list ascii)) :
  match ex with
  | None => True
  | Some (_, _, d) => all_digits d = true /\ d <> []
  end ->
  parse_exponent (exponent_chars ex) = Some (exponent_val ex).
Proof.
  destruct ex as [[[upper s] d]|]; [|done]. intros [Hd Hne]. simpl.
  assert (Hs : starts_number d).
  { destruct d as [|c d]; [done|]. simpl in *.
    apply andb_true_iff in Hd as [Hc _]. by left. }
  destruct upper; simpl; rewrite (take_sign_chars s d Hs);
    (destruct d; [done|]); by rewrite Hd.
Qed.

(** A decimal literal is a string that [float] accepts, and its value is
    the number it denotes, rounded. *)
Lemma float_of_literal (s : option bool) (ip : list ascii)
  (fp : option (list ascii)) (ex : option (bool * option bool * list ascii)) :
  literal_ok ip fp ex ->
  float_of_string (str (literal_chars s ip fp ex))
  = Some (literal_value s ip fp ex).
Proof.
  intros (Hip & Hfp & Hne & Hex).
  set (body := (ip ++ point_chars fp ++ exponent_chars ex)%list).
  assert (Hexp : Forall plain (exponent_chars ex)).
  { destruct ex as [[[upper sg] d]|]; [|constructor]. simpl.
    constructor; [destruct upper; unfold plain; auto 10|].
    apply Forall_app. split; [apply sign_chars_plain|].
    apply all_digits_plain, Hex. }
  assert (Hbody : Forall plain body).
  { apply Forall_app. split; [by apply all_digits_plain|].
    apply Forall_app. split; [|done].
    destruct fp as [f|]; [|constructor]. simpl.
    constructor; [unfold plain; auto 10|]. by apply all_digits_plain. }
  assert (Hstart : starts_number body).
  { unfold body. destruct ip as [|c ip]; simpl.
    - destruct fp as [f|]; [by right|]. done.
    - simpl in Hip. apply andb_true_iff in Hip as [Hc _]. by left. }
  unfold float_of_string, literal_chars, chars.
  rewrite list_ascii_of_string_of_list_ascii. fold body.
  rewrite strip_plain
    by (apply Forall_app; split; [apply sign_chars_plain|done]).
  rewrite strip_underscores_plain
    by first [done | apply Forall_app; split; [apply sign_chars_plain|done]].
  rewrite take_sign_chars by done.
  rewrite (number_not_word body "inf" "i" "nf") by done.
  rewrite (number_not_word body "infinity" "i" "nfinity") by done.
  rewrite (number_not_word body "nan" "n" "an") by done.
  simpl. unfold body.
  assert (Hex_head : match exponent_chars ex with
                     | c :: _ => is_digit c = false /\ c <> "."%char
                     | [] => True
                     end).
  { by destruct ex as [[[[] sg] d]|]. }
  rewrite span_digits_app; [|done|].
  2: { destruct fp as [f|]; [done|]. simpl.
       destruct (exponent_chars ex); [done|]. apply Hex_head. }
  unfold literal_value.
  destruct fp as [f|]; simpl in *.
  - rewrite span_digits_app; [|done|].
    2: { destruct (exponent_chars ex); [done|]. apply Hex_head. }
    rewrite parse_exponent_chars by done.
    destruct (ip ++ f)%list eqn:E; [done|]. done.
  - destruct (exponent_chars ex) as [|c r] eqn:E.
    + assert (ex = None) as -> by by destruct ex as [[[[] sg] d]|].
      rewrite app_nil_r in *. simpl.
      destruct ip; [done|]. done.
    + destruct Hex_head as [_ Hdot].
      destruct (Ascii.eqb_spec c ".") as [->|_]; [done|].
      rewrite <- E, parse_exponent_chars by done.
      rewrite app_nil_r in *. destruct ip; [done|]. done.
Qed.

Example literal_0_05 : str (literal_chars None ["0"%char]
                              (Some ["0"%char; "5"%char]) None) = "0.05".
Proof. reflexivity. Qed.

Example literal_minus_1_5E_3 :
  str (literal_chars (Some true) ["1"%char] (Some ["5"%char])
         (Some (true, Some true, ["0"%char; "3"%char]))) = "-1.5E-03".
Proof. reflexivity. Qed.

(** *** The strings that [float] reads *)

Lemma lstrip_split (l : list ascii) :
  exists b, l = (b ++ lstrip l)%list /\ forallb is_blank b = true.
Proof.
  induction l as [|c l (b & Hl & Hb)]; [by exists []|]. simpl.
  destruct (is_blank c) eqn:E; [|by exists []].
  exists (c :: b). simpl. rewrite E, Hb. split; [|done]. by rewrite <- Hl.
Qed.

Lemma strip_split (l : list ascii) :
  exists b1 b2,
    l = (b1 ++ strip l ++ b2)%list /\
    forallb is_blank b1 = true /\ forallb is_blank b2 = true.
Proof.
  destruct (lstrip_split l) as (b1 & Hl & Hb1).
  destruct (lstrip_split (rev (lstrip l))) as (b2 & Hr & Hb2).
  exists b1, (rev b2). split; [|split; [done|]].
  - unfold strip. rewrite <- rev_app_distr, <- Hr, rev_involutive. exact Hl.
  - rewrite forallb_forall in *. intros c Hc. apply Hb2. by apply in_rev.
Qed.

Lemma lstrip_blanks (b l : list ascii) :
  forallb is_blank b = true -> lstrip (b ++ l) = lstrip l.
Proof.
  induction b as [|c b IH]; [done|]. simpl. intros H.
  apply andb_true_iff in H as [-> H]. by apply IH.
Qed.

Lemma strip_blanks (b1 core b2 : list ascii) :
  forallb is_blank b1 = true -> forallb is_blank b2 = true ->
  core <> [] -> Forall (fun c => is_blank c = false) core ->
  strip (b1 ++ core ++ b2) = core.
Proof.
  intros H1 H2 Hne Hcore. unfold strip. rewrite lstrip_blanks by done.
  destruct core as [|c core]; [done|].
  assert (Hc : is_blank c = false) by by inversion Hcore.
  simpl. rewrite Hc.
  change (c :: (core ++ b2)%list) with ((c :: core) ++ b2)%list.
  rewrite rev_app_distr, lstrip_blanks.
  2:{ rewrite forallb_forall in *. intros a Ha. apply H2. by apply in_rev. }
  assert (Hrev : Forall (fun c => is_blank c = false) (rev (c :: core))).
  { apply Forall_forall. intros a Ha. rewrite Forall_forall in Hcore.
    apply Hcore. apply list_elem_of_In. apply in_rev.
    by apply list_elem_of_In. }
  destruct (rev (c :: core)) as [|a r] eqn:E.
  { apply (f_equal (@length ascii)) in E. rewrite length_rev in E. done. }
  assert (Ha : is_blank a = false) by by inversion Hrev.
  simpl. rewrite Ha. by rewrite <- E, rev_involutive.
Qed.

(** Underscores *)

Lemma strip_underscores_cons (prev : option ascii) (c : ascii)
  (l : list ascii) :
  strip_underscores prev (c :: l)
  = if Ascii.eqb c "_"
    then match prev with
         | Some p => if is_digit p then strip_underscores (Some c) l else None
         | None => None
         end
    else
      if match prev with
         | Some p => Ascii.eqb p "_" && negb (is_digit c)
         | None => false
         end
      then None
      else option_map (cons c) (strip_underscores (Some c) l).
Proof. reflexivity. Qed.

Lemma digit_not_underscore (c : ascii) :
  is_digit c = true -> Ascii.eqb c "_" = false.
Proof. intros H. by destruct (Ascii.eqb_spec c "_") as [->|]. Qed.

Lemma strip_underscores_underscored (core l : list ascii)
  (prev : option ascii) :
  underscored core l ->
  match prev with
  | Some p =>
      Ascii.eqb p "_" = true ->
      match core with c :: _ => is_digit c = true | [] => False end
  | None => True
  end ->
  strip_underscores prev core = Some l.
Proof.
  intros H. revert prev.
  induction H as [|c core l Hc _ IH|a b core l Ha Hb _ IH]; intros prev Hp.
  - simpl. destruct prev as [p|]; [|done].
    destruct (Ascii.eqb p "_"); [by destruct Hp|done].
  - rewrite strip_underscores_cons.
    destruct (Ascii.eqb_spec c "_") as [|_]; [done|].
    assert (Hbad : match prev with
                   | Some p => Ascii.eqb p "_" && negb (is_digit c)
                   | None => false
                   end = false).
    { destruct prev as [p|]; [|done].
      destruct (Ascii.eqb p "_"); [|done]. by rewrite Hp. }
    rewrite Hbad, IH; [done|].
    by destruct (Ascii.eqb_spec c "_").
  - rewrite strip_underscores_cons, (digit_not_underscore a Ha).
    assert (Hbad : match prev with
                   | Some p => Ascii.eqb p "_" && negb (is_digit a)
                   | None => false
                   end = false).
    { destruct prev as [p|]; [|done]. rewrite Ha. apply andb_false_r. }
    rewrite Hbad, strip_underscores_cons.
    change (Ascii.eqb "_" "_") with true. cbn iota. rewrite Ha.
    by rewrite (IH (Some "_"%char) (fun _ => Hb)).
Qed.

Lemma underscored_strip_underscores (core : list ascii) :
  forall prev l,
    strip_underscores prev core = Some l ->
    match core with
    | [] => l = []
    | c :: core' =>
        if Ascii.eqb c "_"
        then exists b rest, core' = b :: rest /\ is_digit b = true /\
                            underscored core' l /\
                            exists p, prev = Some p /\ is_digit p = true
        else underscored core l
    end.
Proof.
  induction core as [|c core IH]; intros prev l H.
  - simpl in H. destruct prev as [p|]; [|by simplify_eq].
    destruct (Ascii.eqb p "_"); by simplify_eq.
  - rewrite strip_underscores_cons in H.
    destruct (Ascii.eqb_spec c "_") as [->|Hc].
    + destruct prev as [p|]; [|done].
      destruct (is_digit p) eqn:Hp; [|done].
      destruct core as [|b rest]; [done|].
      pose proof (IH _ _ H) as IH'.
      rewrite strip_underscores_cons in H.
      destruct (Ascii.eqb_spec b "_") as [->|Hb]; [done|].
      change (Ascii.eqb "_" "_") with true in H. cbn iota in H.
      destruct (is_digit b) eqn:Hdb; [|done].
      exists b, rest. split; [done|]. split; [done|]. split; [done|].
      by exists p.
    + destruct (match prev with
                | Some p => Ascii.eqb p "_" && negb (is_digit c)
                | None => false
                end); [done|].
      destruct (strip_underscores (Some c) core) as [l1|] eqn:E; [|done].
      simpl in H. simplify_eq. specialize (IH _ _ E).
      destruct core as [|d core'].
      * subst. by repeat constructor.
      * destruct (Ascii.eqb_spec d "_") as [->|Hd].
        -- destruct IH as (b & rest & -> & Hb & Hund & p & [= <-] & Hp).
           by apply und_digits.
        -- by apply und_char.
Qed.

Lemma underscored_iff (core l : list ascii) :
  strip_underscores None core = Some l <-> underscored core l.
Proof.
  split.
  - intros H. pose proof (underscored_strip_underscores core None l H) as U.
    destruct core as [|c core']; [subst; constructor|].
    destruct (Ascii.eqb c "_"); [|done].
    by destruct U as (? & ? & _ & _ & _ & ? & [=] & _).
  - intros H. by apply strip_underscores_underscored.
Qed.

Lemma underscored_solid (core l : list ascii) :
  underscored core l ->
  Forall (fun c => is_blank c = false) l ->
  (l <> [] -> core <> []) /\ Forall (fun c => is_blank c = false) core.
Proof.
  induction 1 as [|c core l Hc _ IH|a b core l Ha Hb _ IH]; intros Hl.
  - done.
  - apply Forall_cons in Hl as [Hc' Hl]. destruct (IH Hl) as [_ IH'].
    split; [done|]. by constructor.
  - apply Forall_cons in Hl as [Ha' Hl]. destruct (IH Hl) as [_ IH'].
    split; [done|]. constructor; [done|]. by constructor.
Qed.

(** Signs, digits, exponents *)

Lemma take_sign_split (l body : list ascii) (neg : bool) :
  take_sign l = (neg, body) ->
  exists sg, l = (sign_chars sg ++ body)%list /\ sign_neg sg = neg.
Proof.
  destruct l as [|c l]; simpl.
  - intros [= <- <-]. by exists None.
  - destruct (Ascii.eqb_spec c "-") as [->|_].
    { intros [= <- <-]. by exists (Some true). }
    destruct (Ascii.eqb_spec c "+") as [->|_].
    { intros [= <- <-]. by exists (Some false). }
    intros [= <- <-]. by exists None.
Qed.

Lemma span_digits_split (l d r : list ascii) :
  span_digits l = (d, r) -> l = (d ++ r)%list /\ all_digits d = true.
Proof.
  revert d r. induction l as [|c l IH]; intros d r; simpl.
  - by intros [= <- <-].
  - destruct (is_digit c) eqn:Hc; [|by intros [= <- <-]].
    destruct (span_digits l) as [d1 r1]. intros [= <- <-].
    destruct (IH d1 r1 eq_refl) as [-> Hd]. simpl. by rewrite Hc, Hd.
Qed.

Lemma lower_e (c : ascii) :
  Ascii.eqb (lower c) "e" = true -> c = "e"%char \/ c = "E"%char.
Proof.
  destruct c as [[] [] [] [] [] [] [] []]; vm_compute; intros H;
    first [discriminate H | by left | by right].
Qed.

Lemma lower_blank (c : ascii) :
  is_blank c = true -> is_blank (lower c) = true.
Proof.
  destruct c as [[] [] [] [] [] [] [] []]; vm_compute; intros H;
    first [discriminate H | reflexivity].
Qed.

Lemma parse_exponent_split (r : list ascii) (e : Z) :
  parse_exponent r = Some e ->
  exists ex,
    r = exponent_chars ex /\ e = exponent_val ex /\
    match ex with
    | None => True
    | Some (_, _, d) => all_digits d = true /\ d <> []
    end.
Proof.
  destruct r as [|c r]; simpl.
  - intros [= <-]. by exists None.
  - destruct (Ascii.eqb (lower c) "e") eqn:Hc; [|done].
    destruct (take_sign r) as [neg d] eqn:Ht.
    destruct (take_sign_split _ _ _ Ht) as (sg & -> & Hsg).
    destruct d as [|a d]; [done|].
    destruct (all_digits (a :: d)) eqn:Hd; [|done]. intros [= <-].
    destruct (lower_e c Hc) as [-> | ->].
    + exists (Some (false, sg, a :: d)). simpl. by rewrite Hsg.
    + exists (Some (true, sg, a :: d)). simpl. by rewrite Hsg.
Qed.

(** Words *)

Lemma spells_eqb (w : string) (body : list ascii) :
  String.eqb (str (map lower body)) w = true <-> spells w body.
Proof.
  unfold spells. rewrite String.eqb_eq. split.
  - intros <-. unfold chars, str.
    by rewrite list_ascii_of_string_of_list_ascii.
  - intros ->. unfold chars, str. apply string_of_list_ascii_of_string.
Qed.

Lemma spells_solid (w : string) (body : list ascii) :
  spells w body ->
  Forall (fun c => is_blank c = false) (chars w) ->
  Forall (fun c => is_blank c = false) body.
Proof.
  unfold spells. intros <-. rewrite !Forall_forall. intros H c Hc.
  destruct (is_blank c) eqn:E; [|done].
  rewrite <- (H (lower c)); [symmetry; by apply lower_blank|].
  apply list_elem_of_In, in_map. by apply list_elem_of_In.
Qed.

Lemma take_sign_word (w : string) (sg : option bool) (body : list ascii) :
  spells w body ->
  match chars w with
  | a :: _ => a <> "-"%char /\ a <> "+"%char
  | [] => False
  end ->
  take_sign (sign_chars sg ++ body) = (sign_neg sg, body).
Proof.
  unfold spells. intros Hw Ha. destruct sg as [[]|]; [done..|].
  destruct body as [|c body]; simpl in *.
  { by rewrite <- Hw in Ha. }
  rewrite <- Hw in Ha. destruct Ha as [H1 H2].
  destruct (Ascii.eqb_spec c "-") as [->|_]; [done|].
  destruct (Ascii.eqb_spec c "+") as [->|_]; [done|]. done.
Qed.

Lemma literal_chars_plain (sg : option bool) (ip : list ascii)
  (fp : option (list ascii))
  (ex : option (bool * option bool * list ascii)) :
  literal_ok ip fp ex ->
  Forall plain (literal_chars sg ip fp ex) /\ literal_chars sg ip fp ex <> [].
Proof.
  intros (Hip & Hfp & Hne & Hex). unfold literal_chars. split.
  - apply Forall_app. split; [apply sign_chars_plain|].
    apply Forall_app. split; [by apply all_digits_plain|].
    apply Forall_app. split.
    + destruct fp as [f|]; [|constructor]. simpl.
      constructor; [unfold plain; auto 10|]. by apply all_digits_plain.
    + destruct ex as [[[upper s] d]|]; [|constructor]. simpl.
      constructor; [destruct upper; unfold plain; auto 10|].
      apply Forall_app. split; [apply sign_chars_plain|].
      apply all_digits_plain, Hex.
  - intros H. apply app_eq_nil in H as [_ H].
    apply app_eq_nil in H as [-> H]. apply app_eq_nil in H as [H _].
    destruct fp as [f|]; [done|]. done.
Qed.

Lemma float_form_solid (l : list ascii) (x : pyfloat) :
  float_form l x -> l <> [] /\ Forall (fun c => is_blank c = false) l.
Proof.
  assert (Hsign : forall sg, Forall (fun c => is_blank c = false)
                               (sign_chars sg)).
  { intros [[]|]; by repeat constructor. }
  assert (Hword : forall w sg body,
    spells w body -> chars w <> [] ->
    Forall (fun c => is_blank c = false) (chars w) ->
    (sign_chars sg ++ body)%list <> [] /\
    Forall (fun c => is_blank c = false) (sign_chars sg ++ body)).
  { intros w sg body Hw Hne Hs. split.
    - intros H. apply app_eq_nil in H as [_ ->]. unfold spells in Hw.
      simpl in Hw. by rewrite <- Hw in Hne.
    - apply Forall_app. split; [apply Hsign|]. by eapply spells_solid. }
  destruct 1 as [sg body [H|H]|sg body H|sg ip fp ex H].
  - apply (Hword "inf"); [done|done|by repeat constructor].
  - apply (Hword "infinity"); [done|done|by repeat constructor].
  - apply (Hword "nan"); [done|done|by repeat constructor].
  - destruct (literal_chars_plain sg ip fp ex H) as [Hp Hne].
    split; [done|]. eapply Forall_impl; [exact Hp|].
    intros c. apply plain_not_blank.
Qed.

(** [float] reads a string exactly when it is made that way, and that
    is its value. *)
Lemma float_of_string_reads (s : string) (x : pyfloat) :
  float_of_string s = Some x <-> float_reads s x.
Proof.
  split.
  - unfold float_of_string. intros H.
    destruct (strip_split (chars s)) as (b1 & b2 & Hs & Hb1 & Hb2).
    destruct (strip_underscores None (strip (chars s))) as [l|] eqn:Hu;
      [|done].
    apply underscored_iff in Hu.
    exists b1, (strip (chars s)), b2, l. do 4 (split; [done|]).
    destruct (take_sign l) as [neg body] eqn:Ht.
    destruct (take_sign_split _ _ _ Ht) as (sg & -> & <-).
    destruct (String.eqb (str (map lower body)) "inf") eqn:E1.
    { simpl in H. injection H as <-. apply form_inf. left.
      by apply spells_eqb. }
    destruct (String.eqb (str (map lower body)) "infinity") eqn:E2.
    { simpl in H. injection H as <-. apply form_inf. right.
      by apply spells_eqb. }
    simpl in H.
    destruct (String.eqb (str (map lower body)) "nan") eqn:E3.
    { injection H as <-. apply form_nan. by apply spells_eqb. }
    destruct (span_digits body) as [ip r1] eqn:Hip.
    destruct (span_digits_split _ _ _ Hip) as [-> Hipd].
    assert (Hnum : forall fp r2 (fpo : option (list ascii)),
      r1 = (point_chars fpo ++ r2)%list -> default [] fpo = fp ->
      all_digits fp = true ->
      match (ip ++ fp)%list with
      | [] => None
      | c :: ds =>
          match parse_exponent r2 with
          | Some ex =>
              Some (binary64_of_decimal (sign_neg sg) (digits_val (c :: ds))
                      (ex - Z.of_nat (length fp)))
          | None => None
          end
      end = Some x ->
      float_form (sign_chars sg ++ ip ++ r1) x).
    { intros fp r2 fpo -> Hfp Hfpd Hx.
      destruct (ip ++ fp)%list as [|c ds] eqn:Hds; [done|].
      destruct (parse_exponent r2) as [e|] eqn:He; [|done].
      destruct (parse_exponent_split _ _ He) as (ex & -> & -> & Hex).
      injection Hx as <-. rewrite <- Hds, <- Hfp.
      apply (form_literal sg ip fpo ex).
      unfold literal_ok. rewrite Hfp, Hds. done. }
    destruct r1 as [|c r1'].
    + apply (Hnum [] [] None); done.
    + destruct (Ascii.eqb_spec c ".") as [->|Hc].
      * destruct (span_digits r1') as [fp r2] eqn:Hfp.
        destruct (span_digits_split _ _ _ Hfp) as [-> Hfpd].
        apply (Hnum fp r2 (Some fp)); done.
      * apply (Hnum [] (c :: r1') None); done.
  - intros (b1 & core & b2 & l & Hs & Hb1 & Hb2 & Hu & Hf).
    destruct (float_form_solid l x Hf) as [Hne Hsolid].
    destruct (underscored_solid core l Hu Hsolid) as [Hcne Hcsolid].
    unfold float_of_string.
    rewrite Hs, strip_blanks by auto.
    apply underscored_iff in Hu. rewrite Hu.
    destruct Hf as [sg body Hw|sg body Hw|sg ip fp ex Hok].
    + assert (Ht : take_sign (sign_chars sg ++ body) = (sign_neg sg, body)).
      { destruct Hw as [Hw|Hw].
        - by apply (take_sign_word "inf").
        - by apply (take_sign_word "infinity"). }
      rewrite Ht.
      destruct Hw as [Hw|Hw].
      * apply spells_eqb in Hw. by rewrite Hw.
      * apply spells_eqb in Hw. rewrite Hw. by rewrite orb_true_r.
    + rewrite (take_sign_word "nan") by done.
      assert (E1 : String.eqb (str (map lower body)) "inf" = false).
      { destruct (String.eqb (str (map lower body)) "inf") eqn:E; [|done].
        apply spells_eqb in E. unfold spells in *. by rewrite Hw in E. }
      assert (E2 : String.eqb (str (map lower body)) "infinity" = false).
      { destruct (String.eqb (str (map lower body)) "infinity") eqn:E; [|done].
        apply spells_eqb in E. unfold spells in *. by rewrite Hw in E. }
      apply spells_eqb in Hw. by rewrite E1, E2, Hw.
    + pose proof (float_of_literal sg ip fp ex Hok) as H.
      destruct (literal_chars_plain sg ip fp ex Hok) as [Hp _].
      unfold float_of_string, chars, str in H.
      rewrite list_ascii_of_string_of_list_ascii in H.
      rewrite strip_plain, strip_underscores_plain in H by done.
      exact H.
Qed.

(** *** [cast_to_float] *)

Lemma cast_to_float_raises (o : option string) (e : exn) :
  cast_to_float o = Raise e -> e = ValueError.
Proof.
  destruct o as [s|]; simpl; [|done].
  destruct (String.eqb s ""); [done|].
  destruct (float_of_string s); simpl; congruence.
Qed.

Lemma decimal_literal_plain (s : string) :
  decimal_literal s -> Forall plain (chars s).
Proof.
  intros (sg & ip & fp & ex & Hok & ->).
  by destruct (literal_chars_plain sg ip fp ex Hok).
Qed.

(** C5. [cast_to_float] sends the empty string and [None] to
    not-a-number, and a string that [float] reads to the value [float]
    gives it. A decimal literal is such a string, and its value is the
    number it denotes, rounded; so are the words [inf], [infinity] and
    [nan] in any letter case, after a sign; blanks may stand around
    either, and an underscore between two digits. On every other string
    that is not empty it raises (a [ValueError]), and on no other: no such
    string gets a value. *)
Theorem cast_to_float_spec :
  cast_to_float None = Ok nan /\
  cast_to_float (Some "") = Ok nan /\
  (forall s ip fp ex,
      literal_ok ip fp ex ->
      cast_to_float (Some (str (literal_chars s ip fp ex)))
      = Ok (literal_value s ip fp ex)) /\
  (forall s x, float_of_string s = Some x -> cast_to_float (Some s) = Ok x) /\
  (forall o,
      cast_to_float o = Raise ValueError <->
      exists s, o = Some s /\ s <> "" /\ float_of_string s = None) /\
  (forall o e, cast_to_float o = Raise e -> e = ValueError) /\
  (forall s, s <> "" -> float_of_string s = None ->
             forall x, cast_to_float (Some s) <> Ok x) /\
  (forall s x, float_reads s x -> cast_to_float (Some s) = Ok x) /\
  (forall s x, s <> "" -> cast_to_float (Some s) = Ok x -> float_reads s x) /\
  (forall o,
      cast_to_float o = Raise ValueError <->
      exists s, o = Some s /\ s <> "" /\ ~ exists x, float_reads s x).
Proof.
  assert (Hval : forall s x, float_of_string s = Some x ->
                             cast_to_float (Some s) = Ok x).
  { intros s x Hs. simpl. destruct (String.eqb_spec s "") as [->|_].
    - by rewrite float_of_empty in Hs.
    - by rewrite Hs. }
  assert (Hraise : forall o,
    cast_to_float o = Raise ValueError <->
    exists s, o = Some s /\ s <> "" /\ float_of_string s = None).
  { intros o. split.
    - intros H. destruct o as [s|]; simpl in H; [|done].
      exists s. destruct (String.eqb_spec s "") as [Heq|Hne]; [done|].
      by destruct (float_of_string s).
    - intros (s & -> & Hne & Hs). simpl.
      destruct (String.eqb_spec s ""); [done|]. by rewrite Hs. }
  split; [reflexivity|]. split; [reflexivity|].
  split; [|split; [|split; [|split; [|split; [|split; [|split]]]]]].
  - intros s ip fp ex Hok. by apply Hval, float_of_literal.
  - exact Hval.
  - exact Hraise.
  - apply cast_to_float_raises.
  - intros s Hne Hs x. simpl.
    destruct (String.eqb_spec s ""); [done|]. by rewrite Hs.
  - intros s x Hr. by apply Hval, float_of_string_reads.
  - intros s x Hne. simpl. destruct (String.eqb_spec s ""); [done|].
    destruct (float_of_string s) as [y|] eqn:E; [|done]. simpl.
    intros [= <-]. by apply float_of_string_reads.
  - intros o. rewrite Hraise. split.
    + intros (s & -> & Hne & Hs). exists s. do 2 (split; [done|]).
      intros [x Hx]. apply float_of_string_reads in Hx. congruence.
    + intros (s & -> & Hne & Hs). exists s. do 2 (split; [done|]).
      destruct (float_of_string s) as [x|] eqn:E; [|done].
      destruct Hs. exists x. by apply float_of_string_reads.
Qed.

Lemma cast_to_float_spec_witness :
  cast_to_float (Some "0.05")
    = Ok (S754_finite false 7205759403792794 (-57)) /\
  cast_to_float (Some "-1.5E-03")
    = Ok (literal_value (Some true) ["1"%char] (Some ["5"%char])
            (Some (true, Some true, ["0"%char; "3"%char]))) /\
  cast_to_float (Some "circular") = Raise ValueError /\
  cast_to_float (Some " -Infinity") = Ok (S754_infinity true).
Proof.
  split; [|split; [|split]].
  - apply (proj1 (proj2 (proj2 (proj2 cast_to_float_spec)))).
    vm_compute. reflexivity.
  - apply (proj1 (proj2 (proj2 cast_to_float_spec))
             (Some true) ["1"%char] (Some ["5"%char])
             (Some (true, Some true, ["0"%char; "3"%char]))).
    repeat split; discriminate.
  - apply (proj1 (proj2 (proj2 (proj2 (proj2 cast_to_float_spec))))).
    exists "circular". repeat split. discriminate.
  - apply (proj1 (proj2 (proj2 (proj2 (proj2 (proj2 (proj2 (proj2
             cast_to_float_spec)))))))).
    exists [" "%char], (chars "-Infinity"), [], (chars "-Infinity").
    split; [reflexivity|]. split; [reflexivity|]. split; [reflexivity|].
    split; [repeat (apply und_char; [discriminate|]); apply und_nil|].
    apply (form_inf (Some true) (chars "Infinity")). right. reflexivity.
Defined.

(** The words that [float] reads are no decimal literals, and neither
    is a number with blanks around it or underscores in it; none of them
    is empty, and on none of them does [cast_to_float] raise. *)
Lemma cast_to_float_reads_more :
  (cast_to_float (Some "NAN") = Ok nan /\
   "NAN" <> "" /\ ~ decimal_literal "NAN") /\
  (cast_to_float (Some "inf") = Ok (S754_infinity false) /\
   "inf" <> "" /\ ~ decimal_literal "inf") /\
  (cast_to_float (Some " 1_0 ") = Ok (S754_finite false 5629499534213120 (-49)) /\
   " 1_0 " <> "" /\ ~ decimal_literal " 1_0 ").
Proof.
  assert (Hn : ~ plain "N"%char).
  { intros [H|[H|[H|[H|[H|H]]]]]; discriminate H. }
  assert (Hi : ~ plain "i"%char).
  { intros [H|[H|[H|[H|[H|H]]]]]; discriminate H. }
  assert (Hb : ~ plain " "%char).
  { intros [H|[H|[H|[H|[H|H]]]]]; discriminate H. }
  split; [|split]; (split; [vm_compute; reflexivity|]);
    (split; [discriminate|]); intros H%decimal_literal_plain;
    apply Forall_cons in H as [H _]; auto.
Qed.

End ParseFacts.

(** ** The channel selector *)

Module ChannelFacts.
Import PyStr PyNum CoReManager PyStrFacts.

(** [max] returns a key that no key exceeds. *)
Lemma fold_max_spec (keys : list string) (k0 : string) :
  let m := fold_left (fun m k' => if ltb m k' then k' else m) keys k0 in
  m ∈ k0 :: keys /\ forall k, k ∈ k0 :: keys -> ltb m k = false.
Proof.
  revert k0. induction keys as [|k1 keys IH]; intros k0; simpl.
  - split; [by left|]. intros k Hk. apply list_elem_of_singleton in Hk.
    subst. apply ltb_irrefl.
  - destruct (IH (if ltb k0 k1 then k1 else k0)) as [Hin Hmax].
    split.
    + apply elem_of_cons in Hin as [Hin|Hin].
      * rewrite Hin. destruct (ltb k0 k1); [right; left|left].
      * by do 2 right.
    + intros k Hk. apply elem_of_cons in Hk as [->|Hk].
      * destruct (ltb k0 k1) eqn:E.
        -- eapply geb_trans; [apply Hmax; left|].
           destruct (ltb k1 k0) eqn:E'; [|done].
           pose proof (ltb_trans _ _ _ E E') as F.
           by rewrite ltb_irrefl in F.
        -- apply Hmax. left.
      * apply elem_of_cons in Hk as [->|Hk].
        -- destruct (ltb k0 k1) eqn:E.
           ++ apply Hmax. left.
           ++ eapply geb_trans; [apply Hmax; left|done].
        -- apply Hmax. by right.
Qed.

Lemma py_max_spec (keys : list string) :
  keys <> [] ->
  exists m, py_max keys = Ok m /\ m ∈ keys /\
            forall k, k ∈ keys -> k <> m -> ltb k m = true.
Proof.
  destruct keys as [|k0 keys]; [done|]. intros _.
  destruct (fold_max_spec keys k0) as [Hin Hmax].
  eexists. split; [reflexivity|]. split; [done|].
  intros k Hk Hne. destruct (ltb_total _ _ Hne) as [H|H]; [done|].
  rewrite Hmax in H; done.
Qed.

Section WithArray.
Context {array : Type}.

(** C3. On a non-empty set of channels the chosen name is the greatest
    in the order of strings; with the marker [Inf] in it the radius is
    99999, otherwise it is the integer that [name[-9:-4]] spells (five
    characters when the name has nine or more), and a slice that spells
    no integer is a [ValueError]. The two sets of the examples give
    radius 250 and radius 99999. *)
Theorem highest_r_extraction_spec :
  (forall extractions : list (string * array),
      extractions <> [] ->
      exists rext_key,
        rext_key ∈ PyDict.keys extractions /\
        (forall k, k ∈ PyDict.keys extractions -> k <> rext_key ->
                   ltb k rext_key = true) /\
        ((9 <= String.length rext_key)%nat ->
         String.length (slice rext_key (-9) (-4)) = 5%nat) /\
        _get_highest_r_extraction_ extractions =
          if contains "Inf" rext_key then Ok (rext_key, 99999)
          else match int_of_string (slice rext_key (-9) (-4)) with
               | Some rext => Ok (rext_key, rext)
               | None => Raise ValueError
               end) /\
  (forall a b : array,
      _get_highest_r_extraction_
        [("Rh_l2_m2_r00100.txt", a); ("Rh_l2_m2_r00250.txt", b)]
      = Ok ("Rh_l2_m2_r00250.txt", 250) /\
      _get_highest_r_extraction_
        [("Rh_l2_m2_r00250.txt", b); ("Rh_l2_m2_r00100.txt", a)]
      = Ok ("Rh_l2_m2_r00250.txt", 250)) /\
  (forall a b : array,
      _get_highest_r_extraction_
        [("Rh_l2_m2_r00100.txt", a); ("Rh_l2_m2_rInf.txt", b)]
      = Ok ("Rh_l2_m2_rInf.txt", 99999) /\
      _get_highest_r_extraction_
        [("Rh_l2_m2_rInf.txt", b); ("Rh_l2_m2_r00100.txt", a)]
      = Ok ("Rh_l2_m2_rInf.txt", 99999)).
Proof.
  split; [|split; intros a b; split; reflexivity].
  intros extractions Hne.
  assert (Hk : PyDict.keys extractions <> []) by by destruct extractions.
  destruct (py_max_spec _ Hk) as (m & Hm & Hin & Hmax).
  exists m. split; [done|]. split; [done|].
  split; [apply slice_9_4_length|].
  unfold _get_highest_r_extraction_. rewrite Hm. simpl.
  destruct (contains "Inf" m); [done|].
  by destruct (int_of_string (slice m (-9) (-4))).
Qed.

End WithArray.

Lemma highest_r_extraction_spec_witness :
  let extractions :=
    [("Rh_l2_m2_r00400.txt", 1%nat); ("Rh_l2_m2_r00700.txt", 2%nat);
     ("Rh_l2_m2_r00550.txt", 3%nat)] in
  extractions <> [] /\
  exists rext_key,
    rext_key ∈ PyDict.keys extractions /\
    (forall k, k ∈ PyDict.keys extractions -> k <> rext_key ->
               ltb k rext_key = true) /\
    ((9 <= String.length rext_key)%nat ->
     String.length (slice rext_key (-9) (-4)) = 5%nat) /\
    _get_highest_r_extraction_ extractions =
      if contains "Inf" rext_key then Ok (rext_key, 99999)
      else match int_of_string (slice rext_key (-9) (-4)) with
           | Some rext => Ok (rext_key, rext)
           | None => Raise ValueError
           end.
Proof.
  intros extractions. split; [discriminate|].
  apply (proj1 (@highest_r_extraction_spec nat)). discriminate.
Defined.

End ChannelFacts.

(** ** The run selector *)

Module RunFacts.
Import PyStr PyNum CoReManager Spec Examples.

Lemma log_all_nil (st : state) : log_all [] st = st.
Proof. destruct st. unfold log_all. simpl. by rewrite app_nil_r. Qed.

Lemma log_all_log (evs : list event) (ev : event) (st : state) :
  log_all evs (log ev st) = log_all (ev :: evs) st.
Proof. unfold log_all, log. simpl. by rewrite <- app_assoc. Qed.

Lemma log_log_all (evs : list event) (ev : event) (st : state) :
  log ev (log_all evs st) = log_all (evs ++ [ev]) st.
Proof. unfold log_all, log. simpl. by rewrite <- app_assoc. Qed.

Lemma id_eccentricity_run (rkey : string) (run : CoRe_run) (st : state) :
  id_eccentricity rkey run st
  = (or_raise KeyError (md_data run !! "id_eccentricity"),
     log (EvEccentricity rkey) st).
Proof. reflexivity. Qed.

(** One turn of the loop on a run whose eccentricity can be read. *)
Lemma lowest_loop_step (rkey : string) (run : CoRe_run)
  (rest : list (string * CoRe_run)) (run_key : string) (ecc x : pyfloat)
  (st : state) :
  run_ecc run = Ok x ->
  lowest_loop ((rkey, run) :: rest) run_key ecc st
  = (if flt x ecc then lowest_loop rest rkey x
     else if isnan x then ret (rkey, x)
     else lowest_loop rest run_key ecc) (log (EvEccentricity rkey) st).
Proof.
  unfold run_ecc. intros H. simpl. unfold bind at 1.
  rewrite id_eccentricity_run.
  destruct (md_data run !! "id_eccentricity") as [e|]; simpl in *; [|done].
  unfold bind, lift. by rewrite H.
Qed.

(** A turn on a run whose eccentricity cannot be read raises. *)
Lemma lowest_loop_raise (rkey : string) (run : CoRe_run)
  (rest : list (string * CoRe_run)) (run_key : string) (ecc : pyfloat)
  (e : exn) (st : state) :
  run_ecc run = Raise e ->
  lowest_loop ((rkey, run) :: rest) run_key ecc st
  = (Raise e, log (EvEccentricity rkey) st).
Proof.
  unfold run_ecc. intros H. simpl. unfold bind at 1.
  rewrite id_eccentricity_run.
  destruct (md_data run !! "id_eccentricity") as [e'|]; simpl in *.
  - unfold bind, lift. by rewrite H.
  - congruence.
Qed.

Lemma flt_nan_l (x : pyfloat) : flt nan x = false.
Proof. reflexivity. Qed.

Lemma flt_isnan (x y : pyfloat) : isnan x = true -> flt x y = false.
Proof. by destruct x. Qed.

Lemma feq_not_flt (x y : pyfloat) : feq x y = true -> flt x y = false.
Proof.
  unfold feq, flt, SFeqb, SFltb. by destruct (SFcompare x y) as [[]|].
Qed.

Lemma feq_not_nan (x y : pyfloat) : feq x y = true -> isnan x = false.
Proof. by destruct x. Qed.

(** Over runs with numbers the loop reads every one of them and ends on
    a number. *)
Lemma lowest_loop_numeric (pre rest : list (string * CoRe_run))
  (run_key : string) (ecc : pyfloat) (st : state) :
  Forall (fun kr => numeric kr.2) pre ->
  exists k' e',
    lowest_loop (pre ++ rest) run_key ecc st
    = lowest_loop rest k' e' (log_all (reads pre) st) /\
    (isnan ecc = false -> isnan e' = false).
Proof.
  revert run_key ecc st.
  induction pre as [|[rkey run] pre IH]; intros run_key ecc st Hpre.
  - exists run_key, ecc. by rewrite log_all_nil.
  - apply Forall_cons in Hpre as [(x & Hx & Hnum) Hpre].
    change (run_ecc run = Ok x) in Hx.
    rewrite <- app_comm_cons, (lowest_loop_step _ _ _ _ _ x) by done.
    destruct (flt x ecc).
    + destruct (IH rkey x (log (EvEccentricity rkey) st) Hpre)
        as (k' & e' & -> & Hnan).
      exists k', e'. rewrite log_all_log. split; [done|]. intros _. auto.
    + rewrite Hnum.
      destruct (IH run_key ecc (log (EvEccentricity rkey) st) Hpre)
        as (k' & e' & -> & Hnan).
      exists k', e'. by rewrite log_all_log.
Qed.

(** The loop changes nothing but the trace. *)
Lemma lowest_loop_env (items : list (string * CoRe_run))
  (run_key : string) (ecc : pyfloat) (st : state) :
  let st' := (lowest_loop items run_key ecc st).2 in
  env st' = env st /\ downloaded st' = downloaded st.
Proof.
  revert run_key ecc st.
  induction items as [|[rkey run] items IH]; intros run_key ecc st; [done|].
  destruct (run_ecc run) as [x|e] eqn:E.
  - rewrite (lowest_loop_step _ _ _ _ _ x) by done.
    destruct (flt x ecc); [exact (IH _ _ (log (EvEccentricity rkey) st))|].
    destruct (isnan x); [done|].
    exact (IH _ _ (log (EvEccentricity rkey) st)).
  - by rewrite (lowest_loop_raise _ _ _ _ _ e).
Qed.

(** The call up to the loop, on a simulation whose reference run can be
    read. *)
Lemma lowest_eccentricity_unfold (skey : string) (st : state)
  (s : CoRe_sim) (runs : list (string * CoRe_run)) (r01 : CoRe_run)
  (x0 : pyfloat) :
  sim (env st) !! skey = Some s ->
  heap (env st) !! sim_run s = Some runs ->
  PyDict.getitem "R01" runs = Some r01 ->
  run_ecc r01 = Ok x0 ->
  get_runkey_lowest_eccentricity skey st
  = if isnan x0 then (Ok ("R01", x0), after_pop runs st)
    else lowest_loop (PyDict.remove "R01" runs) "R01" x0 (after_pop runs st).
Proof.
  intros Hs Hruns H01 Hx0.
  unfold get_runkey_lowest_eccentricity, bind at 1, cdb_sim.
  rewrite Hs. simpl. unfold bind at 1, PyDict.copy. rewrite Hruns.
  unfold bind at 1, PyDict.pop. simpl. rewrite lookup_insert_eq, H01.
  unfold bind at 1. rewrite id_eccentricity_run.
  unfold run_ecc in Hx0.
  destruct (md_data r01 !! "id_eccentricity") as [e|]; simpl in *; [|done].
  unfold bind at 1, lift at 1. rewrite Hx0.
  destruct (isnan x0); [done|].
  unfold bind, PyDict.items. simpl. by rewrite lookup_insert_eq.
Qed.

Lemma trace_after_pop (runs : list (string * CoRe_run)) (st : state) :
  trace (after_pop runs st) = (trace st ++ [EvEccentricity "R01"])%list.
Proof. reflexivity. Qed.

(** The spellings of an undefined eccentricity. *)
Lemma cast_to_float_nan_spellings :
  cast_to_float None = Ok nan /\ cast_to_float (Some "") = Ok nan
  /\ cast_to_float (Some "NAN") = Ok nan.
Proof. repeat split. Qed.

(** C4. When the eccentricity of the reference run R01 is not a number
    (as for [None], the empty string and the string NAN), the call
    returns R01 with that value, and the only eccentricity it has read is
    the one of R01, whatever the other runs hold. *)
Theorem nan_reference_returns (skey : string) (st : state) (s : CoRe_sim)
  (runs : list (string * CoRe_run)) (r01 : CoRe_run) (x0 : pyfloat) :
  sim (env st) !! skey = Some s ->
  heap (env st) !! sim_run s = Some runs ->
  PyDict.getitem "R01" runs = Some r01 ->
  run_ecc r01 = Ok x0 ->
  isnan x0 = true ->
  exists st',
    get_runkey_lowest_eccentricity skey st = (Ok ("R01", x0), st') /\
    trace st' = (trace st ++ [EvEccentricity "R01"])%list.
Proof.
  intros Hs Hruns H01 Hx0 Hnan.
  rewrite (lowest_eccentricity_unfold _ _ _ _ _ _ Hs Hruns H01 Hx0), Hnan.
  eexists. split; reflexivity.
Qed.

(** C1. When the reference run has a number, the first of the other runs,
    in iteration order, whose eccentricity is not a number is returned
    with that value, whatever numbers the runs before it hold, and no run
    after it is read. *)
Theorem first_nan_wins (skey : string) (st : state) (s : CoRe_sim)
  (runs pre post : list (string * CoRe_run)) (r01 r : CoRe_run)
  (k : string) (x0 y : pyfloat) :
  sim (env st) !! skey = Some s ->
  heap (env st) !! sim_run s = Some runs ->
  PyDict.getitem "R01" runs = Some r01 ->
  run_ecc r01 = Ok x0 ->
  isnan x0 = false ->
  PyDict.remove "R01" runs = (pre ++ (k, r) :: post)%list ->
  Forall (fun kr => numeric kr.2) pre ->
  run_ecc r = Ok y ->
  isnan y = true ->
  exists st',
    get_runkey_lowest_eccentricity skey st = (Ok (k, y), st') /\
    trace st'
    = (trace st ++ EvEccentricity "R01" :: reads pre ++ [EvEccentricity k])%list.
Proof.
  intros Hs Hruns H01 Hx0 Hnum Hsplit Hpre Hy Hnan.
  rewrite (lowest_eccentricity_unfold _ _ _ _ _ _ Hs Hruns H01 Hx0), Hnum.
  rewrite Hsplit.
  destruct (lowest_loop_numeric pre ((k, r) :: post) "R01" x0
              (after_pop runs st) Hpre) as (k' & e' & -> & _).
  rewrite (lowest_loop_step _ _ _ _ _ y) by done.
  rewrite flt_isnan, Hnan by done.
  eexists. split; [reflexivity|].
  simpl. rewrite <- !app_assoc. reflexivity.
Qed.

(** *** The order of the floats that are numbers *)

Lemma flt_key (x y : pyfloat) :
  isnan x = false -> isnan y = false ->
  (flt x y = true <-> key_lt (fkey x) (fkey y)).
Proof.
  unfold flt, SFltb, key_lt.
  destruct x as [[]|[]| |[] m1 e1], y as [[]|[]| |[] m2 e2]; simpl;
    intros Hx Hy; try done; try (split; [lia|done]);
    try (split; [done|lia]);
    (destruct (Z.compare_spec e1 e2);
     [change (Pos.compare_cont Eq m1 m2) with (Pos.compare m1 m2);
      destruct (Pos.compare_spec m1 m2)|..]);
    simpl; split; (done || lia).
Qed.

Lemma flt_irrefl (x : pyfloat) : flt x x = false.
Proof.
  destruct (isnan x) eqn:E; [by apply flt_isnan|].
  destruct (flt x x) eqn:F; [|done].
  apply flt_key in F; [|done..]. unfold key_lt in F. lia.
Qed.

Lemma flt_asym (x y : pyfloat) : flt x y = true -> flt y x = false.
Proof.
  intros H. destruct (isnan x) eqn:Ex; [by rewrite flt_isnan in H|].
  destruct (isnan y) eqn:Ey; [by apply flt_isnan|].
  destruct (flt y x) eqn:F; [|done].
  apply flt_key in H, F; [|done..]. unfold key_lt in *. lia.
Qed.

Lemma flt_key_false (x y : pyfloat) :
  isnan x = false -> isnan y = false ->
  (flt x y = false <-> ~ key_lt (fkey x) (fkey y)).
Proof.
  intros Ex Ey. rewrite <- (flt_key x y Ex Ey).
  destruct (flt x y); split; congruence.
Qed.

(** [x < y <= z] gives [x < z]. *)
Lemma flt_le_trans (x y z : pyfloat) :
  isnan z = false ->
  flt x y = true -> flt z y = false -> flt x z = true.
Proof.
  intros Ez H F. destruct (isnan x) eqn:Ex; [by rewrite flt_isnan in H|].
  destruct (isnan y) eqn:Ey; [by destruct x, y|].
  apply flt_key; [done..|]. apply flt_key in H; [|done..].
  apply flt_key_false in F; [|done..].
  unfold key_lt in *. lia.
Qed.

(** [x <= y < z] gives [x < z]. *)
Lemma le_flt_trans (x y z : pyfloat) :
  isnan x = false ->
  flt y x = false -> flt y z = true -> flt x z = true.
Proof.
  intros Ex F H. destruct (isnan y) eqn:Ey; [by rewrite flt_isnan in H|].
  destruct (isnan z) eqn:Ez; [by destruct y, z|].
  apply flt_key; [done..|]. apply flt_key in H; [|done..].
  apply flt_key_false in F; [|done..].
  unfold key_lt in *. lia.
Qed.

(** *** Ties *)

(** Over runs that hold numbers, the loop returns the first of the runs
    with the least value, the incumbent counting as the first run. *)
Lemma lowest_loop_first_min (items : list (string * CoRe_run))
  (vals : list (string * pyfloat)) (run_key : string) (ecc : pyfloat)
  (st : state) :
  isnan ecc = false ->
  holds items vals ->
  exists i k e,
    ((run_key, ecc) :: vals) !! i = Some (k, e) /\
    lowest_loop items run_key ecc st = (Ok (k, e), log_all (reads items) st) /\
    isnan e = false /\
    (forall j kj xj, ((run_key, ecc) :: vals) !! j = Some (kj, xj) ->
                     flt xj e = false) /\
    (forall j kj xj, ((run_key, ecc) :: vals) !! j = Some (kj, xj) ->
                     (j < i)%nat -> flt e xj = true).
Proof.
  intros Hecc Hholds. revert run_key ecc st Hecc.
  induction Hholds as [|kr kx items vals Hhead _ IH];
    intros run_key ecc st Hecc.
  2: destruct kr as [rkey run], kx as [k1 x1], Hhead as (Hk & Hx & Hnum);
     simpl in Hk, Hx, Hnum.
  - exists 0%nat, run_key, ecc. rewrite log_all_nil.
    repeat split; [done|..].
    + intros [|j] kj xj Hj; simplify_eq/=. apply flt_irrefl.
    + intros j kj xj _ Hj. lia.
  - subst k1. rewrite (lowest_loop_step _ _ _ _ _ x1) by done.
    destruct (flt x1 ecc) eqn:Hlt.
    + destruct (IH rkey x1 (log (EvEccentricity rkey) st) Hnum)
        as (i & k & e & Hi & -> & He & Hmin & Hfirst).
      exists (S i), k, e. rewrite log_all_log.
      assert (Hle : flt e ecc = true).
      { eapply le_flt_trans; [done| |exact Hlt].
        by apply (Hmin 0%nat rkey). }
      repeat split; [done..| |].
      * intros [|j] kj xj Hj; simplify_eq/=; [by apply flt_asym|].
        by apply (Hmin j kj).
      * intros [|j] kj xj Hj Hji; simplify_eq/=; [done|].
        apply (Hfirst j kj); [done|lia].
    + rewrite Hnum.
      destruct (IH run_key ecc (log (EvEccentricity rkey) st) Hecc)
        as (i & k & e & Hi & -> & He & Hmin & Hfirst).
      rewrite log_all_log. destruct i as [|i].
      * simplify_eq/=. exists 0%nat, k, e.
        repeat split; [done..| |].
        -- intros [|[|j]] kj xj Hj; simplify_eq/=; [apply flt_irrefl|done|].
           by apply (Hmin (S j) kj).
        -- intros j kj xj _ Hj. lia.
      * exists (S (S i)), k, e.
        assert (Hle : flt e ecc = true).
        { apply (Hfirst 0%nat run_key); [done|lia]. }
        assert (Hle1 : flt e x1 = true) by by eapply flt_le_trans.
        repeat split; [done..| |].
        -- intros [|[|j]] kj xj Hj; simplify_eq/=.
           ++ by apply flt_asym.
           ++ by apply flt_asym.
           ++ by apply (Hmin (S j) kj).
        -- intros [|[|j]] kj xj Hj Hji; simplify_eq/=; [done..|].
           apply (Hfirst (S j) kj); [done|lia].
Qed.

(** C8. A run whose number equals the current best leaves the incumbent
    in place; and over runs that hold numbers the loop, and so the call,
    returns the first run, in iteration order, among those with the least
    value: every run before the returned one holds a strictly greater
    number, the reference run counting as the first. *)
Theorem tie_keeps_incumbent :
  (forall (rkey : string) (run : CoRe_run) (rest : list (string * CoRe_run))
          (run_key : string) (ecc x : pyfloat) (st : state),
      run_ecc run = Ok x ->
      feq x ecc = true ->
      lowest_loop ((rkey, run) :: rest) run_key ecc st
      = lowest_loop rest run_key ecc (log (EvEccentricity rkey) st)) /\
  (forall (items : list (string * CoRe_run)) (vals : list (string * pyfloat))
          (run_key : string) (ecc : pyfloat) (st : state),
      isnan ecc = false ->
      holds items vals ->
      exists i k e,
        ((run_key, ecc) :: vals) !! i = Some (k, e) /\
        (lowest_loop items run_key ecc st).1 = Ok (k, e) /\
        (forall j kj xj, ((run_key, ecc) :: vals) !! j = Some (kj, xj) ->
                         flt xj e = false) /\
        (forall j kj xj, ((run_key, ecc) :: vals) !! j = Some (kj, xj) ->
                         (j < i)%nat -> flt e xj = true)) /\
  (forall (skey : string) (st : state) (s : CoRe_sim)
          (runs : list (string * CoRe_run)) (r01 : CoRe_run) (x0 : pyfloat)
          (vals : list (string * pyfloat)),
      sim (env st) !! skey = Some s ->
      heap (env st) !! sim_run s = Some runs ->
      PyDict.getitem "R01" runs = Some r01 ->
      run_ecc r01 = Ok x0 ->
      isnan x0 = false ->
      holds (PyDict.remove "R01" runs) vals ->
      exists i k e,
        (("R01", x0) :: vals) !! i = Some (k, e) /\
        (get_runkey_lowest_eccentricity skey st).1 = Ok (k, e) /\
        (forall j kj xj, (("R01", x0) :: vals) !! j = Some (kj, xj) ->
                         flt xj e = false) /\
        (forall j kj xj, (("R01", x0) :: vals) !! j = Some (kj, xj) ->
                         (j < i)%nat -> flt e xj = true)).
Proof.
  split; [|split].
  - intros rkey run rest run_key ecc x st Hx Heq.
    rewrite (lowest_loop_step _ _ _ _ _ x) by done.
    by rewrite (feq_not_flt _ _ Heq), (feq_not_nan _ _ Heq).
  - intros items vals run_key ecc st Hecc Hholds.
    destruct (lowest_loop_first_min items vals run_key ecc st Hecc Hholds)
      as (i & k & e & Hi & Hrun & _ & Hmin & Hfirst).
    exists i, k, e. rewrite Hrun. done.
  - intros skey st s runs r01 x0 vals Hs Hruns H01 Hx0 Hnum Hholds.
    rewrite (lowest_eccentricity_unfold _ _ _ _ _ _ Hs Hruns H01 Hx0), Hnum.
    destruct (lowest_loop_first_min _ vals "R01" x0 (after_pop runs st)
                Hnum Hholds) as (i & k & e & Hi & Hrun & _ & Hmin & Hfirst).
    exists i, k, e. rewrite Hrun. done.
Qed.

(** *** The runs of the simulation are left as they were *)

Lemma fresh_heap_lookup (h : gmap nat (list (string * CoRe_run))) (l : nat)
  (d : list (string * CoRe_run)) :
  h !! l = Some d -> l <> fresh (dom h).
Proof.
  intros H ->. pose proof (is_fresh (dom h)) as F.
  apply F, elem_of_dom. by eexists.
Qed.

(** The world after the call: as before it, or with one more dictionary,
    the copy, from which the reference run has been popped if it was
    there. *)
Lemma lowest_eccentricity_world (skey : string) (st : state) :
  let st' := (get_runkey_lowest_eccentricity skey st).2 in
  match sim (env st) !! skey with
  | None => env st' = env st
  | Some s =>
      match heap (env st) !! sim_run s with
      | None => env st' = env st
      | Some runs =>
          env st'
          = {| fs := fs (env st);
               heap := <[fresh (dom (heap (env st))) :=
                           match PyDict.getitem "R01" runs with
                           | Some _ => PyDict.remove "R01" runs
                           | None => runs
                           end]> (heap (env st));
               sim := sim (env st) |}
      end
  end.
Proof.
  intros st'. assert (E : st' = (get_runkey_lowest_eccentricity skey st).2)
    by done. clearbody st'. revert E.
  unfold get_runkey_lowest_eccentricity, bind at 1, cdb_sim.
  destruct (sim (env st) !! skey) as [s|] eqn:Hs; simpl; [|by intros ->].
  unfold bind at 1, PyDict.copy.
  destruct (heap (env st) !! sim_run s) as [runs|] eqn:Hruns;
    [|by intros ->].
  unfold bind at 1, PyDict.pop. simpl. rewrite lookup_insert_eq.
  destruct (PyDict.getitem "R01" runs) as [r01|] eqn:H01; [|by intros ->].
  assert (Hgoal : forall st1,
    env st1 = {| fs := fs (env st);
                 heap := <[fresh (dom (heap (env st))) :=
                             PyDict.remove "R01" runs]>
                           (<[fresh (dom (heap (env st))) := runs]>
                              (heap (env st)));
                 sim := sim (env st) |} ->
    st' = st1 ->
    env st' = {| fs := fs (env st);
                 heap := <[fresh (dom (heap (env st))) :=
                             PyDict.remove "R01" runs]> (heap (env st));
                 sim := sim (env st) |}).
  { intros st1 H1 ->. by rewrite H1, insert_insert_eq. }
  unfold bind at 1. rewrite id_eccentricity_run.
  destruct (md_data r01 !! "id_eccentricity") as [e|]; simpl;
    [|by apply Hgoal].
  unfold bind at 1, lift at 1.
  destruct (cast_to_float e) as [x0|err]; [|by apply Hgoal].
  destruct (isnan x0); [by apply Hgoal|].
  unfold bind at 1, PyDict.items. simpl. rewrite lookup_insert_eq. simpl.
  apply Hgoal.
  match goal with
  | |- env (lowest_loop ?i ?k ?x ?s).2 = _ =>
      by destruct (lowest_loop_env i k x s) as [-> _]
  end.
Qed.

(** C10. Whatever the call ends in, [cdb.sim] and every dictionary of
    runs that existed before the call are as they were, so the runs of
    the simulation keep their keys; the reference run is popped from a
    new dictionary, the copy. *)
Theorem lowest_eccentricity_keeps_runs (skey : string) (st : state) :
  let st' := (get_runkey_lowest_eccentricity skey st).2 in
  sim (env st') = sim (env st) /\
  fs (env st') = fs (env st) /\
  (forall l d, heap (env st) !! l = Some d -> heap (env st') !! l = Some d) /\
  (forall s runs,
      sim (env st) !! skey = Some s ->
      heap (env st) !! sim_run s = Some runs ->
      PyDict.keys <$> heap (env st') !! sim_run s = Some (PyDict.keys runs) /\
      (is_Some (PyDict.getitem "R01" runs) ->
       heap (env st') !! fresh (dom (heap (env st)))
       = Some (PyDict.remove "R01" runs))).
Proof.
  intros st'. pose proof (lowest_eccentricity_world skey st) as E.
  fold st' in E. clearbody st'.
  assert (Hfresh : forall l d, heap (env st) !! l = Some d ->
                               l <> fresh (dom (heap (env st)))).
  { intros l d Hl. by eapply fresh_heap_lookup. }
  destruct (sim (env st) !! skey) as [s|] eqn:Hs.
  2: { rewrite E. do 3 (split; [done|]). by intros ? ? [=]. }
  destruct (heap (env st) !! sim_run s) as [runs|] eqn:Hruns.
  2: { rewrite E. do 3 (split; [done|]). intros ? ? [= <-]. congruence. }
  rewrite E. simpl. do 2 (split; [done|]). split.
  - intros l d Hl. rewrite lookup_insert_ne; [done|].
    intros <-. by eapply Hfresh.
  - intros s' runs' Hs' Hruns'.
    assert (s' = s) by congruence. subst s'.
    assert (runs' = runs) by congruence. subst runs'. split.
    + rewrite lookup_insert_ne; [by rewrite Hruns|].
      intros Heq. by apply (Hfresh _ _ Hruns).
    + intros [r01 H01]. by rewrite lookup_insert_eq, H01.
Qed.

(** *** On the sample runs *)

Lemma first_nan_wins_witness :
  exists st',
    get_runkey_lowest_eccentricity "BAM:0001" (manager runs_nan_last ∅)
    = (Ok ("R03", nan), st') /\
    trace st'
    = [EvEccentricity "R01"; EvEccentricity "R02"; EvEccentricity "R03"].
Proof.
  apply (first_nan_wins "BAM:0001" (manager runs_nan_last ∅) sim_BAM
           runs_nan_last [("R02", r02_001)] [] r01_005 r03_NAN "R03"
           f_0_05 nan).
  - reflexivity.
  - reflexivity.
  - reflexivity.
  - vm_compute. reflexivity.
  - reflexivity.
  - reflexivity.
  - repeat constructor. exists f_0_01. split; [vm_compute|]; reflexivity.
  - reflexivity.
  - reflexivity.
Defined.

Lemma nan_reference_returns_witness :
  exists st',
    get_runkey_lowest_eccentricity "BAM:0001" (manager runs_nan_first ∅)
    = (Ok ("R01", nan), st') /\
    trace st' = [EvEccentricity "R01"].
Proof.
  apply (nan_reference_returns "BAM:0001" (manager runs_nan_first ∅) sim_BAM
           runs_nan_first r01_NAN nan); reflexivity.
Defined.

Lemma tie_keeps_incumbent_witness :
  exists i k e,
    [("R01", f_0_05); ("R02", f_0_01); ("R03", f_0_01); ("R04", f_0_05)]
      !! i = Some (k, e) /\
    (lowest_loop runs_tie "R01" f_0_05 (manager runs_nan_last ∅)).1
    = Ok (k, e) /\
    (forall j kj xj,
        [("R01", f_0_05); ("R02", f_0_01); ("R03", f_0_01); ("R04", f_0_05)]
          !! j = Some (kj, xj) -> flt xj e = false) /\
    (forall j kj xj,
        [("R01", f_0_05); ("R02", f_0_01); ("R03", f_0_01); ("R04", f_0_05)]
          !! j = Some (kj, xj) -> (j < i)%nat -> flt e xj = true).
Proof.
  apply (proj1 (proj2 tie_keeps_incumbent) runs_tie
           [("R02", f_0_01); ("R03", f_0_01); ("R04", f_0_05)]
           "R01" f_0_05 (manager runs_nan_last ∅)).
  - reflexivity.
  - repeat constructor; vm_compute; reflexivity.
Defined.

Example tie_first_run_selected :
  (lowest_loop runs_tie "R01" f_0_05 (manager runs_nan_last ∅)).1
  = Ok ("R02", f_0_01).
Proof. vm_compute. reflexivity. Qed.

Example keeps_runs_example :
  let st := manager runs_nan_last ∅ in
  let st' := (get_runkey_lowest_eccentricity "BAM:0001" st).2 in
  heap (env st') !! 0%nat = Some runs_nan_last /\
  PyDict.keys <$> heap (env st') !! 1%nat = Some ["R02"; "R03"].
Proof. vm_compute. split; reflexivity. Qed.

End RunFacts.

(** ** The cache index *)

Module CacheFacts.
Import PyStr PyNum PyPath CoReManager Spec Examples PyStrFacts.

(** *** Reading the eccentricity of a cached file *)

Lemma first_tagged_None (lines : list string) :
  first_tagged lines = None <->
  forall line, line ∈ lines -> contains "id_eccentricity" line = false.
Proof.
  induction lines as [|l lines IH]; simpl.
  - split; [|done]. intros _ line Hin. by apply elem_of_nil in Hin.
  - destruct (contains "id_eccentricity" l) eqn:E.
    + split; [done|]. intros H. rewrite H in E; [done|left].
    + rewrite IH. split.
      * intros H line Hin. apply elem_of_cons in Hin as [->|Hin]; auto.
      * intros H line Hin. apply H. by right.
Qed.

Lemma first_tagged_app (pre post : list string) (line : string) :
  (forall l, l ∈ pre -> contains "id_eccentricity" l = false) ->
  contains "id_eccentricity" line = true ->
  first_tagged (pre ++ line :: post) = Some line.
Proof.
  intros Hpre Hline. induction pre as [|l pre IH]; simpl.
  - by rewrite Hline.
  - rewrite (Hpre l) by left. apply IH. intros l' Hl'. apply Hpre. by right.
Qed.

Lemma read_eccentricity_lines (f : Path) (lines : list string) (st : state) :
  fs (env st) !! f = Some (File lines) ->
  _read_eccentricity f st
  = (match first_tagged lines with
     | None => Raise EOFError
     | Some line =>
         match last (split line) with
         | Some tok => Ok (default nan (float_of_string tok))
         | None => Raise IndexError
         end
     end, st).
Proof.
  intros Hf. unfold _read_eccentricity, bind at 1, open_lines. rewrite Hf.
  destruct (first_tagged lines) as [line|]; [|done].
  unfold bind, lift. destruct (last (split line)) as [tok|]; simpl; [|done].
  by destruct (float_of_string tok).
Qed.

(** C6. On a metadata file, the call raises [EOFError] exactly when no
    line has the tag; when a line has it, the first such line has a last
    token, and the call returns the float of that token, or not-a-number
    when the token is not a float: it raises nothing then. *)
Theorem read_eccentricity_spec (f : Path) (lines : list string)
  (st : state) :
  fs (env st) !! f = Some (File lines) ->
  (_read_eccentricity f st = (Raise EOFError, st) <->
   forall line, line ∈ lines -> contains "id_eccentricity" line = false) /\
  (forall pre line post,
      lines = (pre ++ line :: post)%list ->
      (forall l, l ∈ pre -> contains "id_eccentricity" l = false) ->
      contains "id_eccentricity" line = true ->
      exists tok,
        last (split line) = Some tok /\
        _read_eccentricity f st
        = (Ok (match float_of_string tok with
               | Some ecc => ecc
               | None => nan
               end), st)).
Proof.
  intros Hf. rewrite (read_eccentricity_lines f lines st Hf). split.
  - rewrite <- first_tagged_None.
    destruct (first_tagged lines) as [line|] eqn:E; [|done].
    split; [|done]. by destruct (last (split line)).
  - intros pre line post -> Hpre Hline.
    rewrite (first_tagged_app pre post line Hpre Hline).
    destruct (split_tagged line Hline) as [tok Htok].
    exists tok. rewrite Htok. split; [done|].
    by destruct (float_of_string tok).
Qed.

(** *** The scan *)

Lemma lines_ecc_tagged (lines : list string) :
  lines_ecc lines = None <-> first_tagged lines = None.
Proof.
  unfold lines_ecc. destruct (first_tagged lines) as [line|] eqn:E; [|done].
  split; [|done]. intros H. exfalso.
  assert (Hl : contains "id_eccentricity" line = true).
  { clear H. induction lines as [|l lines IH]; simpl in E; [done|].
    destruct (contains "id_eccentricity" l) eqn:El; [congruence|auto]. }
  destruct (split_tagged line Hl) as [tok Htok]. by rewrite Htok in H.
Qed.

Lemma record_of_store (key run : string) (a : Artifact)
  (tf : gmap string (gmap string Artifact)) (k r : string) :
  record_of (store key run a tf) k r
  = if String.eqb k key && String.eqb r run then Some a
    else record_of tf k r.
Proof.
  unfold record_of, store.
  destruct (String.eqb_spec k key) as [->|Hk]; simpl.
  - rewrite lookup_insert_eq.
    destruct (String.eqb_spec r run) as [->|Hr].
    + by rewrite lookup_insert_eq.
    + rewrite lookup_insert_ne by done.
      by destruct (tf !! key).
  - by rewrite lookup_insert_ne.
Qed.

Lemma store_fresh_key (key run : string) (a : Artifact)
  (tf : gmap string (gmap string Artifact)) :
  tf !! key = None ->
  store key run a (<[key := ∅]> tf) = store key run a tf.
Proof.
  intros H. unfold store. rewrite lookup_insert_eq, H. simpl.
  by rewrite insert_insert_eq.
Qed.

(** One turn of the scan on a file it can read. *)
Lemma look_loop_step (f : Path) (rest : list (list string))
  (tf : gmap string (gmap string Artifact)) (st : state)
  (key run : string) (a : Artifact) :
  scanned (fs (env st)) f = Some (key, run, a) ->
  radii_ok tf ->
  look_loop (f :: rest) tf st
  = look_loop rest (store key run (keep (record_of tf key run) a) tf) st /\
  radii_ok (store key run (keep (record_of tf key run) a) tf).
Proof.
  unfold scanned. intros Hsc Hok.
  destruct (part_from_end f 3) as [p3|] eqn:H3; [|done].
  destruct (part_from_end f 2) as [run'|] eqn:H2; [|done].
  destruct (fs (env st) !! joinpath (parent f) "metadata.txt")
    as [[lines|]|] eqn:Hmd; [|done..].
  destruct (int_of_string (slice_from (stem f) (-5))) as [rext|] eqn:Hr;
    [|done].
  destruct (lines_ecc lines) as [ecc|] eqn:He; [|done].
  injection Hsc as <- <- <-.
  assert (Hrd : _read_eccentricity (joinpath (parent f) "metadata.txt") st
                = (Ok ecc, st)).
  { rewrite (read_eccentricity_lines _ lines) by done.
    unfold lines_ecc in He.
    destruct (first_tagged lines) as [line|]; [|done].
    destruct (last (split line)); by simplify_eq. }
  assert (Hself : stem_radius f = Ok rext).
  { unfold stem_radius. by rewrite Hr. }
  split.
  - simpl. rewrite H3. unfold bind at 1, lift at 1. simpl.
    rewrite H2. unfold bind at 1, lift at 1. simpl.
    unfold bind at 1. rewrite Hrd.
    unfold bind at 1, lift at 1. rewrite Hself.
    unfold record_of, keep.
    destruct (tf !! replace_char "_" ":" p3) as [d|] eqn:Hd.
    + destruct (d !! run') as [a0|] eqn:Ha0; [|done].
      unfold bind at 1, lift at 1.
      rewrite (Hok (replace_char "_" ":" p3) run' a0).
      * simpl. destruct (rext <? r_extraction a0) eqn:Hlt; [|done].
        enough (E : store (replace_char "_" ":" p3) run' a0 tf = tf)
          by by rewrite E.
        unfold store. rewrite Hd. simpl.
        rewrite (insert_id d) by done. by apply insert_id.
      * unfold record_of. by rewrite Hd.
    + by rewrite store_fresh_key.
  - intros k r b. rewrite record_of_store.
    destruct (String.eqb k _ && String.eqb r run'); [|apply Hok].
    intros [= <-]. unfold keep.
    destruct (record_of tf _ run') as [a0|] eqn:Ha0; [|done].
    destruct (r_extraction _ <? r_extraction a0); [|done].
    by apply (Hok _ _ _ Ha0).
Qed.

Lemma radii_ok_empty : radii_ok ∅.
Proof. intros key run a. unfold record_of. by rewrite lookup_empty. Qed.

(** The scan of files it can read ends, leaves the state as it was, and
    holds for every pair the record that the rule gives. *)
Lemma look_loop_winner (scan : list (list string))
  (tf : gmap string (gmap string Artifact)) (st : state) :
  Forall (scannable (fs (env st))) scan ->
  radii_ok tf ->
  exists tf',
    look_loop scan tf st = (Ok tf', st) /\
    radii_ok tf' /\
    forall key run,
      record_of tf' key run
      = winner (fs (env st)) key run scan (record_of tf key run).
Proof.
  intros Hscan. revert tf.
  induction Hscan as [|f scan [[[key run] a] Hf] _ IH]; intros tf Hok.
  - by exists tf.
  - destruct (look_loop_step f scan tf st key run a Hf Hok) as [-> Hok'].
    destruct (IH _ Hok') as (tf' & -> & Hok'' & Hrec).
    exists tf'. do 2 (split; [done|]). intros k r.
    rewrite Hrec, record_of_store. simpl. unfold artifact_for. rewrite Hf.
    rewrite (String.eqb_sym key k), (String.eqb_sym run r).
    destruct (String.eqb k key && String.eqb r run) eqn:E; [|done].
    apply andb_true_iff in E as [->%String.eqb_eq ->%String.eqb_eq]. done.
Qed.

Lemma winner_app (tree : gmap (list string) node) (key run : string)
  (l1 l2 : list (list string)) (cur : option Artifact) :
  winner tree key run (l1 ++ l2) cur
  = winner tree key run l2 (winner tree key run l1 cur).
Proof. apply fold_left_app. Qed.

Lemma winner_others (tree : gmap (list string) node) (key run : string)
  (l : list (list string)) (cur : option Artifact) :
  (forall f, f ∈ l -> artifact_for tree key run f = None) ->
  winner tree key run l cur = cur.
Proof.
  revert cur. induction l as [|f l IH]; intros cur Hl; [done|].
  simpl. rewrite (Hl f) by left. apply IH. intros g Hg. apply Hl. by right.
Qed.

(** The record of a pair is the last, in scan order, of its files of
    greatest radius. *)
Lemma winner_last_max (tree : gmap (list string) node) (key run : string)
  (scan : list (list string)) :
  match winner tree key run scan None with
  | None => forall f, f ∈ scan -> artifact_for tree key run f = None
  | Some a =>
      exists l1 f l2,
        scan = (l1 ++ f :: l2)%list /\
        artifact_for tree key run f = Some a /\
        (forall g b, g ∈ l1 -> artifact_for tree key run g = Some b ->
                     r_extraction b <= r_extraction a) /\
        (forall g b, g ∈ l2 -> artifact_for tree key run g = Some b ->
                     r_extraction b < r_extraction a)
  end.
Proof.
  induction scan as [|f scan IH] using rev_ind.
  - simpl. intros f Hf. by apply elem_of_nil in Hf.
  - rewrite winner_app. simpl.
    destruct (artifact_for tree key run f) as [a|] eqn:Hf.
    + destruct (winner tree key run scan None) as [a0|]; simpl.
      * destruct IH as (l1 & f0 & l2 & -> & Hf0 & H1 & H2).
        destruct (r_extraction a <? r_extraction a0) eqn:Hlt.
        -- exists l1, f0, (l2 ++ [f])%list.
           rewrite <- app_assoc. do 2 (split; [done|]). split; [done|].
           intros g b Hg Hb. apply elem_of_app in Hg as [Hg|Hg].
           ++ by apply (H2 g).
           ++ apply list_elem_of_singleton in Hg. subst g.
              assert (b = a) by congruence. subst b. lia.
        -- exists (l1 ++ f0 :: l2)%list, f, []. split; [done|].
           split; [done|]. split.
           ++ intros g b Hg Hb. apply elem_of_app in Hg as [Hg|Hg].
              ** pose proof (H1 g b Hg Hb). lia.
              ** apply elem_of_cons in Hg as [->|Hg].
                 --- assert (b = a0) by congruence. subst b. lia.
                 --- pose proof (H2 g b Hg Hb). lia.
           ++ intros g b Hg. by apply elem_of_nil in Hg.
      * exists scan, f, []. do 2 (split; [done|]). split.
        -- intros g b Hg Hb. rewrite (IH g Hg) in Hb. done.
        -- intros g b Hg. by apply elem_of_nil in Hg.
    + destruct (winner tree key run scan None) as [a0|].
      * destruct IH as (l1 & f0 & l2 & -> & Hf0 & H1 & H2).
        exists l1, f0, (l2 ++ [f])%list.
        rewrite <- app_assoc. do 2 (split; [done|]). split; [done|].
        intros g b Hg Hb. apply elem_of_app in Hg as [Hg|Hg].
        -- by apply (H2 g).
        -- apply list_elem_of_singleton in Hg. subst g. congruence.
      * intros g Hg. apply elem_of_app in Hg as [Hg|Hg]; [by apply IH|].
        apply list_elem_of_singleton in Hg. by subst g.
Qed.

Lemma artifact_for_scanned (tree : gmap (list string) node)
  (key run : string) (f : Path) (a : Artifact) :
  scanned tree f = Some (key, run, a) ->
  artifact_for tree key run f = Some a.
Proof.
  intros H. unfold artifact_for. by rewrite H, !String.eqb_refl.
Qed.

Lemma artifact_for_file (tree : gmap (list string) node)
  (key run : string) (f : Path) (a : Artifact) :
  artifact_for tree key run f = Some a -> file a = f.
Proof.
  unfold artifact_for, scanned. intros H.
  repeat case_match; by simplify_eq.
Qed.

(** C2. On a tree in which two files are the files of a pair
    (simulation, run), with different radii, and whose files the scan can
    read, the index built in any order has for that pair the record of
    the file with the greater radius, and the disk is as it was: the
    other file is still there. *)
Theorem larger_radius_wins (st : state) (db_path : Path)
  (scan : list (list string)) (f_lo f_hi : Path) (key run : string)
  (a_lo a_hi : Artifact) :
  rglob_yields (fs (env st)) db_path scan ->
  Forall (scannable (fs (env st))) scan ->
  f_lo ∈ scan ->
  f_hi ∈ scan ->
  scanned (fs (env st)) f_lo = Some (key, run, a_lo) ->
  scanned (fs (env st)) f_hi = Some (key, run, a_hi) ->
  r_extraction a_lo < r_extraction a_hi ->
  (forall f, f ∈ scan -> is_Some (artifact_for (fs (env st)) key run f) ->
             f = f_lo \/ f = f_hi) ->
  exists txt_files,
    _look_for_existing_strains scan st = (Ok txt_files, st) /\
    record_of txt_files key run = Some a_hi /\
    file a_hi = f_hi /\
    is_Some (fs (env st) !! f_lo).
Proof.
  intros Hglob Hscan Hlo Hhi Hslo Hshi Hlt Honly.
  destruct (look_loop_winner scan ∅ st Hscan radii_ok_empty)
    as (tf & Hrun & _ & Hrec).
  exists tf. split; [done|].
  pose proof (artifact_for_scanned _ _ _ _ _ Hslo) as Halo.
  pose proof (artifact_for_scanned _ _ _ _ _ Hshi) as Hahi.
  split; [|split; [by eapply artifact_for_file|]].
  - rewrite Hrec. replace (record_of ∅ key run) with (@None Artifact)
      by (unfold record_of; by rewrite lookup_empty).
    pose proof (winner_last_max (fs (env st)) key run scan) as W.
    destruct (winner (fs (env st)) key run scan None) as [a|].
    + destruct W as (l1 & f & l2 & -> & Hf & H1 & H2).
      destruct (Honly f) as [->| ->].
      * apply elem_of_app. right. left.
      * by rewrite Hf.
      * assert (a = a_lo) by congruence. subst a. exfalso.
        apply elem_of_app in Hhi as [Hhi|Hhi].
        -- pose proof (H1 _ _ Hhi Hahi). lia.
        -- apply elem_of_cons in Hhi as [->|Hhi].
           ++ assert (a_lo = a_hi) by congruence. subst. lia.
           ++ pose proof (H2 _ _ Hhi Hahi). lia.
      * congruence.
    + rewrite (W f_hi Hhi) in Hahi. done.
  - assert (Hin : f_lo ∈ rglob_entries (fs (env st)) db_path).
    { unfold rglob_yields in Hglob. by rewrite <- Hglob. }
    unfold rglob_entries in Hin. apply list_elem_of_filter in Hin as [_ Hin].
    apply list_elem_of_fmap in Hin as ([p n] & -> & Hin).
    apply elem_of_map_to_list in Hin. by exists n.
Qed.

(** C9. Of two files of a pair, the one scanned later takes the record
    unless its radius is strictly below the one on record; so when the two
    radii are equal the later file replaces the earlier one, and the index
    keeps the file that the scan meets last. *)
Theorem equal_radius_later_wins (st : state)
  (l1 l2 l3 : list (list string)) (f1 f2 : Path) (key run : string)
  (a1 a2 : Artifact) :
  Forall (scannable (fs (env st))) (l1 ++ f1 :: l2 ++ f2 :: l3) ->
  scanned (fs (env st)) f1 = Some (key, run, a1) ->
  scanned (fs (env st)) f2 = Some (key, run, a2) ->
  (forall f, f ∈ (l1 ++ l2 ++ l3)%list ->
             artifact_for (fs (env st)) key run f = None) ->
  exists txt_files,
    _look_for_existing_strains (l1 ++ f1 :: l2 ++ f2 :: l3) st
    = (Ok txt_files, st) /\
    record_of txt_files key run
    = Some (if r_extraction a2 <? r_extraction a1 then a1 else a2) /\
    (r_extraction a1 = r_extraction a2 ->
     record_of txt_files key run = Some a2 /\ file a2 = f2).
Proof.
  intros Hscan Hs1 Hs2 Hothers.
  destruct (look_loop_winner _ ∅ st Hscan radii_ok_empty)
    as (tf & Hrun & _ & Hrec).
  exists tf. split; [done|].
  pose proof (artifact_for_scanned _ _ _ _ _ Hs1) as Ha1.
  pose proof (artifact_for_scanned _ _ _ _ _ Hs2) as Ha2.
  assert (Hw : record_of tf key run
               = Some (if r_extraction a2 <? r_extraction a1 then a1 else a2)).
  { rewrite Hrec. replace (record_of ∅ key run) with (@None Artifact)
      by (unfold record_of; by rewrite lookup_empty).
    rewrite winner_app, (winner_others _ _ _ l1); cycle 1.
    { intros f Hf. apply Hothers. apply elem_of_app. by left. }
    simpl. rewrite Ha1. simpl.
    rewrite winner_app, (winner_others _ _ _ l2); cycle 1.
    { intros f Hf. apply Hothers. apply elem_of_app. right.
      apply elem_of_app. by left. }
    simpl. rewrite Ha2. rewrite (winner_others _ _ _ l3); cycle 1.
    { intros f Hf. apply Hothers. apply elem_of_app. right.
      apply elem_of_app. by right. }
    done. }
  split; [done|]. intros Heq. split; [|by eapply artifact_for_file].
  rewrite Hw. replace (r_extraction a2 <? r_extraction a1) with false; [done|].
  symmetry. apply Z.ltb_ge. lia.
Qed.

(** *** On the sample trees *)

Lemma read_eccentricity_spec_witness :
  let st := manager [] tree_unknown in
  let f := joinpath run_dir "metadata.txt" in
  (_read_eccentricity f st = (Raise EOFError, st) <->
   forall line, line ∈ metadata_unknown ->
                contains "id_eccentricity" line = false) /\
  (forall pre line post,
      metadata_unknown = (pre ++ line :: post)%list ->
      (forall l, l ∈ pre -> contains "id_eccentricity" l = false) ->
      contains "id_eccentricity" line = true ->
      exists tok,
        last (split line) = Some tok /\
        _read_eccentricity f st
        = (Ok (match float_of_string tok with
               | Some ecc => ecc
               | None => nan
               end), st)).
Proof.
  intros st f.
  apply (read_eccentricity_spec f metadata_unknown st). reflexivity.
Defined.

Example read_eccentricity_unknown :
  (_read_eccentricity (joinpath run_dir "metadata.txt")
     (manager [] tree_unknown)).1 = Ok nan.
Proof. vm_compute. reflexivity. Qed.

Example read_eccentricity_missing :
  (_read_eccentricity (joinpath run_dir "metadata.txt")
     (manager [] {[ joinpath run_dir "metadata.txt"
                    := File ["id_mass = 2.7"] ]})).1 = Raise EOFError.
Proof. vm_compute. reflexivity. Qed.

Lemma larger_radius_wins_witness :
  let st := manager [] tree_two_radii in
  (exists txt_files,
      _look_for_existing_strains [f_r00250; f_r00100] st = (Ok txt_files, st) /\
      record_of txt_files "BAM:0001" "R01" = Some (artifact_of f_r00250 250) /\
      file (artifact_of f_r00250 250) = f_r00250 /\
      is_Some (fs (env st) !! f_r00100)) /\
  (exists txt_files,
      _look_for_existing_strains [f_r00100; f_r00250] st = (Ok txt_files, st) /\
      record_of txt_files "BAM:0001" "R01" = Some (artifact_of f_r00250 250) /\
      file (artifact_of f_r00250 250) = f_r00250 /\
      is_Some (fs (env st) !! f_r00100)).
Proof.
  intros st. split.
  - apply (larger_radius_wins st ["CoRe_DB_clone"] [f_r00250; f_r00100]
             f_r00100 f_r00250 "BAM:0001" "R01"
             (artifact_of f_r00100 100) (artifact_of f_r00250 250)).
    + unfold rglob_yields. vm_compute.
      first [reflexivity | apply perm_swap].
    + repeat constructor; vm_compute; eexists; reflexivity.
    + right. left.
    + left.
    + vm_compute. reflexivity.
    + vm_compute. reflexivity.
    + simpl. lia.
    + intros f Hf _. apply elem_of_cons in Hf as [->|Hf]; [by right|].
      apply list_elem_of_singleton in Hf. by left.
  - apply (larger_radius_wins st ["CoRe_DB_clone"] [f_r00100; f_r00250]
             f_r00100 f_r00250 "BAM:0001" "R01"
             (artifact_of f_r00100 100) (artifact_of f_r00250 250)).
    + unfold rglob_yields. vm_compute.
      first [reflexivity | apply perm_swap].
    + repeat constructor; vm_compute; eexists; reflexivity.
    + left.
    + right. left.
    + vm_compute. reflexivity.
    + vm_compute. reflexivity.
    + simpl. lia.
    + intros f Hf _. apply elem_of_cons in Hf as [->|Hf]; [by left|].
      apply list_elem_of_singleton in Hf. by right.
Defined.

Lemma equal_radius_later_wins_witness :
  let st := manager [] tree_backup in
  (exists txt_files,
      _look_for_existing_strains ([] ++ f_r00100 :: [] ++ f_backup :: []) st
      = (Ok txt_files, st) /\
      record_of txt_files "BAM:0001" "R01" = Some (artifact_of f_backup 100)) /\
  (exists txt_files,
      _look_for_existing_strains ([] ++ f_backup :: [] ++ f_r00100 :: []) st
      = (Ok txt_files, st) /\
      record_of txt_files "BAM:0001" "R01" = Some (artifact_of f_r00100 100)).
Proof.
  intros st. split.
  - destruct (equal_radius_later_wins st [] [] [] f_r00100 f_backup
                "BAM:0001" "R01" (artifact_of f_r00100 100)
                (artifact_of f_backup 100)) as (tf & Hrun & _ & Heq).
    + repeat constructor; vm_compute; eexists; reflexivity.
    + vm_compute. reflexivity.
    + vm_compute. reflexivity.
    + intros f Hf. by apply elem_of_nil in Hf.
    + exists tf. split; [exact Hrun|]. by apply Heq.
  - destruct (equal_radius_later_wins st [] [] [] f_backup f_r00100
                "BAM:0001" "R01" (artifact_of f_backup 100)
                (artifact_of f_r00100 100)) as (tf & Hrun & _ & Heq).
    + repeat constructor; vm_compute; eexists; reflexivity.
    + vm_compute. reflexivity.
    + vm_compute. reflexivity.
    + intros f Hf. by apply elem_of_nil in Hf.
    + exists tf. split; [exact Hrun|]. by apply Heq.
Defined.

End CacheFacts.

(** ** Downloading *)

Module DownloadFacts.
Import PyStr PyNum PyPath CoReManager Spec Examples RunFacts.

Lemma bind_Ok {A B : Type} (m : M A) (k : A -> M B) (st st' : state)
  (b : B) :
  bind m k st = (Ok b, st') ->
  exists a st1, m st = (Ok a, st1) /\ k a st1 = (Ok b, st').
Proof.
  unfold bind. destruct (m st) as [[a|e] st1]; [|done].
  intros H. by exists a, st1.
Qed.

Lemma keeps_bind {A B : Type} (m : M A) (k : A -> M B) :
  keeps_downloaded m -> (forall a, keeps_downloaded (k a)) ->
  keeps_downloaded (bind m k).
Proof.
  intros Hm Hk st. unfold bind. specialize (Hm st).
  destruct (m st) as [[a|e] st1]; simpl in *; [|done].
  by rewrite Hk.
Qed.

Lemma keeps_ret {A : Type} (a : A) : keeps_downloaded (ret a).
Proof. done. Qed.

Lemma keeps_raise {A : Type} (e : exn) : keeps_downloaded (@raise A e).
Proof. done. Qed.

Lemma keeps_lift {A : Type} (r : result A) : keeps_downloaded (lift r).
Proof. done. Qed.

Lemma keeps_emit (ev : event) : keeps_downloaded (emit ev).
Proof. done. Qed.

Lemma keeps_extern {A : Type} (ev : event)
  (f : world -> result A * world) : keeps_downloaded (extern ev f).
Proof.
  apply keeps_bind; [apply keeps_emit|]. intros _ st.
  by destruct (f (env st)).
Qed.

Lemma keeps_cdb_sim (skey : string) : keeps_downloaded (cdb_sim skey).
Proof. done. Qed.

Lemma keeps_copy (l : nat) : keeps_downloaded (PyDict.copy l).
Proof. intros st. unfold PyDict.copy. by destruct (heap (env st) !! l). Qed.

Lemma keeps_pop (l : nat) (k : string) : keeps_downloaded (PyDict.pop l k).
Proof.
  intros st. unfold PyDict.pop. destruct (heap (env st) !! l); [|done].
  by destruct (PyDict.getitem k _).
Qed.

Lemma keeps_items (l : nat) : keeps_downloaded (PyDict.items l).
Proof. done. Qed.

Lemma keeps_lookup (l : nat) (k : string) :
  keeps_downloaded (PyDict.lookup l k).
Proof. intros st. unfold PyDict.lookup. by destruct (heap (env st) !! l). Qed.

Lemma keeps_lowest_loop (items : list (string * CoRe_run))
  (run_key : string) (ecc : pyfloat) :
  keeps_downloaded (lowest_loop items run_key ecc).
Proof. intros st. apply lowest_loop_env. Qed.

Lemma keeps_lowest_eccentricity (skey : string) :
  keeps_downloaded (get_runkey_lowest_eccentricity skey).
Proof.
  unfold get_runkey_lowest_eccentricity.
  apply keeps_bind; [apply keeps_cdb_sim|]. intros s.
  apply keeps_bind; [apply keeps_copy|]. intros runs.
  apply keeps_bind; [apply keeps_pop|]. intros r01.
  apply keeps_bind; [done|]. intros e.
  apply keeps_bind; [apply keeps_lift|]. intros ecc.
  destruct (isnan ecc); [apply keeps_ret|].
  apply keeps_bind; [apply keeps_items|]. intros items.
  apply keeps_lowest_loop.
Qed.

Lemma keeps_unlink_all (files : list (list string)) :
  keeps_downloaded (unlink_all files).
Proof.
  induction files as [|f files IH]; [done|]. simpl.
  apply keeps_bind; [|by intros _].
  apply keeps_bind; [apply keeps_emit|]. intros _ st.
  by destruct (fs (env st) !! f) as [[]|].
Qed.

Lemma keeps_clean (skey : string) : keeps_downloaded (_clean_h5_data skey).
Proof.
  unfold _clean_h5_data.
  apply keeps_bind; [apply keeps_cdb_sim|]. intros s.
  apply keeps_bind; [done|]. intros files.
  apply keeps_bind; [apply keeps_unlink_all|]. intros _.
  apply keeps_bind; [apply keeps_emit|]. intros _ st.
  by destruct (fs (env st) !! _) as [[]|].
Qed.

Lemma keeps_print_if (verbose : bool) (msg : string) :
  keeps_downloaded (print_if verbose msg).
Proof. by destruct verbose. Qed.

Lemma print_if_run (verbose : bool) (skey : string) (st : state) :
  print_if verbose (skey +:+ " already downloaded, skipping.") st
  = (Ok tt, log_all (skip_prints verbose [skey]) st).
Proof.
  destruct verbose; simpl; [done|]. unfold ret. by rewrite log_all_nil.
Qed.

Lemma log_all_app (evs1 evs2 : list event) (st : state) :
  log_all evs2 (log_all evs1 st) = log_all (evs1 ++ evs2) st.
Proof. unfold log_all. simpl. by rewrite <- app_assoc. Qed.

(** A run of a computation that keeps [self.downloaded]. *)
Lemma kept_run {A : Type} (m : M A) (st st' : state) (r : result A) :
  keeps_downloaded m -> m st = (r, st') -> downloaded st' = downloaded st.
Proof. intros K H. specialize (K st). by rewrite H in K. Qed.

Section WithCollaborators.
Context {array : Type}.
Variable cdb_sync : string -> string -> bool -> world -> result unit * world.
Variable read_dset :
  CoRe_run -> world
  -> result (gmap string (list (string * array))) * world.
Variable np_savetxt :
  Path -> array -> string -> world -> result unit * world.

Local Abbreviation download_one :=
  (download_one cdb_sync read_dset np_savetxt).
Local Abbreviation download_strains :=
  (download_strains cdb_sync read_dset np_savetxt).

(** A download that succeeds records the simulation. *)
Lemma download_one_records (skey : string) (keep_h5 : bool)
  (prot : string) (lfs verbose : bool) (st st' : state) :
  download_one skey keep_h5 prot lfs verbose st = (Ok tt, st') ->
  exists d, downloaded st' = <[skey := d]> (downloaded st).
Proof.
  unfold CoReManager.download_one. intros H.
  apply bind_Ok in H as (? & st1 & H1 & H).
  apply bind_Ok in H as ([runkey ecc] & st2 & H2 & H).
  apply bind_Ok in H as (s & st3 & H3 & H).
  apply bind_Ok in H as (run & st4 & H4 & H).
  apply bind_Ok in H as (dsets & st5 & H5 & H).
  apply bind_Ok in H as (data & st6 & H6 & H).
  apply bind_Ok in H as ([rext_key rext] & st7 & H7 & H).
  apply bind_Ok in H as (gw_data & st8 & H8 & H).
  apply bind_Ok in H as (? & st9 & H9 & H).
  apply bind_Ok in H as (? & st10 & H10 & H).
  apply bind_Ok in H as (? & st11 & H11 & H).
  pose proof (kept_run _ _ _ _ (keeps_extern _ _) H1) as K1.
  pose proof (kept_run _ _ _ _ (keeps_lowest_eccentricity _) H2) as K2.
  pose proof (kept_run _ _ _ _ (keeps_cdb_sim _) H3) as K3.
  pose proof (kept_run _ _ _ _ (keeps_lookup _ _) H4) as K4.
  pose proof (kept_run _ _ _ _ (keeps_extern _ _) H5) as K5.
  pose proof (kept_run _ _ _ _ (keeps_lift _) H6) as K6.
  pose proof (kept_run _ _ _ _ (keeps_lift _) H7) as K7.
  pose proof (kept_run _ _ _ _ (keeps_lift _) H8) as K8.
  pose proof (kept_run _ _ _ _ (keeps_extern _ _) H9) as K9.
  unfold modify in H10. simplify_eq.
  match type of H11 with
  | _ ?st10 = _ => assert (K11 : downloaded st11 = downloaded st10)
  end.
  { destruct keep_h5; simpl in H11.
    - unfold ret in H11. by simplify_eq.
    - exact (kept_run _ _ _ _ (keeps_clean _) H11). }
  pose proof (kept_run _ _ _ _ (keeps_print_if _ _) H) as K12.
  eexists. rewrite K12, K11. simpl.
  by rewrite K9, K8, K7, K6, K5, K4, K3, K2, K1.
Qed.

(** After a call that succeeds every key of the call is recorded, and
    so is every key that was. *)
Lemma download_strains_records (simkeys : list string) (keep_h5 : bool)
  (prot : string) (lfs verbose : bool) (st st' : state) :
  download_strains simkeys keep_h5 false prot lfs verbose st = (Ok tt, st') ->
  (forall k, is_Some (downloaded st !! k) -> is_Some (downloaded st' !! k))
  /\ (forall k, k ∈ simkeys -> is_Some (downloaded st' !! k)).
Proof.
  revert st. induction simkeys as [|skey rest IH]; intros st H.
  - injection H as <-. split; [done|]. intros k Hk.
    by apply elem_of_nil in Hk.
  - simpl in H. apply bind_Ok in H as (st0 & st0' & Hget & H).
    unfold get in Hget. injection Hget as <- <-.
    apply bind_Ok in H as ([] & st1 & H1 & H).
    destruct (IH _ H) as [Hmono Hrest].
    assert (Hstep : (forall k, is_Some (downloaded st !! k) ->
                               is_Some (downloaded st1 !! k))
                    /\ is_Some (downloaded st1 !! skey)).
    { simpl in H1. case_bool_decide as Hin.
      - pose proof (keeps_print_if verbose
                      (skey +:+ " already downloaded, skipping.") st) as K.
        rewrite H1 in K. simpl in K. rewrite K. done.
      - apply download_one_records in H1 as [d ->]. split.
        + intros k Hk. destruct (decide (skey = k)) as [->|Hne].
          * by rewrite lookup_insert_eq.
          * by rewrite lookup_insert_ne.
        + by rewrite lookup_insert_eq. }
    destruct Hstep as [Hstep Hskey]. split; [by auto|].
    intros k Hk. apply elem_of_cons in Hk as [->|Hk]; auto.
Qed.

(** Keys that are recorded are skipped: only the messages show. *)
Lemma download_strains_skips (simkeys : list string) (keep_h5 : bool)
  (prot : string) (lfs verbose : bool) (st : state) :
  (forall k, k ∈ simkeys -> is_Some (downloaded st !! k)) ->
  download_strains simkeys keep_h5 false prot lfs verbose st
  = (Ok tt, log_all (skip_prints verbose simkeys) st).
Proof.
  revert st. induction simkeys as [|skey rest IH]; intros st Hall.
  - simpl. unfold ret. destruct verbose; by rewrite log_all_nil.
  - simpl. unfold bind at 1, get. unfold bind at 1.
    rewrite bool_decide_eq_true_2 by (apply Hall; left). simpl.
    rewrite print_if_run, IH.
    + rewrite log_all_app. by destruct verbose.
    + intros k Hk. simpl. apply Hall. by right.
Qed.

(** C7. Without [overwrite], a key that [self.downloaded] has is
    skipped: the call goes on with the rest from the same world and the
    same [self.downloaded], and only the message, when asked for, has
    been observed. So a call that succeeded, made again on the same
    keys, ends well with nothing fetched, selected or written: the world and
    [self.downloaded] are the ones the first call left. *)
Theorem download_strains_idempotent :
  (forall (skey : string) (rest : list string) (keep_h5 : bool)
          (prot : string) (lfs verbose : bool) (st : state),
      is_Some (downloaded st !! skey) ->
      download_strains (skey :: rest) keep_h5 false prot lfs verbose st
      = download_strains rest keep_h5 false prot lfs verbose
          (log_all (skip_prints verbose [skey]) st)) /\
  (forall (simkeys : list string) (keep_h5 : bool) (prot : string)
          (lfs verbose verbose' : bool) (st st' : state),
      download_strains simkeys keep_h5 false prot lfs verbose st
      = (Ok tt, st') ->
      download_strains simkeys keep_h5 false prot lfs verbose' st'
      = (Ok tt, log_all (skip_prints verbose' simkeys) st')).
Proof.
  split.
  - intros skey rest keep_h5 prot lfs verbose st Hin. simpl.
    unfold bind at 1, get. unfold bind at 1.
    rewrite bool_decide_eq_true_2 by done. simpl.
    by rewrite print_if_run.
  - intros simkeys keep_h5 prot lfs verbose verbose' st st' H.
    apply download_strains_skips.
    by apply (download_strains_records _ _ _ _ _ _ _ H).
Qed.

End WithCollaborators.

(** *** On the sample simulation *)

Lemma download_strains_idempotent_witness :
  let call := download_strains sync_noop dset_two savetxt_header
                ["BAM:0001"] true false "https" false true in
  let st' := (call (manager runs_nan_last tree_raw)).2 in
  call (manager runs_nan_last tree_raw) = (Ok tt, st') /\
  call st' = (Ok tt, log_all (skip_prints true ["BAM:0001"]) st').
Proof.
  intros call st'.
  assert (H : call (manager runs_nan_last tree_raw) = (Ok tt, st')).
  { rewrite (surjective_pairing (call (manager runs_nan_last tree_raw))).
    apply (f_equal2 pair); [vm_compute|]; reflexivity. }
  split; [exact H|].
  exact (proj2 (download_strains_idempotent sync_noop dset_two savetxt_header)
           ["BAM:0001"] true "https" false true true
           (manager runs_nan_last tree_raw) st' H).
Defined.

Example download_records_selection :
  let st' := (download_strains sync_noop dset_two savetxt_header
                ["BAM:0001"] true false "https" false false
                (manager runs_nan_last tree_raw)).2 in
  record_of (downloaded st') "BAM:0001" "R03"
  = Some {| file := ["CoRe_DB_clone"; "BAM_0001"; "R03";
                     "Rh_l2_m2_r00250.txt"];
            eccentricity := nan; r_extraction := 250 |}
  /\ trace st'
     = [EvSync "BAM:0001"; EvEccentricity "R01"; EvEccentricity "R02";
        EvEccentricity "R03";
        EvReadDset ["CoRe_DB_clone"; "BAM_0001"; "R03"];
        EvSavetxt ["CoRe_DB_clone"; "BAM_0001"; "R03";
                   "Rh_l2_m2_r00250.txt"]].
Proof. vm_compute. split; reflexivity. Qed.

End DownloadFacts.

(** ** More on the cache index *)

Module CacheMore.
Import PyStr PyNum PyPath CoReManager Spec Examples PyStrFacts CacheFacts MoreSpec.

Lemma artifact_for_inv (tree : gmap (list string) node)
  (key run : string) (f : Path) (a : Artifact) :
  artifact_for tree key run f = Some a ->
  scanned tree f = Some (key, run, a).
Proof.
  unfold artifact_for. destruct (scanned tree f) as [[[k r] b]|]; [|done].
  destruct (String.eqb_spec k key) as [->|]; [|done].
  destruct (String.eqb_spec r run) as [->|]; [|done].
  by intros [= ->].
Qed.

(** The record of a pair after a scan: none without a file of the pair,
    otherwise the record of a file of the pair of greatest radius. *)
Lemma winner_greatest (tree : gmap (list string) node) (key run : string)
  (scan : list (list string)) :
  match winner tree key run scan None with
  | None => forall f, f ∈ scan -> artifact_for tree key run f = None
  | Some a =>
      exists f, f ∈ scan /\ artifact_for tree key run f = Some a /\
                forall g b, g ∈ scan -> artifact_for tree key run g = Some b ->
                            r_extraction b <= r_extraction a
  end.
Proof.
  pose proof (winner_last_max tree key run scan) as W.
  destruct (winner tree key run scan None) as [a|]; [|done].
  destruct W as (l1 & f & l2 & -> & Hf & H1 & H2).
  exists f. split; [apply elem_of_app; right; left|]. split; [done|].
  intros g b Hg Hb. apply elem_of_app in Hg as [Hg|Hg].
  - by apply (H1 g).
  - apply elem_of_cons in Hg as [->|Hg].
    + assert (b = a) by congruence. subst b. lia.
    + pose proof (H2 g b Hg Hb). lia.
Qed.

Lemma record_of_empty (key run : string) : record_of ∅ key run = None.
Proof. unfold record_of. by rewrite lookup_empty. Qed.

(** X1. On files that the scan can read the index is built, the state is
    as it was, and for every pair (simulation, run): with no file of the
    pair there is no record; otherwise the record is the one of a scanned
    file of the pair, and no file of the pair has a greater radius. *)
Theorem index_holds_greatest_radius (scan : list (list string)) (st : state) :
  Forall (scannable (fs (env st))) scan ->
  exists txt_files,
    _look_for_existing_strains scan st = (Ok txt_files, st) /\
    forall key run,
      match record_of txt_files key run with
      | None =>
          forall f, f ∈ scan -> artifact_for (fs (env st)) key run f = None
      | Some a =>
          file a ∈ scan /\
          scanned (fs (env st)) (file a) = Some (key, run, a) /\
          forall f b, f ∈ scan ->
                      artifact_for (fs (env st)) key run f = Some b ->
                      r_extraction b <= r_extraction a
      end.
Proof.
  intros Hscan.
  destruct (look_loop_winner scan ∅ st Hscan radii_ok_empty)
    as (tf & Hrun & _ & Hrec).
  exists tf. split; [done|]. intros key run.
  rewrite Hrec, record_of_empty.
  pose proof (winner_greatest (fs (env st)) key run scan) as W.
  destruct (winner (fs (env st)) key run scan None) as [a|]; [|done].
  destruct W as (f & Hin & Hf & Hmax).
  pose proof (artifact_for_file _ _ _ _ _ Hf) as Hfile. subst f.
  split; [done|]. split; [by apply artifact_for_inv|done].
Qed.

Lemma index_holds_greatest_radius_witness :
  let st := manager [] tree_two_radii in
  exists txt_files,
    _look_for_existing_strains [f_r00100; f_r00250] st = (Ok txt_files, st) /\
    forall key run,
      match record_of txt_files key run with
      | None =>
          forall f, f ∈ [f_r00100; f_r00250] ->
                    artifact_for (fs (env st)) key run f = None
      | Some a =>
          file a ∈ [f_r00100; f_r00250] /\
          scanned (fs (env st)) (file a) = Some (key, run, a) /\
          forall f b, f ∈ [f_r00100; f_r00250] ->
                      artifact_for (fs (env st)) key run f = Some b ->
                      r_extraction b <= r_extraction a
      end.
Proof.
  intros st. apply (index_holds_greatest_radius [f_r00100; f_r00250] st).
  repeat constructor; vm_compute; eexists; reflexivity.
Defined.

(** A turn of the scan on a file it cannot read. *)
Lemma look_loop_raises (f : Path) (rest : list (list string))
  (tf : gmap string (gmap string Artifact)) (st : state) :
  scanned (fs (env st)) f = None ->
  look_loop (f :: rest) tf st = (Raise (scan_error (fs (env st)) f), st).
Proof.
  unfold scanned, scan_error. intros Hsc. simpl.
  destruct (part_from_end f 3) as [p3|] eqn:H3; [|done].
  unfold bind at 1, lift at 1. simpl.
  destruct (part_from_end f 2) as [run|] eqn:H2; [|done].
  unfold bind at 1, lift at 1. simpl. unfold bind at 1.
  destruct (fs (env st) !! joinpath (parent f) "metadata.txt")
    as [[lines|]|] eqn:Hmd.
  - rewrite (read_eccentricity_lines _ lines) by done.
    destruct (first_tagged lines) as [line|] eqn:Hl; [|done].
    assert (Ht : contains "id_eccentricity" line = true).
    { clear -Hl. induction lines as [|l lines IH]; simpl in Hl; [done|].
      destruct (contains "id_eccentricity" l) eqn:El; [congruence|auto]. }
    destruct (split_tagged line Ht) as [tok Htok]. rewrite Htok.
    unfold bind at 1, lift at 1, stem_radius.
    destruct (int_of_string (slice_from (stem f) (-5))) as [rext|]; [|done].
    exfalso. unfold lines_ecc in Hsc. by rewrite Hl, Htok in Hsc.
  - unfold _read_eccentricity, bind, open_lines. by rewrite Hmd.
  - unfold _read_eccentricity, bind, open_lines. by rewrite Hmd.
Qed.

Lemma look_loop_stops (pre post : list (list string)) (f : Path)
  (st : state) (tf : gmap string (gmap string Artifact)) :
  Forall (scannable (fs (env st))) pre ->
  radii_ok tf ->
  scanned (fs (env st)) f = None ->
  look_loop (pre ++ f :: post) tf st
  = (Raise (scan_error (fs (env st)) f), st).
Proof.
  intros Hpre. revert tf.
  induction Hpre as [|g pre [[[key run] a] Hg] _ IH]; intros tf Hok Hf.
  - by apply look_loop_raises.
  - rewrite <- app_comm_cons.
    destruct (look_loop_step g (pre ++ f :: post) tf st key run a Hg Hok)
      as [-> Hok'].
    by apply IH.
Qed.

(** The files before the first one that cannot be read. *)
Lemma first_unreadable (tree : gmap (list string) node)
  (scan : list (list string)) :
  Forall (scannable tree) scan \/
  exists pre g post,
    scan = (pre ++ g :: post)%list /\
    Forall (scannable tree) pre /\ scanned tree g = None.
Proof.
  induction scan as [|h scan IH]; [by left|].
  destruct (scanned tree h) as [x|] eqn:Hh.
  - destruct IH as [IH|(pre & g & post & -> & Hpre & Hg)].
    + left. constructor; [|done]. unfold scannable. by rewrite Hh.
    + right. exists (h :: pre), g, post. split; [done|]. split; [|done].
      constructor; [|done]. unfold scannable. by rewrite Hh.
  - right. exists [], h, scan. by repeat split.
Qed.

(** An index is built exactly on files that can be read. *)
Lemma scan_Ok_iff (scan : list (list string)) (st : state) :
  (exists txt_files, (_look_for_existing_strains scan st).1 = Ok txt_files)
  <-> Forall (scannable (fs (env st))) scan.
Proof.
  split.
  - intros [tf Hrun].
    destruct (first_unreadable (fs (env st)) scan)
      as [H|(pre & g & post & -> & Hpre & Hg)]; [done|].
    unfold _look_for_existing_strains in Hrun.
    by rewrite (look_loop_stops pre post g st ∅ Hpre radii_ok_empty Hg) in Hrun.
  - intros Hscan.
    destruct (look_loop_winner scan ∅ st Hscan radii_ok_empty)
      as (tf & Hrun & _).
    exists tf. unfold _look_for_existing_strains. by rewrite Hrun.
Qed.

(** X2. The scan stops at the first file it cannot read, with the
    exception of that file: [IndexError] for a path of fewer than three
    parts, [OSError] without a metadata file beside it, [EOFError] when no
    line of the metadata has the tag, [ValueError] when the stem does not
    end in an integer. No index is returned then, whatever the files
    before and after; so an index is built exactly when every file can be
    read. *)
Theorem scan_stops_at_unreadable_file :
  (forall (pre post : list (list string)) (f : Path) (st : state),
      Forall (scannable (fs (env st))) pre ->
      scanned (fs (env st)) f = None ->
      _look_for_existing_strains (pre ++ f :: post) st
      = (Raise (scan_error (fs (env st)) f), st)) /\
  (forall (scan : list (list string)) (st : state),
      (exists txt_files,
          (_look_for_existing_strains scan st).1 = Ok txt_files)
      <-> Forall (scannable (fs (env st))) scan).
Proof.
  split.
  - intros pre post f st Hpre Hf.
    by apply look_loop_stops; [|apply radii_ok_empty|].
  - apply scan_Ok_iff.
Qed.

Lemma scan_stops_at_unreadable_file_witness :
  let st := manager [] tree_two_radii in
  let f_inf := joinpath run_dir "Rh_l2_m2_rInf.txt" in
  _look_for_existing_strains ([f_r00100] ++ f_inf :: [f_r00250]) st
  = (Raise ValueError, st) /\
  _look_for_existing_strains ([] ++ ["Rh_l2_m2_r00100.txt"] :: [f_r00250]) st
  = (Raise IndexError, st).
Proof.
  intros st f_inf. split.
  - apply (proj1 scan_stops_at_unreadable_file [f_r00100] [f_r00250] f_inf st).
    + repeat constructor; vm_compute; eexists; reflexivity.
    + vm_compute. reflexivity.
  - apply (proj1 scan_stops_at_unreadable_file [] [f_r00250]
             ["Rh_l2_m2_r00100.txt"] st).
    + constructor.
    + vm_compute. reflexivity.
Defined.

Lemma store_nonempty (key run : string) (a : Artifact)
  (tf : gmap string (gmap string Artifact)) :
  inner_nonempty tf -> inner_nonempty (store key run a tf).
Proof.
  intros H k d. unfold store.
  destruct (decide (key = k)) as [->|Hne].
  - rewrite lookup_insert_eq. intros [= <-]. apply insert_non_empty.
  - rewrite lookup_insert_ne by done. apply H.
Qed.

Lemma look_loop_nonempty (scan : list (list string))
  (tf tf' : gmap string (gmap string Artifact)) (st st' : state) :
  Forall (scannable (fs (env st))) scan ->
  radii_ok tf -> inner_nonempty tf ->
  look_loop scan tf st = (Ok tf', st') ->
  inner_nonempty tf'.
Proof.
  intros Hscan. revert tf.
  induction Hscan as [|f scan [[[key run] a] Hf] _ IH]; intros tf Hok Hne Hrun.
  - unfold look_loop, ret in Hrun. by simplify_eq.
  - destruct (look_loop_step f scan tf st key run a Hf Hok) as [E Hok'].
    rewrite E in Hrun. eapply IH; [done| |done]. by apply store_nonempty.
Qed.



Lemma scanned_r00100 :
  scanned tree_two_radii f_r00100
  = Some ("BAM:0001", "R01", artifact_of f_r00100 100).
Proof. vm_compute. reflexivity. Qed.



End CacheMore.

(** ** Radii in names *)

Module NameFacts.
Import PyStr PyNum PyPath CoReManager Spec PyStrFacts ParseFacts MoreSpec.

Lemma chars_str (l : list ascii) : chars (str l) = l.
Proof. apply list_ascii_of_string_of_list_ascii. Qed.

Lemma str_chars (s : string) : str (chars s) = s.
Proof. apply string_of_list_ascii_of_string. Qed.

Lemma chars_app (s1 s2 : string) :
  chars (s1 +:+ s2) = (chars s1 ++ chars s2)%list.
Proof. induction s1 as [|c s1 IH]; simpl; [done|]. by rewrite IH. Qed.

(** *** The value of a string of digits *)

Lemma fold_digits (l : list ascii) (acc : Z) :
  fold_left (fun a c => 10 * a + digit_val c) l acc
  = acc * 10 ^ Z.of_nat (length l) + digits_val l.
Proof.
  unfold digits_val. revert acc. induction l as [|c l IH]; intros acc.
  - simpl. lia.
  - cbn [fold_left length]. rewrite IH, (IH (10 * 0 + digit_val c)).
    rewrite Nat2Z.inj_succ, Z.pow_succ_r by lia. lia.
Qed.

Lemma digits_val_app (d1 d2 : list ascii) :
  digits_val (d1 ++ d2)
  = digits_val d1 * 10 ^ Z.of_nat (length d2) + digits_val d2.
Proof. unfold digits_val at 1. by rewrite fold_left_app, fold_digits. Qed.

Lemma digits_val_cons (c : ascii) (d : list ascii) :
  digits_val (c :: d) = digit_val c * 10 ^ Z.of_nat (length d) + digits_val d.
Proof.
  change (c :: d) with ([c] ++ d)%list. rewrite digits_val_app.
  unfold digits_val at 1. simpl. lia.
Qed.

Lemma digit_val_range (c : ascii) :
  is_digit c = true -> 0 <= digit_val c <= 9.
Proof.
  unfold is_digit, digit_val. intros H.
  apply andb_true_iff in H as [H1 H2]. apply N.leb_le in H1, H2. lia.
Qed.

Lemma digits_val_range (d : list ascii) :
  all_digits d = true -> 0 <= digits_val d < 10 ^ Z.of_nat (length d).
Proof.
  induction d as [|c d IH]; intros H.
  - simpl. unfold digits_val. simpl. lia.
  - simpl in H. apply andb_true_iff in H as [Hc Hd].
    rewrite digits_val_cons. cbn [length].
    rewrite Nat2Z.inj_succ, Z.pow_succ_r by lia.
    pose proof (digit_val_range c Hc). specialize (IH Hd). nia.
Qed.

Lemma all_digits_app (d1 d2 : list ascii) :
  all_digits (d1 ++ d2) = all_digits d1 && all_digits d2.
Proof. apply forallb_app. Qed.

(** *** The digits that [pretty] writes *)

Lemma pretty_char_digit (m : N) :
  (m < 10)%N ->
  is_digit (pretty_N_char m) = true /\ digit_val (pretty_N_char m) = Z.of_N m.
Proof.
  intros H.
  assert (m = 0 \/ m = 1 \/ m = 2 \/ m = 3 \/ m = 4 \/ m = 5 \/ m = 6
          \/ m = 7 \/ m = 8 \/ m = 9)%N as Hm by lia.
  destruct Hm as [->|[->|[->|[->|[->|[->|[->|[->|[->| ->]]]]]]]]]; done.
Qed.

Lemma pretty_go_digits (x : N) (s : string) :
  exists d,
    chars (pretty_N_go x s) = (d ++ chars s)%list /\
    all_digits d = true /\
    digits_val d = Z.of_N x /\
    (x = 0%N -> d = []) /\
    ((0 < x)%N -> d <> [] /\ 10 ^ (Z.of_nat (length d) - 1) <= Z.of_N x).
Proof.
  revert s. induction (N.lt_wf_0 x) as [x _ IH]; intros s.
  destruct (decide (x = 0%N)) as [->|Hx].
  - exists []. rewrite pretty_N_go_0. repeat split; try done; lia.
  - rewrite pretty_N_go_step by lia.
    destruct (IH (x `div` 10)%N
                 ltac:(apply N.div_lt; lia)
                 (String (pretty_N_char (x `mod` 10)) s))
      as (d & Hd & Hall & Hval & Hz & Hpos).
    destruct (pretty_char_digit (x `mod` 10)%N) as [Hc Hv].
    { apply N.mod_lt. lia. }
    exists (d ++ [pretty_N_char (x `mod` 10)])%list.
    split; [rewrite Hd, <- app_assoc; done|].
    split; [rewrite all_digits_app, Hall; simpl; by rewrite Hc|].
    split.
    { rewrite digits_val_app, Hval. unfold digits_val at 1. simpl.
      rewrite Hv. pose proof (N.div_mod x 10). lia. }
    split; [lia|]. intros _. split; [by destruct d|].
    rewrite length_app. simpl.
    destruct (decide (x `div` 10 = 0)%N) as [E|E].
    + rewrite (Hz E).
      replace (Z.of_nat (length (@nil ascii) + 1) - 1) with 0 by (simpl; lia).
      rewrite Z.pow_0_r. clear -Hx. lia.
    + destruct Hpos as [_ Hlow]; [by apply N.neq_0_lt_0|].
      replace (Z.of_nat (length d + 1) - 1) with (Z.succ (Z.of_nat (length d) - 1))
        by lia.
      rewrite Z.pow_succ_r.
      * pose proof (N.div_mod x 10 ltac:(done)) as Hdm.
        generalize dependent (10 ^ (Z.of_nat (length d) - 1)). intros p Hlow.
        clear -Hlow Hdm.
        generalize dependent (x `div` 10)%N. generalize (x `mod` 10)%N. lia.
      * assert (d <> []) by (intros ->; apply E; simpl in Hval;
                             unfold digits_val in Hval; simpl in Hval; lia).
        destruct d; [done|]. simpl. lia.
Qed.

(** The digits of a number: as many as it takes, at least one. *)
Lemma pretty_digits (n : N) :
  exists d,
    chars (pretty n) = d /\ all_digits d = true /\ d <> [] /\
    digits_val d = Z.of_N n /\
    forall k : nat, (1 <= k)%nat -> Z.of_N n < 10 ^ Z.of_nat k ->
                    (length d <= k)%nat.
Proof.
  unfold pretty, pretty_N. destruct (decide (n = 0%N)) as [->|Hn].
  - exists ["0"%char]. repeat split; try done; intros; simpl; lia.
  - destruct (pretty_go_digits n "") as (d & Hd & Hall & Hval & _ & Hpos).
    destruct Hpos as [Hne Hlow]; [lia|].
    exists d. simpl in Hd. rewrite app_nil_r in Hd.
    repeat split; try done. intros k Hk Hlt.
    destruct (decide (length d <= k)%nat) as [|Hgt]; [done|]. exfalso.
    assert (10 ^ Z.of_nat k <= 10 ^ (Z.of_nat (length d) - 1)).
    { apply Z.pow_le_mono_r; lia. }
    lia.
Qed.

Lemma zeros_digits (k : nat) (d : list ascii) :
  all_digits (repeat "0"%char k) = true /\
  digits_val (repeat "0"%char k ++ d) = digits_val d.
Proof.
  induction k as [|k [IH1 IH2]]; [done|]. split.
  - simpl. by rewrite IH1.
  - cbn [repeat app]. rewrite digits_val_cons, IH2.
    change (digit_val "0") with 0. lia.
Qed.

(** What [f'{n:05d}'] writes for a radius of five digits at most: five
    digits that spell it; and for a negative one of four digits at most,
    the sign and four digits. *)
Lemma fmt_05d_digits (n : Z) :
  0 <= n <= 99999 ->
  exists d,
    chars (fmt_05d n) = d /\ length d = 5%nat /\ all_digits d = true /\
    digits_val d = n.
Proof.
  intros Hn. unfold fmt_05d.
  destruct (Z.ltb_spec n 0) as [|_]; [lia|].
  destruct (pretty_digits (Z.abs_N n)) as (d & Hd & Hall & Hne & Hval & Hlen).
  assert (Hl : (length d <= 5)%nat).
  { apply Hlen; [lia|]. rewrite N2Z.inj_abs_N. simpl. lia. }
  rewrite N2Z.inj_abs_N, Z.abs_eq in Hval by lia.
  assert (Hlen' : String.length (pretty (Z.abs_N n)) = length d).
  { by rewrite <- length_chars, Hd. }
  rewrite Hlen'. cbn [String.length]. rewrite Nat.sub_0_r.
  destruct (zeros_digits (5 - length d) d) as [Hz1 Hz2].
  eexists. split; [reflexivity|].
  rewrite !chars_app, chars_str, Hd. cbn [chars list_ascii_of_string app].
  split; [rewrite length_app, repeat_length; lia|].
  split; [by rewrite all_digits_app, Hz1|]. by rewrite Hz2.
Qed.

Lemma fmt_05d_negative (n : Z) :
  -9999 <= n < 0 ->
  exists d,
    chars (fmt_05d n) = ("-"%char :: d) /\ length d = 4%nat /\
    all_digits d = true /\ digits_val d = - n.
Proof.
  intros Hn. unfold fmt_05d.
  destruct (Z.ltb_spec n 0) as [_|]; [|lia].
  destruct (pretty_digits (Z.abs_N n)) as (d & Hd & Hall & Hne & Hval & Hlen).
  assert (Hl : (length d <= 4)%nat).
  { apply Hlen; [lia|]. rewrite N2Z.inj_abs_N. simpl. lia. }
  rewrite N2Z.inj_abs_N, Z.abs_neq in Hval by lia.
  assert (Hlen' : String.length (pretty (Z.abs_N n)) = length d).
  { by rewrite <- length_chars, Hd. }
  rewrite Hlen'. cbn [String.length].
  destruct (zeros_digits (5 - 1 - length d) d) as [Hz1 Hz2].
  eexists. split; [rewrite !chars_app, chars_str, Hd; reflexivity|].
  split; [rewrite length_app, repeat_length; lia|].
  split; [by rewrite all_digits_app, Hz1|]. by rewrite Hz2.
Qed.

(** *** Reading an integer *)

Lemma int_of_digits (d : list ascii) :
  all_digits d = true -> d <> [] ->
  int_of_string (str d) = Some (digits_val d).
Proof.
  intros Hall Hne. unfold int_of_string. rewrite chars_str.
  rewrite strip_plain, strip_underscores_plain
    by first [done | by apply all_digits_plain].
  assert (Hs : starts_number d).
  { destruct d as [|c d]; [done|]. simpl in *.
    apply andb_true_iff in Hall as [Hc _]. by left. }
  pose proof (take_sign_chars None d Hs) as Ht.
  cbn [sign_chars sign_neg app] in Ht. rewrite Ht.
  destruct d; [done|]. by rewrite Hall.
Qed.

Lemma int_of_minus_digits (d : list ascii) :
  all_digits d = true -> d <> [] ->
  int_of_string (str ("-"%char :: d)) = Some (- digits_val d).
Proof.
  intros Hall Hne. unfold int_of_string. rewrite chars_str.
  assert (Hp : Forall plain ("-"%char :: d)).
  { constructor; [unfold plain; auto 10|by apply all_digits_plain]. }
  rewrite strip_plain, strip_underscores_plain by done.
  assert (Hs : starts_number d).
  { destruct d as [|c d]; [done|]. simpl in *.
    apply andb_true_iff in Hall as [Hc _]. by left. }
  pose proof (take_sign_chars (Some true) d Hs) as Ht.
  cbn [sign_chars sign_neg app] in Ht. rewrite Ht.
  destruct d; [done|]. by rewrite Hall.
Qed.

(** [int(f'{n:05d}')] is [n] on the radii that have five characters. *)
Lemma int_of_fmt_05d (n : Z) :
  -9999 <= n <= 99999 ->
  String.length (fmt_05d n) = 5%nat /\
  int_of_string (fmt_05d n) = Some n.
Proof.
  intros Hn. destruct (decide (0 <= n)) as [Hpos|Hneg].
  - destruct (fmt_05d_digits n) as (d & Hd & Hlen & Hall & Hval); [lia|].
    rewrite <- length_chars, Hd, <- (str_chars (fmt_05d n)), Hd.
    split; [done|]. rewrite int_of_digits, Hval; [done..|]. by destruct d.
  - destruct (fmt_05d_negative n) as (d & Hd & Hlen & Hall & Hval); [lia|].
    rewrite <- length_chars, Hd, <- (str_chars (fmt_05d n)), Hd.
    split; [simpl; lia|].
    rewrite int_of_minus_digits, Hval; [f_equal; lia|done|]. by destruct d.
Qed.

End NameFacts.

(** ** Radii, from the channel to the file and back *)

Module ChannelMore.
Import PyStr PyNum PyPath CoReManager Spec PyStrFacts ParseFacts ChannelFacts.
Import MoreSpec NameFacts.

(** *** What [int] can return on five characters *)

Lemma length_lstrip (l : list ascii) : (length (lstrip l) <= length l)%nat.
Proof.
  induction l as [|c l IH]; simpl; [done|].
  destruct (is_blank c); simpl; lia.
Qed.

Lemma length_strip (l : list ascii) : (length (strip l) <= length l)%nat.
Proof.
  unfold strip. rewrite length_rev.
  etrans; [apply length_lstrip|]. rewrite length_rev. apply length_lstrip.
Qed.

Lemma length_strip_underscores (l l' : list ascii) (prev : option ascii) :
  strip_underscores prev l = Some l' -> (length l' <= length l)%nat.
Proof.
  revert prev l'. induction l as [|c l IH]; intros prev l' H; simpl in H.
  - destruct prev as [p|]; [destruct (Ascii.eqb p "_")|]; simplify_eq; done.
  - destruct (Ascii.eqb c "_").
    + destruct prev as [p|]; [|done]. destruct (is_digit p); [|done].
      apply IH in H. simpl. lia.
    + match type of H with (if ?b then _ else _) = _ => destruct b end;
        [done|].
      destruct (strip_underscores (Some c) l) as [l0|] eqn:E; [|done].
      simpl in H. simplify_eq. apply IH in E. simpl. lia.
Qed.

Lemma take_sign_length (l d : list ascii) (neg : bool) :
  take_sign l = (neg, d) ->
  (length d <= length l)%nat /\ (neg = true -> (length d < length l)%nat).
Proof.
  destruct l as [|c l]; simpl; [intros; simplify_eq; split; [done|done]|].
  destruct (Ascii.eqb c "-"); [|destruct (Ascii.eqb c "+")];
    intros; simplify_eq; simpl; split; try done; lia.
Qed.

(** [int] of at most five characters lies between -9999 and 99999. *)
Lemma int_of_string_five (s : string) (n : Z) :
  (String.length s <= 5)%nat -> int_of_string s = Some n ->
  -9999 <= n <= 99999.
Proof.
  intros Hlen. unfold int_of_string.
  destruct (strip_underscores None (strip (chars s))) as [l|] eqn:El; [|done].
  apply length_strip_underscores in El.
  pose proof (length_strip (chars s)) as Hs. rewrite length_chars in Hs.
  destruct (take_sign l) as [neg d] eqn:Et.
  apply take_sign_length in Et as [Hd Hneg].
  destruct d as [|c d]; [done|].
  destruct (all_digits (c :: d)) eqn:Hall; [|done].
  pose proof (digits_val_range _ Hall) as Hr.
  intros [= <-]. destruct neg.
  - specialize (Hneg eq_refl).
    assert (10 ^ Z.of_nat (length (c :: d)) <= 10 ^ 4).
    { apply Z.pow_le_mono_r; lia. }
    lia.
  - assert (10 ^ Z.of_nat (length (c :: d)) <= 10 ^ 5).
    { apply Z.pow_le_mono_r; lia. }
    lia.
Qed.

Lemma length_slice_9_4 (s : string) :
  (String.length (slice s (-9) (-4)) <= 5)%nat.
Proof.
  unfold slice. rewrite length_str, length_firstn.
  unfold clamp. simpl. lia.
Qed.

(** *** The name of a saved file *)

Lemma chars_saved_name (r : Z) :
  chars (saved_name r)
  = (chars "Rh_l2_m2_r" ++ chars (fmt_05d r) ++ chars ".txt")%list.
Proof. unfold saved_name. by rewrite !chars_app. Qed.

Lemma length_five {A : Type} (l : list A) :
  length l = 5%nat -> exists a b c d e, l = [a; b; c; d; e].
Proof.
  destruct l as [|a [|b [|c [|d [|e [|]]]]]]; try done. intros _. by eauto 6.
Qed.

Lemma name_joinpath (p : Path) (n : string) : name (joinpath p n) = n.
Proof.
  unfold name, part_from_end, joinpath. rewrite length_app. simpl.
  destruct (Nat.ltb_spec (length p + 1) 1) as [|_]; [lia|].
  replace (length p + 1 - 1)%nat with (length p + 0)%nat by lia.
  by rewrite nth_error_app2, Nat.add_0_r, Nat.sub_diag by lia.
Qed.

(** Whatever the five characters before the suffix are, the scan reads
    its radius from them, and the pattern of the scan selects the name. *)
Lemma five_char_name (p : Path) (l : list ascii) :
  length l = 5%nat ->
  let n := str (chars "Rh_l2_m2_r" ++ l ++ chars ".txt") in
  stem_radius (joinpath p n) = or_raise ValueError (int_of_string (str l)) /\
  matches_Rh_txt n = true /\
  slice n (-9) (-4) = str l.
Proof.
  intros Hl. destruct (length_five l Hl) as (a & b & c & d & e & ->).
  intros n. unfold stem_radius, stem. rewrite name_joinpath.
  split; [|split]; reflexivity.
Qed.

Lemma saved_name_str (r : Z) :
  saved_name r
  = str (chars "Rh_l2_m2_r" ++ chars (fmt_05d r) ++ chars ".txt").
Proof. apply chars_inj. by rewrite chars_str, chars_saved_name. Qed.

(** The name written for a radius of five characters: the scan selects
    it and reads the radius back, and so does the channel selector. *)
Lemma saved_name_radius (p : Path) (r : Z) :
  -9999 <= r <= 99999 ->
  stem_radius (joinpath p (saved_name r)) = Ok r /\
  matches_Rh_txt (saved_name r) = true /\
  slice (saved_name r) (-9) (-4) = fmt_05d r.
Proof.
  intros Hr. destruct (int_of_fmt_05d r Hr) as [Hlen Hint].
  rewrite <- length_chars in Hlen.
  destruct (five_char_name p _ Hlen) as (H1 & H2 & H3).
  rewrite saved_name_str, H1, H2, H3, str_chars, Hint. done.
Qed.

(** *** Names in the order of strings *)

Lemma lt_chars_app (p l1 l2 : list ascii) :
  lt_chars (p ++ l1) (p ++ l2) = lt_chars l1 l2.
Proof.
  induction p as [|c p IH]; simpl; [done|]. by rewrite N.ltb_irrefl.
Qed.

(** Digit strings of one length are ordered as the numbers they spell. *)
Lemma lt_chars_digits (d1 d2 t1 t2 : list ascii) :
  length d1 = length d2 ->
  all_digits d1 = true -> all_digits d2 = true ->
  digits_val d1 < digits_val d2 ->
  lt_chars (d1 ++ t1) (d2 ++ t2) = true.
Proof.
  revert d2. induction d1 as [|a d1 IH]; intros [|b d2] Hlen H1 H2 Hlt;
    try done.
  simpl in Hlen, H1, H2. apply andb_true_iff in H1 as [Ha H1].
    apply andb_true_iff in H2 as [Hb H2].
    rewrite !digits_val_cons in Hlt.
    pose proof (digits_val_range d1 H1) as R1.
    pose proof (digits_val_range d2 H2) as R2.
    assert (length d1 = length d2) as Hl by lia. rewrite Hl in *.
    pose proof (digit_val_range a Ha). pose proof (digit_val_range b Hb).
    simpl. unfold digit_val in *.
    destruct (N.ltb_spec (code a) (code b)) as [|Hab]; [done|].
    destruct (N.ltb_spec (code b) (code a)) as [Hba|Hba].
    + exfalso. nia.
    + assert (code a = code b) as E by lia. rewrite E in Hlt.
      apply IH; [done..|lia].
Qed.

Lemma saved_name_lt (r1 r2 : Z) :
  0 <= r1 -> r1 < r2 -> r2 <= 99999 ->
  ltb (saved_name r1) (saved_name r2) = true.
Proof.
  intros H0 Hlt H9.
  destruct (fmt_05d_digits r1) as (d1 & Hd1 & Hl1 & Ha1 & Hv1); [lia|].
  destruct (fmt_05d_digits r2) as (d2 & Hd2 & Hl2 & Ha2 & Hv2); [lia|].
  unfold ltb. rewrite !chars_saved_name, lt_chars_app, Hd1, Hd2.
  apply lt_chars_digits; [lia|done..|lia].
Qed.

Lemma saved_name_lt_inf (r : Z) :
  0 <= r <= 99999 -> ltb (saved_name r) inf_name = true.
Proof.
  intros Hr.
  destruct (fmt_05d_digits r Hr) as (d & Hd & Hl & Ha & Hv).
  unfold ltb. rewrite chars_saved_name, Hd.
  change (chars inf_name) with (chars "Rh_l2_m2_r" ++ chars "Inf.txt")%list.
  rewrite lt_chars_app. destruct d as [|a d]; [done|].
  simpl in Ha. apply andb_true_iff in Ha as [Ha _].
  unfold is_digit in Ha. apply andb_true_iff in Ha as [_ Ha].
  apply N.leb_le in Ha. cbn [app chars list_ascii_of_string lt_chars].
  change (code "I") with 73%N.
  destruct (N.ltb_spec (code a) 73) as [|]; [done|lia].
Qed.

Lemma saved_name_not_inf (r : Z) :
  0 <= r <= 99999 -> contains "Inf" (saved_name r) = false.
Proof.
  intros Hr.
  destruct (fmt_05d_digits r Hr) as (d & Hd & Hl & Ha & Hv).
  destruct (contains "Inf" (saved_name r)) eqn:E; [|done]. exfalso.
  unfold contains in E. apply (contains_chars_In "I" (chars "nf")) in E.
  rewrite chars_saved_name, Hd in E.
  apply in_app_or in E as [E|E].
  { simpl in E. intuition discriminate. }
  apply in_app_or in E as [E|E].
  - unfold all_digits in Ha. rewrite forallb_forall in Ha.
    specialize (Ha _ E). done.
  - simpl in E. intuition discriminate.
Qed.

Section WithArray.
Context {array : Type}.

Lemma extraction_radius_bound (extractions : list (string * array))
  (k : string) (r : Z) :
  _get_highest_r_extraction_ extractions = Ok (k, r) -> -9999 <= r <= 99999.
Proof.
  unfold _get_highest_r_extraction_.
  destruct (py_max (PyDict.keys extractions)) as [m|e]; [|done]. simpl.
  destruct (contains "Inf" m); [intros [= _ <-]; lia|].
  destruct (int_of_string (slice m (-9) (-4))) as [n|] eqn:E; [|done].
  simpl. intros [= _ <-].
  eapply int_of_string_five; [apply length_slice_9_4|done].
Qed.

(** X4. The radius that the channel selector returns is an integer of five
    characters at most, between -9999 and 99999, so the name of five
    figures that it is written in is read back as the same radius; without
    a channel there is nothing to select and [max] raises [ValueError]. *)
Theorem highest_r_extraction_range :
  (forall (extractions : list (string * array)) (k : string) (r : Z)
          (p : Path),
      _get_highest_r_extraction_ extractions = Ok (k, r) ->
      -9999 <= r <= 99999 /\
      stem_radius (joinpath p (saved_name r)) = Ok r) /\
  @_get_highest_r_extraction_ array [] = Raise ValueError.
Proof.
  split; [|done]. intros ex k r p H.
  pose proof (extraction_radius_bound ex k r H) as Hr. split; [done|].
  by destruct (saved_name_radius p r Hr) as (-> & _).
Qed.

(** X5. On the names that the database gives its channels, the order of
    strings is the order of the radii: with the channel at infinity among
    them it is the one selected, with radius 99999; without it the
    selected channel is the one of the greatest radius, and the radius
    returned is that one. *)
Theorem highest_r_extraction_standard (extractions : list (string * array)) :
  extractions <> [] ->
  Forall standard_channel (PyDict.keys extractions) ->
  (inf_name ∈ PyDict.keys extractions ->
   _get_highest_r_extraction_ extractions = Ok (inf_name, 99999)) /\
  (inf_name ∉ PyDict.keys extractions ->
   exists r,
     0 <= r <= 99999 /\
     saved_name r ∈ PyDict.keys extractions /\
     _get_highest_r_extraction_ extractions = Ok (saved_name r, r) /\
     forall r', 0 <= r' <= 99999 ->
                saved_name r' ∈ PyDict.keys extractions -> r' <= r).
Proof.
  intros Hne Hstd.
  destruct (py_max_spec (PyDict.keys extractions)) as (m & Hm & Hin & Hmax).
  { destruct extractions; done. }
  rewrite Forall_forall in Hstd.
  unfold _get_highest_r_extraction_. rewrite Hm. simpl. split.
  - intros Hinf. destruct (decide (m = inf_name)) as [->|Hd]; [done|].
    exfalso. destruct (Hstd m Hin) as [->|(r & Hr & ->)]; [done|].
    pose proof (Hmax inf_name Hinf ltac:(congruence)) as H1.
    pose proof (saved_name_lt_inf r Hr) as H2.
    pose proof (ltb_trans _ _ _ H1 H2) as H3.
    by rewrite ltb_irrefl in H3.
  - intros Hinf. destruct (Hstd m Hin) as [->|(r & Hr & ->)]; [done|].
    exists r. split; [done|]. split; [done|].
    rewrite saved_name_not_inf by done.
    destruct (saved_name_radius [] r) as (_ & _ & ->); [lia|].
    destruct (int_of_fmt_05d r) as [_ ->]; [lia|]. split; [done|].
    intros r' Hr' Hin'. destruct (decide (r' <= r)) as [|Hgt]; [done|].
    exfalso.
    pose proof (saved_name_lt r r' ltac:(lia) ltac:(lia) ltac:(lia)) as H1.
    destruct (decide (saved_name r' = saved_name r)) as [E|E].
    + rewrite E, ltb_irrefl in H1. done.
    + pose proof (Hmax _ Hin' E) as H2.
      pose proof (ltb_trans _ _ _ H1 H2) as H3.
      by rewrite ltb_irrefl in H3.
Qed.

End WithArray.

(** X6. The name that [download_strains] gives the file of a radius
    between -9999 and 99999 is one that the scan for [Rh*.txt] selects,
    and the radius that the scan reads in it is the one written. *)
Theorem saved_name_read_back (p : Path) (r : Z) :
  -9999 <= r <= 99999 ->
  matches_Rh_txt (name (joinpath p (saved_name r))) = true /\
  stem_radius (joinpath p (saved_name r)) = Ok r.
Proof.
  intros Hr. rewrite name_joinpath.
  destruct (saved_name_radius p r Hr) as (H1 & H2 & _). done.
Qed.

Lemma highest_r_extraction_range_witness :
  let extractions :=
    [("Rh_l2_m2_r00400.txt", 1%nat); ("Rh_l2_m2_rInf.txt", 2%nat)] in
  _get_highest_r_extraction_ extractions = Ok ("Rh_l2_m2_rInf.txt", 99999) /\
  -9999 <= 99999 <= 99999 /\
  stem_radius (joinpath ["CoRe_DB_clone"; "BAM_0001"; "R01"]
                 (saved_name 99999)) = Ok 99999.
Proof.
  intros extractions.
  assert (H : _get_highest_r_extraction_ extractions
              = Ok ("Rh_l2_m2_rInf.txt", 99999)) by (vm_compute; reflexivity).
  split; [exact H|].
  exact (proj1 (@highest_r_extraction_range nat) extractions
           "Rh_l2_m2_rInf.txt" 99999 ["CoRe_DB_clone"; "BAM_0001"; "R01"] H).
Defined.

Lemma highest_r_extraction_standard_witness :
  let extractions :=
    [(saved_name 400, 1%nat); (saved_name 1000, 2%nat);
     (saved_name 700, 3%nat)] in
  extractions <> [] /\
  Forall standard_channel (PyDict.keys extractions) /\
  (inf_name ∉ PyDict.keys extractions) /\
  exists r,
    0 <= r <= 99999 /\
    saved_name r ∈ PyDict.keys extractions /\
    _get_highest_r_extraction_ extractions = Ok (saved_name r, r) /\
    forall r', 0 <= r' <= 99999 ->
               saved_name r' ∈ PyDict.keys extractions -> r' <= r.
Proof.
  intros extractions.
  assert (H1 : extractions <> []) by discriminate.
  assert (H2 : Forall standard_channel (PyDict.keys extractions)).
  { repeat (constructor; [right; eexists; split; [|reflexivity]; lia|]).
    constructor. }
  assert (H3 : inf_name ∉ PyDict.keys extractions).
  { unfold extractions. simpl. rewrite !elem_of_cons, elem_of_nil.
    intros [H|[H|[H|[]]]]; vm_compute in H; discriminate. }
  do 3 (split; [done|]).
  exact (proj2 (highest_r_extraction_standard extractions H1 H2) H3).
Defined.

Lemma saved_name_read_back_witness :
  -9999 <= 250 <= 99999 /\
  matches_Rh_txt (name (joinpath ["db"; "BAM_0001"; "R01"] (saved_name 250)))
  = true /\
  stem_radius (joinpath ["db"; "BAM_0001"; "R01"] (saved_name 250)) = Ok 250.
Proof.
  split; [lia|].
  apply (saved_name_read_back ["db"; "BAM_0001"; "R01"] 250). lia.
Defined.

End ChannelMore.

(** ** More on downloads *)

Module DownloadMore.
Import PyStr PyNum PyPath CoReManager Spec Examples.
Import PyStrFacts CacheFacts RunFacts DownloadFacts.
Import MoreSpec MoreExamples NameFacts ChannelMore CacheMore.

(** *** Steps of a download *)

(** A step that keeps [self.downloaded], and what follows it. *)
Lemma keeps_step {A B : Type} (m : M A) (k : A -> M B) (st st' : state)
  (r : result B) :
  keeps_downloaded m ->
  bind m k st = (r, st') ->
  (downloaded st' = downloaded st /\ exists e, r = Raise e) \/
  (exists a st1, m st = (Ok a, st1) /\ downloaded st1 = downloaded st /\
                 k a st1 = (r, st')).
Proof.
  intros K. unfold bind. destruct (m st) as [[a|e] st1] eqn:E.
  - intros H. right. exists a, st1. split; [done|]. split; [|done].
    exact (kept_run _ _ _ _ K E).
  - intros [= <- <-]. left. split; [|by eexists].
    exact (kept_run _ _ _ _ K E).
Qed.

Lemma lift_run {A : Type} (r : result A) (a : A) (st st1 : state) :
  lift r st = (Ok a, st1) -> r = Ok a /\ st1 = st.
Proof. unfold lift. by intros [= -> ->]. Qed.

Lemma saved_record_radius (a : Artifact) :
  saved_record a ->
  stem_radius (file a) = Ok (r_extraction a) /\
  matches_Rh_txt (name (file a)) = true.
Proof.
  intros [Hr [p Hp]]. rewrite Hp, name_joinpath.
  destruct (saved_name_radius p _ Hr) as (H1 & H2 & _). done.
Qed.

Lemma radii_ok_insert (skey runkey : string) (a : Artifact)
  (dl : gmap string (gmap string Artifact)) :
  radii_ok dl -> stem_radius (file a) = Ok (r_extraction a) ->
  radii_ok (<[skey := {[runkey := a]}]> dl).
Proof.
  intros Hok Ha key run b. unfold record_of.
  destruct (decide (skey = key)) as [->|Hne].
  - rewrite lookup_insert_eq. intros Hb.
    apply lookup_singleton_Some in Hb as [_ <-]. done.
  - rewrite lookup_insert_ne by done. apply Hok.
Qed.

Lemma inner_nonempty_insert (skey runkey : string) (a : Artifact)
  (dl : gmap string (gmap string Artifact)) :
  inner_nonempty dl -> inner_nonempty (<[skey := {[runkey := a]}]> dl).
Proof.
  intros Hne key d. destruct (decide (skey = key)) as [->|Hd].
  - rewrite lookup_insert_eq. intros [= <-]. apply insert_non_empty.
  - rewrite lookup_insert_ne by done. apply Hne.
Qed.

Section WithCollaborators.
Context {array : Type}.
Variable cdb_sync : string -> string -> bool -> world -> result unit * world.
Variable read_dset :
  CoRe_run -> world
  -> result (gmap string (list (string * array))) * world.
Variable np_savetxt :
  Path -> array -> string -> world -> result unit * world.

Local Abbreviation download_one :=
  (download_one cdb_sync read_dset np_savetxt).
Local Abbreviation download_strains :=
  (download_strains cdb_sync read_dset np_savetxt).

Lemma keeps_after_record (skey : string) (keep_h5 verbose : bool) :
  keeps_downloaded
    (let* _ := if negb keep_h5 then _clean_h5_data skey else ret tt in
     print_if verbose (skey +:+ " downloaded.")).
Proof.
  apply keeps_bind; [|intros _; apply keeps_print_if].
  destruct keep_h5; [apply keeps_ret|apply keeps_clean].
Qed.

(** What a download leaves in [self.downloaded], however it ends: what
    there was, when it fails before the file is saved; otherwise one
    record for the simulation, of the run selected, in place of what there
    was for it. *)
Lemma download_one_outcome (skey : string) (keep_h5 : bool)
  (prot : string) (lfs verbose : bool) (st st' : state) (r : result unit) :
  download_one skey keep_h5 prot lfs verbose st = (r, st') ->
  (downloaded st' = downloaded st /\ exists e, r = Raise e) \/
  (exists runkey a st1 st2,
      extern (EvSync skey) (cdb_sync skey prot lfs) st = (Ok tt, st1) /\
      get_runkey_lowest_eccentricity skey st1
      = (Ok (runkey, eccentricity a), st2) /\
      downloaded st' = <[skey := {[runkey := a]}]> (downloaded st) /\
      saved_record a).
Proof.
  unfold CoReManager.download_one. intros H.
  destruct (keeps_step _ _ _ _ _ (keeps_extern _ _) H)
    as [[K [e ->]]|([] & st1 & H1 & K1 & H')]; [left; eauto|].
  clear H. rename H' into H.
  destruct (keeps_step _ _ _ _ _ (keeps_lowest_eccentricity _) H)
    as [[K [e ->]]|([runkey ecc] & st2 & H2 & K2 & H')];
    [left; split; [congruence|eauto]|].
  clear H. rename H' into H.
  destruct (keeps_step _ _ _ _ _ (keeps_cdb_sim _) H)
    as [[K [e ->]]|(s & st3 & H3 & K3 & H')];
    [left; split; [congruence|eauto]|].
  clear H. rename H' into H.
  destruct (keeps_step _ _ _ _ _ (keeps_lookup _ _) H)
    as [[K [e ->]]|(run & st4 & H4 & K4 & H')];
    [left; split; [congruence|eauto]|].
  clear H. rename H' into H.
  destruct (keeps_step _ _ _ _ _ (keeps_extern _ _) H)
    as [[K [e ->]]|(dsets & st5 & H5 & K5 & H')];
    [left; split; [congruence|eauto]|].
  clear H. rename H' into H.
  destruct (keeps_step _ _ _ _ _ (keeps_lift _) H)
    as [[K [e ->]]|(data & st6 & H6 & K6 & H')];
    [left; split; [congruence|eauto]|].
  clear H. rename H' into H.
  destruct (keeps_step _ _ _ _ _ (keeps_lift _) H)
    as [[K [e ->]]|([rext_key rext] & st7 & H7 & K7 & H')];
    [left; split; [congruence|eauto]|].
  clear H. rename H' into H.
  destruct (keeps_step _ _ _ _ _ (keeps_lift _) H)
    as [[K [e ->]]|(gw_data & st8 & H8 & K8 & H')];
    [left; split; [congruence|eauto]|].
  clear H. rename H' into H.
  destruct (keeps_step _ _ _ _ _ (keeps_extern _ _) H)
    as [[K [e ->]]|([] & st9 & H9 & K9 & H')];
    [left; split; [congruence|eauto]|].
  clear H. rename H' into H.
  unfold bind at 1, modify at 1 in H.
  pose proof (kept_run _ _ _ _ (keeps_after_record skey keep_h5 verbose) H)
    as K.
  apply lift_run in H7 as [H7 _].
  apply extraction_radius_bound in H7.
  right.
  exists runkey,
    {| file := joinpath (run_path run)
                 ("Rh_l2_m2_r" +:+ fmt_05d rext +:+ ".txt");
       eccentricity := ecc; r_extraction := rext |}, st1, st2.
  split; [done|]. split; [done|]. split.
  - rewrite K. simpl. f_equal. congruence.
  - split; [done|]. by eexists.
Qed.

Lemma download_one_invariant (skey : string) (keep_h5 : bool)
  (prot : string) (lfs verbose : bool) (st : state) :
  radii_ok (downloaded st) /\ inner_nonempty (downloaded st) ->
  let st' := (download_one skey keep_h5 prot lfs verbose st).2 in
  radii_ok (downloaded st') /\ inner_nonempty (downloaded st').
Proof.
  intros [Hok Hne] st'.
  destruct (download_one_outcome skey keep_h5 prot lfs verbose st st'
              (download_one skey keep_h5 prot lfs verbose st).1)
    as [[-> _]|(runkey & a & _ & _ & _ & _ & -> & Ha)];
    [by apply surjective_pairing|done|].
  split.
  - apply radii_ok_insert; [done|]. by apply saved_record_radius.
  - by apply inner_nonempty_insert.
Qed.

(** The turn of the loop on one key. *)
Lemma download_strains_cons (skey : string) (rest : list string)
  (keep_h5 overwrite : bool) (prot : string) (lfs verbose : bool)
  (st : state) :
  download_strains (skey :: rest) keep_h5 overwrite prot lfs verbose st
  = bind
      (if negb overwrite && bool_decide (is_Some (downloaded st !! skey))
       then print_if verbose (skey +:+ " already downloaded, skipping.")
       else download_one skey keep_h5 prot lfs verbose)
      (fun _ => download_strains rest keep_h5 overwrite prot lfs verbose) st.
Proof. done. Qed.

(** X7. The records of [self.downloaded] that the scan builds have a
    file whose name ends in their radius, and no simulation is there
    without a run. A call of [download_strains] keeps it so, whatever
    the keys and the options, also when it ends in an exception. *)
Theorem downloaded_invariant :
  (forall (scan : list (list string)) (st : state)
          (txt_files : gmap string (gmap string Artifact)),
      (_look_for_existing_strains scan st).1 = Ok txt_files ->
      radii_ok txt_files /\ inner_nonempty txt_files) /\
  (forall (simkeys : list string) (keep_h5 overwrite : bool)
          (prot : string) (lfs verbose : bool) (st : state),
      radii_ok (downloaded st) /\ inner_nonempty (downloaded st) ->
      let st' :=
        (download_strains simkeys keep_h5 overwrite prot lfs verbose st).2 in
      radii_ok (downloaded st') /\ inner_nonempty (downloaded st')).
Proof.
  split.
  - intros scan st tf Hrun.
    assert (Hs : Forall (scannable (fs (env st))) scan).
    { apply scan_Ok_iff. by exists tf. }
    destruct (look_loop_winner scan ∅ st Hs radii_ok_empty)
      as (tf' & E & Hok & _).
    assert (Hne : inner_nonempty (∅ : gmap string (gmap string Artifact))).
    { intros k d. by rewrite lookup_empty. }
    pose proof (look_loop_nonempty _ _ _ _ _ Hs radii_ok_empty Hne E) as N.
    unfold _look_for_existing_strains in Hrun. rewrite E in Hrun.
    simpl in Hrun. by simplify_eq.
  - intros simkeys keep_h5 overwrite prot lfs verbose.
    induction simkeys as [|skey rest IH]; intros st Hinv; [done|].
    rewrite download_strains_cons. unfold bind.
    destruct (negb overwrite && bool_decide (is_Some (downloaded st !! skey))).
    + pose proof (keeps_print_if verbose
                    (skey +:+ " already downloaded, skipping.") st) as K.
      destruct (print_if verbose _ st) as [[[]|e] st1]; simpl in *.
      * apply IH. by rewrite K.
      * by rewrite K.
    + pose proof (download_one_invariant skey keep_h5 prot lfs verbose st Hinv)
        as Hinv1.
      destruct (download_one skey keep_h5 prot lfs verbose st)
        as [[[]|e] st1]; simpl in *; [by apply IH|done].
Qed.

(** X8. A key that is downloaded, because it is new or because
    [overwrite] is set, and whose download ends well: the simulation is
    synchronised, the run is the one that the selector gives on what the
    synchronisation left, and [self.downloaded] has for the simulation
    that run alone, with the eccentricity selected and a file named after
    the radius; the records of the other simulations are as they were. *)
Theorem download_replaces_record (skey : string) (keep_h5 overwrite : bool)
  (prot : string) (lfs verbose : bool) (st st' : state) :
  overwrite = true \/ downloaded st !! skey = None ->
  download_strains [skey] keep_h5 overwrite prot lfs verbose st
  = (Ok tt, st') ->
  exists runkey a st1 st2,
    extern (EvSync skey) (cdb_sync skey prot lfs) st = (Ok tt, st1) /\
    get_runkey_lowest_eccentricity skey st1
    = (Ok (runkey, eccentricity a), st2) /\
    downloaded st' !! skey = Some {[runkey := a]} /\
    (forall k, k <> skey -> downloaded st' !! k = downloaded st !! k) /\
    saved_record a /\
    stem_radius (file a) = Ok (r_extraction a).
Proof.
  intros Hnew. rewrite download_strains_cons.
  replace (negb overwrite && bool_decide (is_Some (downloaded st !! skey)))
    with false.
  2:{ destruct Hnew as [->|Hnone]; [done|]. rewrite Hnone.
      rewrite bool_decide_eq_false_2; [by destruct overwrite|].
      by intros [? ?]. }
  intros H. apply bind_Ok in H as ([] & st1 & H1 & H).
  unfold CoReManager.download_strains, ret in H. simplify_eq.
  destruct (download_one_outcome _ _ _ _ _ _ _ _ H1)
    as [[_ [e ?]]|(runkey & a & st2 & st3 & Hs & Hsel & Hd & Ha)]; [done|].
  exists runkey, a, st2, st3. do 2 (split; [done|]). rewrite Hd.
  split; [by rewrite lookup_insert_eq|].
  split; [by intros k Hk; rewrite lookup_insert_ne|].
  split; [done|]. by apply saved_record_radius.
Qed.

(** X9. A batch is its two parts one after the other: the keys of the
    second part are downloaded from what the first part left, and not at
    all when the first part ends in an exception. *)
Theorem download_strains_app (ks1 ks2 : list string)
  (keep_h5 overwrite : bool) (prot : string) (lfs verbose : bool)
  (st : state) :
  download_strains (ks1 ++ ks2) keep_h5 overwrite prot lfs verbose st
  = match download_strains ks1 keep_h5 overwrite prot lfs verbose st with
    | (Ok _, st1) =>
        download_strains ks2 keep_h5 overwrite prot lfs verbose st1
    | (Raise e, st1) => (Raise e, st1)
    end.
Proof.
  revert st. induction ks1 as [|skey ks1 IH]; intros st; [done|].
  rewrite <- app_comm_cons, !download_strains_cons. unfold bind.
  destruct (negb overwrite && bool_decide (is_Some (downloaded st !! skey))).
  - destruct (print_if verbose _ st) as [[[]|e] st1]; [apply IH|done].
  - destruct (download_one skey keep_h5 prot lfs verbose st)
      as [[[]|e] st1]; [apply IH|done].
Qed.

Lemma not_skipped (skey : string) (overwrite : bool) (st : state) :
  overwrite = true \/ downloaded st !! skey = None ->
  negb overwrite && bool_decide (is_Some (downloaded st !! skey)) = false.
Proof.
  intros [->|Hnone]; [done|]. rewrite Hnone.
  rewrite bool_decide_eq_false_2; [by destruct overwrite|]. by intros [? ?].
Qed.

(** The download that removes the raw data is the one that keeps it,
    then the removal. *)
Lemma download_one_then_clean (skey : string) (prot : string)
  (lfs verbose : bool) (st st1 : state) :
  download_one skey true prot lfs false st = (Ok tt, st1) ->
  download_one skey false prot lfs verbose st
  = bind (_clean_h5_data skey)
      (fun _ => print_if verbose (skey +:+ " downloaded.")) st1.
Proof.
  unfold CoReManager.download_one. intros H.
  apply bind_Ok in H as (? & s1 & H1 & H). unfold bind at 1. rewrite H1.
  apply bind_Ok in H as ([runkey ecc] & s2 & H2 & H).
  unfold bind at 1. rewrite H2.
  apply bind_Ok in H as (s & s3 & H3 & H). unfold bind at 1. rewrite H3.
  apply bind_Ok in H as (run & s4 & H4 & H). unfold bind at 1. rewrite H4.
  apply bind_Ok in H as (dsets & s5 & H5 & H). unfold bind at 1. rewrite H5.
  apply bind_Ok in H as (data & s6 & H6 & H). unfold bind at 1. rewrite H6.
  apply bind_Ok in H as ([rext_key rext] & s7 & H7 & H).
  unfold bind at 1. rewrite H7.
  apply bind_Ok in H as (gw_data & s8 & H8 & H). unfold bind at 1. rewrite H8.
  apply bind_Ok in H as (? & s9 & H9 & H). unfold bind at 1. rewrite H9.
  apply bind_Ok in H as (? & s10 & H10 & H). unfold bind at 1. rewrite H10.
  simpl in H. unfold bind, ret in H. by simplify_eq.
Qed.

(** X10. The record is made before the raw data is removed. When the
    download of a key with the raw data kept ends well, and removing the
    raw data from what it left raises, the download of the key without
    [keep_h5] raises the same and the keys after it are not downloaded;
    but the key is recorded, and a later call without [overwrite] skips
    it. *)
Theorem cleanup_failure_keeps_record (skey : string) (rest : list string)
  (overwrite : bool) (prot : string) (lfs verbose verbose' : bool)
  (st st1 st2 : state) (e : exn) :
  overwrite = true \/ downloaded st !! skey = None ->
  download_strains [skey] true overwrite prot lfs false st = (Ok tt, st1) ->
  _clean_h5_data skey st1 = (Raise e, st2) ->
  download_strains (skey :: rest) false overwrite prot lfs verbose st
  = (Raise e, st2) /\
  is_Some (downloaded st2 !! skey) /\
  download_strains [skey] false false prot lfs verbose' st2
  = (Ok tt, log_all (skip_prints verbose' [skey]) st2).
Proof.
  intros Hnew H1 H2. rewrite download_strains_cons in H1.
  rewrite download_strains_cons. rewrite not_skipped in * by done.
  apply bind_Ok in H1 as ([] & st1' & H1 & Hnil).
  unfold CoReManager.download_strains, ret in Hnil. simplify_eq.
  assert (Hrec : is_Some (downloaded st2 !! skey)).
  { rewrite (kept_run _ _ _ _ (keeps_clean skey) H2).
    destruct (download_one_records _ _ _ _ _ _ _ _ _ _ H1) as [d ->].
    by rewrite lookup_insert_eq. }
  split; [|split; [done|]].
  - unfold bind at 1.
    rewrite (download_one_then_clean _ _ _ verbose _ _ H1).
    unfold bind. by rewrite H2.
  - apply download_strains_skips. intros k Hk.
    by apply list_elem_of_singleton in Hk as ->.
Qed.

(** X11. What the scan has found is not downloaded again: when
    [self.downloaded] is the index of a scan, as the constructor leaves
    it, the key of the simulation of any file of the scan is skipped by a
    call without [overwrite]. *)
Theorem scanned_simulation_is_skipped (scan : list (list string))
  (f : Path) (key run : string) (a : Artifact)
  (keep_h5 : bool) (prot : string) (lfs verbose : bool) (st st0 : state) :
  (_look_for_existing_strains scan st0).1 = Ok (downloaded st) ->
  f ∈ scan ->
  scanned (fs (env st0)) f = Some (key, run, a) ->
  download_strains [key] keep_h5 false prot lfs verbose st
  = (Ok tt, log_all (skip_prints verbose [key]) st).
Proof.
  intros Hrun Hf Hsc.
  apply download_strains_skips. intros k Hk.
  apply list_elem_of_singleton in Hk as ->.
  assert (Hs : Forall (scannable (fs (env st0))) scan).
  { apply scan_Ok_iff. by eexists. }
  destruct (look_loop_winner scan ∅ st0 Hs radii_ok_empty)
    as (tf' & E & _ & Hrec).
  unfold _look_for_existing_strains in Hrun. rewrite E in Hrun.
  simpl in Hrun. injection Hrun as Htf.
  pose proof (winner_greatest (fs (env st0)) key run scan) as W.
  specialize (Hrec key run). rewrite record_of_empty, Htf in Hrec.
  destruct (winner (fs (env st0)) key run scan None) as [b|].
  - unfold record_of in Hrec. by destruct (downloaded st !! key).
  - specialize (W f Hf). unfold artifact_for in W.
    rewrite Hsc, !String.eqb_refl in W. done.
Qed.

(** X16. A download is found again by the scan. When the folders of the
    file are named after the simulation (with [_] for [:]) and the run,
    and the [metadata.txt] next to it spells the eccentricity selected,
    the scan of the file on what the download left builds the record
    that the download made, under the same keys. *)
Theorem rescan_finds_download (skey : string) (keep_h5 overwrite : bool)
  (prot : string) (lfs verbose : bool) (st st' : state)
  (runkey p3 : string) (a : Artifact) (lines : list string) :
  overwrite = true \/ downloaded st !! skey = None ->
  download_strains [skey] keep_h5 overwrite prot lfs verbose st
  = (Ok tt, st') ->
  downloaded st' !! skey = Some {[runkey := a]} ->
  part_from_end (file a) 3 = Some p3 ->
  replace_char "_" ":" p3 = skey ->
  part_from_end (file a) 2 = Some runkey ->
  fs (env st') !! joinpath (parent (file a)) "metadata.txt"
  = Some (File lines) ->
  lines_ecc lines = Some (eccentricity a) ->
  _look_for_existing_strains [file a] st'
  = (Ok {[skey := {[runkey := a]}]}, st').
Proof.
  intros Hnew H Ha H3 Hkey H2 Hmd Hecc.
  rewrite download_strains_cons, not_skipped in H by done.
  apply bind_Ok in H as ([] & st1 & H1 & Hnil).
  unfold CoReManager.download_strains, ret in Hnil. simplify_eq.
  destruct (download_one_outcome _ _ _ _ _ _ _ _ H1)
    as [[_ [e ?]]|(rk & a' & _ & _ & _ & _ & Hd & Hsaved)]; [done|].
  rewrite Hd, lookup_insert_eq in Ha. apply (inj Some) in Ha.
  assert (a' = a) as ->.
  { apply (f_equal (lookup rk)) in Ha. rewrite lookup_singleton_eq in Ha.
    symmetry in Ha. by apply lookup_singleton_Some in Ha as [_ ->]. }
  destruct (saved_record_radius a Hsaved) as [Hrad _].
  assert (Hsc : scanned (fs (env st')) (file a)
                = Some (replace_char "_" ":" p3, runkey, a)).
  { unfold scanned. rewrite H3, H2, Hmd, Hecc.
    unfold stem_radius in Hrad.
    destruct (int_of_string (slice_from (stem (file a)) (-5))) as [r|];
      [|done].
    simpl in Hrad. injection Hrad as ->. by destruct a. }
  unfold _look_for_existing_strains.
  destruct (look_loop_step (file a) [] ∅ st' _ _ _ Hsc radii_ok_empty)
    as [-> _].
  simpl. unfold ret, store, keep. rewrite record_of_empty, lookup_empty.
  simpl. by rewrite !insert_empty.
Qed.

End WithCollaborators.

(** *** On the sample simulation *)

Lemma downloaded_invariant_witness :
  let st := manager runs_nan_last tree_raw in
  let st' := (download_strains sync_noop dset_two savetxt_header
                ["BAM:0001"; "THC:0001"] false false "https" false true st).2 in
  (radii_ok (downloaded st) /\ inner_nonempty (downloaded st)) /\
  radii_ok (downloaded st') /\ inner_nonempty (downloaded st').
Proof.
  intros st st'.
  assert (H : radii_ok (downloaded st) /\ inner_nonempty (downloaded st)).
  { split; [apply radii_ok_empty|]. intros k d Hk.
    change (downloaded st) with (∅ : gmap string (gmap string Artifact)) in Hk.
    by rewrite lookup_empty in Hk. }
  split; [exact H|].
  exact (proj2 (downloaded_invariant sync_noop dset_two savetxt_header)
           ["BAM:0001"; "THC:0001"] false false "https" false true st H).
Defined.

Lemma download_replaces_record_witness :
  let call := download_strains sync_noop dset_two savetxt_header
                ["BAM:0001"] true true "https" false false in
  let st := manager runs_nan_last tree_raw in
  let st' := (call st).2 in
  call st = (Ok tt, st') /\
  exists runkey a st1 st2,
    extern (EvSync "BAM:0001") (sync_noop "BAM:0001" "https" false) st
    = (Ok tt, st1) /\
    get_runkey_lowest_eccentricity "BAM:0001" st1
    = (Ok (runkey, eccentricity a), st2) /\
    downloaded st' !! "BAM:0001" = Some {[runkey := a]} /\
    (forall k, k <> "BAM:0001" -> downloaded st' !! k = downloaded st !! k) /\
    saved_record a /\
    stem_radius (file a) = Ok (r_extraction a).
Proof.
  intros call st st'.
  assert (H : call st = (Ok tt, st')).
  { rewrite (surjective_pairing (call st)).
    apply (f_equal2 pair); [vm_compute|]; reflexivity. }
  split; [exact H|].
  exact (download_replaces_record sync_noop dset_two savetxt_header
           "BAM:0001" true true "https" false false st st'
           (or_introl eq_refl) H).
Defined.

Lemma cleanup_failure_keeps_record_witness :
  let st := manager runs_nan_last tree_raw in
  let st1 := (download_strains sync_noop dset_two savetxt_header
                ["BAM:0001"] true false "https" false false st).2 in
  let st2 := (_clean_h5_data "BAM:0001" st1).2 in
  _clean_h5_data "BAM:0001" st1 = (Raise OSError, st2) /\
  download_strains sync_noop dset_two savetxt_header
    ["BAM:0001"; "THC:0001"] false false "https" false true st
  = (Raise OSError, st2) /\
  is_Some (downloaded st2 !! "BAM:0001") /\
  download_strains sync_noop dset_two savetxt_header
    ["BAM:0001"] false false "https" false true st2
  = (Ok tt, log_all (skip_prints true ["BAM:0001"]) st2).
Proof.
  intros st st1 st2.
  assert (H1 : download_strains sync_noop dset_two savetxt_header
                 ["BAM:0001"] true false "https" false false st
               = (Ok tt, st1)).
  { rewrite (surjective_pairing (download_strains _ _ _ _ _ _ _ _ _ st)).
    apply (f_equal2 pair); [vm_compute|]; reflexivity. }
  assert (H2 : _clean_h5_data "BAM:0001" st1 = (Raise OSError, st2)).
  { rewrite (surjective_pairing (_clean_h5_data "BAM:0001" st1)).
    apply (f_equal2 pair); [vm_compute|]; reflexivity. }
  split; [exact H2|].
  exact (cleanup_failure_keeps_record sync_noop dset_two savetxt_header
           "BAM:0001" ["THC:0001"] false "https" false true true
           st st1 st2 OSError (or_intror eq_refl) H1 H2).
Defined.

Lemma scanned_simulation_is_skipped_witness :
  let st0 := manager runs_nan_last tree_two_radii in
  let st :=
    set_downloaded
      {[ "BAM:0001" := {[ "R01" := artifact_of f_r00250 250 ]} ]} st0 in
  (_look_for_existing_strains [f_r00100; f_r00250] st0).1
  = Ok (downloaded st) /\
  scanned (fs (env st0)) f_r00100
  = Some ("BAM:0001", "R01", artifact_of f_r00100 100) /\
  download_strains sync_noop dset_two savetxt_header
    ["BAM:0001"] false false "https" false true st
  = (Ok tt, log_all (skip_prints true ["BAM:0001"]) st).
Proof.
  intros st0 st.
  assert (H : (_look_for_existing_strains [f_r00100; f_r00250] st0).1
              = Ok (downloaded st)) by (vm_compute; reflexivity).
  split; [exact H|]. split; [exact scanned_r00100|].
  apply (scanned_simulation_is_skipped sync_noop dset_two savetxt_header
           [f_r00100; f_r00250] f_r00100 "BAM:0001" "R01"
           (artifact_of f_r00100 100) false "https" false true st st0 H).
  - left.
  - exact scanned_r00100.
Defined.

Lemma rescan_finds_download_witness :
  let st := manager runs_nan_last tree_clone in
  let call := download_strains sync_noop dset_two savetxt_header
                ["BAM:0001"] false false "https" false false in
  let st' := (call st).2 in
  let a := {| file := ["CoRe_DB_clone"; "BAM_0001"; "R03";
                       "Rh_l2_m2_r00250.txt"];
              eccentricity := nan; r_extraction := 250 |} in
  call st = (Ok tt, st') /\
  downloaded st' !! "BAM:0001" = Some {[ "R03" := a ]} /\
  _look_for_existing_strains [file a] st'
  = (Ok {[ "BAM:0001" := {[ "R03" := a ]} ]}, st').
Proof.
  intros st call st' a.
  assert (H : call st = (Ok tt, st')).
  { rewrite (surjective_pairing (call st)).
    apply (f_equal2 pair); [vm_compute|]; reflexivity. }
  assert (Ha : downloaded st' !! "BAM:0001" = Some {[ "R03" := a ]})
    by (vm_compute; reflexivity).
  split; [exact H|]. split; [exact Ha|].
  apply (rescan_finds_download sync_noop dset_two savetxt_header
           "BAM:0001" false false "https" false false st st' "R03"
           "BAM_0001" a ["id_eccentricity         = NAN"]
           (or_intror eq_refl) H Ha); vm_compute; reflexivity.
Defined.

End DownloadMore.

(** ** Removing the raw data *)

Module CleanFacts.
Import PyStr PyNum PyPath CoReManager Spec Examples.
Import PyStrFacts DownloadFacts MoreSpec MoreExamples.

Lemma strict_prefix_length (d p : Path) :
  strict_prefix d p = true -> (length d < length p)%nat.
Proof.
  revert p. induction d as [|a d IH]; intros [|b p]; simpl; try done; [lia|].
  intros H. apply andb_true_iff in H as [_ H]. apply IH in H. lia.
Qed.

(** The folder of the version control is no entry of [root.glob('*/*.h5')]
    and is above none. *)
Lemma git_not_h5 (root p : Path) :
  glob_h5_match root p = true ->
  p <> joinpath root ".git" /\ strict_prefix p (joinpath root ".git") = false.
Proof.
  unfold glob_h5_match, joinpath. intros H.
  apply andb_true_iff in H as [H _]. apply andb_true_iff in H as [H _].
  apply Nat.eqb_eq in H. split.
  - intros ->. rewrite length_app in H. simpl in H. lia.
  - destruct (strict_prefix p (root ++ [".git"])) eqn:E; [|done].
    apply strict_prefix_length in E. rewrite length_app in E. simpl in E. lia.
Qed.

(** What [root.glob('*/*.h5')] yields: each entry of the tree that
    matches, once. *)
Lemma glob_h5_run (root : Path) (st : state) :
  exists files,
    glob_h5 root st = (Ok files, st) /\ NoDup files /\
    forall p, p ∈ files <->
              glob_h5_match root p = true /\ is_Some (fs (env st) !! p).
Proof.
  eexists. split; [reflexivity|]. split.
  - apply NoDup_filter, NoDup_fst_map_to_list.
  - intros p. rewrite list_elem_of_filter, list_elem_of_fmap.
    split.
    + intros [Hm ([q n] & -> & Hq)]. split; [done|].
      apply elem_of_map_to_list in Hq. by exists n.
    + intros [Hm [n Hn]]. split; [done|]. exists (p, n). split; [done|].
      by apply elem_of_map_to_list.
Qed.

(** Unlinking files that are there: they are gone, and nothing else. *)
Lemma unlink_all_run (files : list (list string)) (st : state) :
  NoDup files ->
  (forall f, f ∈ files -> exists lines, fs (env st) !! f = Some (File lines)) ->
  exists st',
    unlink_all files st = (Ok tt, st') /\
    (forall p, fs (env st') !! p
               = if bool_decide (p ∈ files) then None else fs (env st) !! p) /\
    heap (env st') = heap (env st) /\ sim (env st') = sim (env st) /\
    downloaded st' = downloaded st /\
    trace st' = (trace st ++ map EvUnlink files)%list.
Proof.
  intros Hnd. revert st. induction Hnd as [|f files Hf Hnd IH]; intros st Hall.
  - exists st. split; [done|]. split; [done|]. do 3 (split; [done|]).
    simpl. by rewrite app_nil_r.
  - destruct (Hall f) as [lines Hlines]; [left|].
    simpl. unfold bind at 1. unfold unlink, bind at 1, emit, modify. simpl.
    rewrite Hlines.
    destruct (IH (set_env (set_fs (delete f (fs (env st))) (env st))
                    (log (EvUnlink f) st)))
      as (st' & -> & Hfs & Hheap & Hsim & Hdl & Htr).
    { intros g Hg. simpl. rewrite lookup_delete_ne by set_solver.
      apply Hall. by right. }
    exists st'. split; [done|]. split.
    + intros p. rewrite Hfs. simpl.
      destruct (decide (p = f)) as [->|Hne].
      * rewrite lookup_delete_eq.
        rewrite (bool_decide_eq_true_2 (f ∈ f :: files)) by left.
        by destruct (bool_decide (f ∈ files)).
      * rewrite lookup_delete_ne by done.
        destruct (decide (p ∈ files)) as [Hin|Hin].
        -- rewrite !bool_decide_eq_true_2; [done|by right|done].
        -- rewrite !bool_decide_eq_false_2; [done| |done].
           intros [?|?]%elem_of_cons; done.
    + do 3 (split; [done|]). rewrite Htr. simpl. by rewrite <- app_assoc.
Qed.

(** An entry of the list that is no file stops the removal with
    [OSError]. *)
Lemma unlink_all_raises (files : list (list string)) (f : Path)
  (st : state) :
  NoDup files -> f ∈ files ->
  (forall lines, fs (env st) !! f <> Some (File lines)) ->
  exists st', unlink_all files st = (Raise OSError, st').
Proof.
  intros Hnd. revert st. induction Hnd as [|g files Hg Hnd IH]; intros st Hf Hno.
  { by apply elem_of_nil in Hf. }
  simpl. unfold bind at 1. unfold unlink, bind at 1, emit, modify. simpl.
  destruct (fs (env st) !! g) as [[lines|]|] eqn:E; [|by eexists..].
  apply elem_of_cons in Hf as [->|Hf]; [by destruct (Hno lines)|].
  apply IH; [done|]. intros lines'. simpl.
  rewrite lookup_delete_ne; [apply Hno|]. by intros ->.
Qed.

(** What is not in the list is not touched, however the removal ends. *)
Lemma unlink_all_frame (files : list (list string)) (p : Path)
  (st st' : state) (r : result unit) :
  p ∉ files ->
  unlink_all files st = (r, st') ->
  fs (env st') !! p = fs (env st) !! p /\ downloaded st' = downloaded st.
Proof.
  revert st. induction files as [|g files IH]; intros st Hp H.
  { unfold unlink_all, ret in H. by simplify_eq. }
  simpl in H. unfold bind at 1 in H.
  unfold unlink, bind at 1, emit, modify in H. simpl in H.
  destruct (fs (env st) !! g) as [[lines|]|] eqn:E;
    [|by simplify_eq..].
  apply IH in H as [-> ->]; [|intros Hin; apply Hp; by right].
  simpl. rewrite lookup_delete_ne; [done|]. intros ->. apply Hp. left.
Qed.

Lemma rmtree_run (d : Path) (st : state) :
  rmtree d st
  = match fs (env st) !! d with
    | Some Dir =>
        (Ok tt,
         set_env (set_fs (filter (fun e : list string * node =>
                                    e.1 <> d /\ strict_prefix d e.1 = false)
                            (fs (env st))) (env st))
           (log (EvRmtree d) st))
    | _ => (Raise OSError, log (EvRmtree d) st)
    end.
Proof.
  unfold rmtree, bind, emit, modify. simpl.
  by destruct (fs (env st) !! d) as [[]|].
Qed.

(** The removal up to the folder of the version control, on a simulation
    whose archives are files. *)
Lemma clean_until_rmtree (skey : string) (s : CoRe_sim) (st : state) :
  sim (env st) !! skey = Some s ->
  (forall p n, fs (env st) !! p = Some n ->
               glob_h5_match (sim_path s) p = true ->
               exists lines, n = File lines) ->
  exists st1,
    _clean_h5_data skey st = rmtree (joinpath (sim_path s) ".git") st1 /\
    (forall p, fs (env st1) !! p
               = if glob_h5_match (sim_path s) p then None
                 else fs (env st) !! p) /\
    heap (env st1) = heap (env st) /\ sim (env st1) = sim (env st) /\
    downloaded st1 = downloaded st.
Proof.
  intros Hs Hfiles. unfold _clean_h5_data, bind at 1, cdb_sim. rewrite Hs.
  simpl. destruct (glob_h5_run (sim_path s) st) as (files & Hg & Hnd & Hin).
  unfold bind at 1. rewrite Hg.
  destruct (unlink_all_run files st Hnd)
    as (st1 & Hrun & Hfs & Hheap & Hsim & Hdl & _).
  { intros f Hf. apply Hin in Hf as [Hm [n Hn]].
    destruct (Hfiles f n Hn Hm) as [lines ->]. by exists lines. }
  exists st1. unfold bind at 1. rewrite Hrun. split; [done|].
  split; [|done]. intros p. rewrite Hfs.
  destruct (glob_h5_match (sim_path s) p) eqn:Hm.
  - destruct (fs (env st) !! p) as [n|] eqn:Hp.
    + rewrite bool_decide_eq_true_2; [done|]. apply Hin. split; [done|].
      by exists n.
    + by destruct (bool_decide (p ∈ files)).
  - rewrite bool_decide_eq_false_2; [done|]. intros Hp. apply Hin in Hp.
    destruct Hp as [Hp _]. congruence.
Qed.

(** X12. Removing the raw data of a simulation that the database knows,
    whose entries [*/*.h5] are files and that has its folder [.git]: the
    call ends well; the entries [*/*.h5], the folder [.git] and what is
    below it are gone; every other entry of the tree is as it was, and so
    are the database and [self.downloaded]. *)
Theorem clean_h5_data_removes (skey : string) (s : CoRe_sim) (st : state) :
  sim (env st) !! skey = Some s ->
  (forall p n, fs (env st) !! p = Some n ->
               glob_h5_match (sim_path s) p = true ->
               exists lines, n = File lines) ->
  fs (env st) !! joinpath (sim_path s) ".git" = Some Dir ->
  exists st',
    _clean_h5_data skey st = (Ok tt, st') /\
    (forall p,
        fs (env st') !! p
        = if glob_h5_match (sim_path s) p
             || bool_decide (p = joinpath (sim_path s) ".git")
             || strict_prefix (joinpath (sim_path s) ".git") p
          then None
          else fs (env st) !! p) /\
    heap (env st') = heap (env st) /\ sim (env st') = sim (env st) /\
    downloaded st' = downloaded st.
Proof.
  intros Hs Hfiles Hgit.
  destruct (clean_until_rmtree skey s st Hs Hfiles)
    as (st1 & -> & Hfs & Hheap & Hsim & Hdl).
  rewrite rmtree_run, Hfs.
  destruct (glob_h5_match (sim_path s) (joinpath (sim_path s) ".git")) eqn:E.
  { apply git_not_h5 in E as [E _]. done. }
  rewrite Hgit. eexists. split; [reflexivity|]. simpl.
  split; [|done]. intros p.
  destruct (glob_h5_match (sim_path s) p) eqn:Hm; simpl.
  - apply map_lookup_filter_None. left. by rewrite Hfs, Hm.
  - case_bool_decide as Hp; simpl.
    + apply map_lookup_filter_None. right. intros n _ [Hne _]. done.
    + destruct (strict_prefix (joinpath (sim_path s) ".git") p) eqn:Hsp.
      * apply map_lookup_filter_None. right. intros n _ [_ Hn]. simpl in Hn.
        congruence.
      * destruct (fs (env st) !! p) as [n|] eqn:Hn.
        -- apply map_lookup_filter_Some. rewrite Hfs, Hm. done.
        -- apply map_lookup_filter_None. left. by rewrite Hfs, Hm.
Qed.

(** X13. Where the removal fails. For a key that the database does not
    know it raises [KeyError] and nothing has happened. With a folder
    among the entries [*/*.h5] it raises [OSError] and the folder [.git]
    is as it was. Without the folder [.git] (or with a file of that name)
    it raises [OSError], but the entries [*/*.h5] are gone by then, and
    only they. *)
Theorem clean_h5_data_fails :
  (forall (skey : string) (st : state),
      sim (env st) !! skey = None ->
      _clean_h5_data skey st = (Raise KeyError, st)) /\
  (forall (skey : string) (s : CoRe_sim) (st : state) (p : Path),
      sim (env st) !! skey = Some s ->
      fs (env st) !! p = Some Dir ->
      glob_h5_match (sim_path s) p = true ->
      exists st',
        _clean_h5_data skey st = (Raise OSError, st') /\
        fs (env st') !! joinpath (sim_path s) ".git"
        = fs (env st) !! joinpath (sim_path s) ".git" /\
        downloaded st' = downloaded st) /\
  (forall (skey : string) (s : CoRe_sim) (st : state),
      sim (env st) !! skey = Some s ->
      (forall p n, fs (env st) !! p = Some n ->
                   glob_h5_match (sim_path s) p = true ->
                   exists lines, n = File lines) ->
      fs (env st) !! joinpath (sim_path s) ".git" <> Some Dir ->
      exists st',
        _clean_h5_data skey st = (Raise OSError, st') /\
        (forall p, fs (env st') !! p
                   = if glob_h5_match (sim_path s) p then None
                     else fs (env st) !! p) /\
        downloaded st' = downloaded st).
Proof.
  split; [|split].
  - intros skey st Hs. unfold _clean_h5_data, bind, cdb_sim. by rewrite Hs.
  - intros skey s st p Hs Hp Hm.
    unfold _clean_h5_data, bind at 1, cdb_sim. rewrite Hs. simpl.
    destruct (glob_h5_run (sim_path s) st) as (files & Hg & Hnd & Hin).
    unfold bind at 1. rewrite Hg.
    destruct (unlink_all_raises files p st Hnd) as [st' Hrun].
    { apply Hin. split; [done|]. by eexists. }
    { intros lines. by rewrite Hp. }
    destruct (unlink_all_frame files (joinpath (sim_path s) ".git") st st'
                (Raise OSError)) as [Hfs Hdl]; [|done|].
    { intros Hgit. apply Hin in Hgit as [Hgit _].
      by apply git_not_h5 in Hgit as [? _]. }
    exists st'. unfold bind. by rewrite Hrun.
  - intros skey s st Hs Hfiles Hgit.
    destruct (clean_until_rmtree skey s st Hs Hfiles)
      as (st1 & -> & Hfs & Hheap & Hsim & Hdl).
    rewrite rmtree_run.
    assert (Hgit1 : fs (env st1) !! joinpath (sim_path s) ".git" <> Some Dir).
    { rewrite Hfs. by destruct (glob_h5_match _ _). }
    destruct (fs (env st1) !! joinpath (sim_path s) ".git") as [[|]|];
      [|done|]; eexists; (split; [reflexivity|]); done.
Qed.

(** The entries [*/*.h5] of a tree are files when a pass over the tree
    finds them so. *)
Lemma h5_files_check (root : Path) (tree : gmap (list string) node) :
  forallb (fun e : list string * node =>
             negb (glob_h5_match root e.1)
             || match e.2 with File _ => true | Dir => false end)
    (map_to_list tree) = true ->
  forall p n, tree !! p = Some n -> glob_h5_match root p = true ->
              exists lines, n = File lines.
Proof.
  rewrite forallb_forall. intros H p n Hp Hm.
  specialize (H (p, n)). simpl in H. rewrite Hm in H. simpl in H.
  destruct n as [lines|]; [by exists lines|].
  discriminate H. by apply list_elem_of_In, elem_of_map_to_list.
Qed.

(** *** On the sample trees *)

Lemma clean_h5_data_removes_witness :
  let st := manager runs_nan_last tree_clone in
  exists st',
    _clean_h5_data "BAM:0001" st = (Ok tt, st') /\
    (forall p,
        fs (env st') !! p
        = if glob_h5_match (sim_path sim_BAM) p
             || bool_decide (p = joinpath (sim_path sim_BAM) ".git")
             || strict_prefix (joinpath (sim_path sim_BAM) ".git") p
          then None
          else fs (env st) !! p) /\
    heap (env st') = heap (env st) /\ sim (env st') = sim (env st) /\
    downloaded st' = downloaded st.
Proof.
  intros st.
  apply (clean_h5_data_removes "BAM:0001" sim_BAM st); [reflexivity| |].
  - apply h5_files_check. vm_compute. reflexivity.
  - vm_compute. reflexivity.
Defined.

Lemma clean_h5_data_fails_witness :
  let st := manager runs_nan_last tree_raw in
  _clean_h5_data "THC:0001" st = (Raise KeyError, st) /\
  exists st',
    _clean_h5_data "BAM:0001" st = (Raise OSError, st') /\
    (forall p, fs (env st') !! p
               = if glob_h5_match (sim_path sim_BAM) p then None
                 else fs (env st) !! p) /\
    downloaded st' = downloaded st.
Proof.
  intros st. split.
  - apply (proj1 clean_h5_data_fails "THC:0001" st). reflexivity.
  - apply (proj2 (proj2 clean_h5_data_fails) "BAM:0001" sim_BAM st);
      [reflexivity| |].
    + apply h5_files_check. vm_compute. reflexivity.
    + vm_compute. discriminate.
Defined.

End CleanFacts.

(** ** More on the run selector *)

Module RunMore.
Import PyStr PyNum PyPath CoReManager Spec Examples.
Import PyStrFacts ParseFacts RunFacts MoreSpec MoreExamples.

(** The call on a simulation whose reference run cannot be read. *)
Lemma lowest_eccentricity_unfold_raise (skey : string) (st : state)
  (s : CoRe_sim) (runs : list (string * CoRe_run)) (r01 : CoRe_run)
  (e : exn) :
  sim (env st) !! skey = Some s ->
  heap (env st) !! sim_run s = Some runs ->
  PyDict.getitem "R01" runs = Some r01 ->
  run_ecc r01 = Raise e ->
  get_runkey_lowest_eccentricity skey st = (Raise e, after_pop runs st).
Proof.
  intros Hs Hruns H01 He.
  unfold get_runkey_lowest_eccentricity, bind at 1, cdb_sim.
  rewrite Hs. simpl. unfold bind at 1, PyDict.copy. rewrite Hruns.
  unfold bind at 1, PyDict.pop. simpl. rewrite lookup_insert_eq, H01.
  unfold bind at 1. rewrite id_eccentricity_run.
  unfold run_ecc in He.
  destruct (md_data r01 !! "id_eccentricity") as [x|]; simpl in *.
  - unfold bind at 1, lift at 1. by rewrite He.
  - by simplify_eq.
Qed.

(** Why the eccentricity of a run cannot be read: the entry is missing,
    or it is a string that is neither empty nor a float. *)
Lemma run_ecc_raises (run : CoRe_run) (e : exn) :
  run_ecc run = Raise e ->
  (e = KeyError /\ md_data run !! "id_eccentricity" = None) \/
  (e = ValueError /\
   exists txt, md_data run !! "id_eccentricity" = Some (Some txt) /\
               txt <> "" /\ float_of_string txt = None).
Proof.
  unfold run_ecc. destruct (md_data run !! "id_eccentricity") as [[txt|]|];
    simpl; [|done|intros [= <-]; by left].
  destruct (String.eqb_spec txt "") as [->|Hne]; [done|].
  destruct (float_of_string txt) eqn:E; [done|]. simpl. intros [= <-].
  right. split; [done|]. by exists txt.
Qed.

(** X14. Where the selector fails. A key that the database does not know
    is a [KeyError], and nothing has happened. A simulation without a run
    [R01] is a [KeyError] too, before any eccentricity is read. A run
    whose eccentricity is missing ([KeyError]) or is no float
    ([ValueError]) ends the call with that exception when it is read:
    the reference run first, then the others in iteration order, the runs
    after it not being read. *)
Theorem lowest_eccentricity_fails :
  (forall (skey : string) (st : state),
      sim (env st) !! skey = None ->
      get_runkey_lowest_eccentricity skey st = (Raise KeyError, st)) /\
  (forall (skey : string) (st : state) (s : CoRe_sim)
          (runs : list (string * CoRe_run)),
      sim (env st) !! skey = Some s ->
      heap (env st) !! sim_run s = Some runs ->
      PyDict.getitem "R01" runs = None ->
      exists st',
        get_runkey_lowest_eccentricity skey st = (Raise KeyError, st') /\
        trace st' = trace st) /\
  (forall (skey : string) (st : state) (s : CoRe_sim)
          (runs : list (string * CoRe_run)) (r01 : CoRe_run) (e : exn),
      sim (env st) !! skey = Some s ->
      heap (env st) !! sim_run s = Some runs ->
      PyDict.getitem "R01" runs = Some r01 ->
      run_ecc r01 = Raise e ->
      (e = KeyError \/ e = ValueError) /\
      exists st',
        get_runkey_lowest_eccentricity skey st = (Raise e, st') /\
        trace st' = (trace st ++ [EvEccentricity "R01"])%list) /\
  (forall (skey : string) (st : state) (s : CoRe_sim)
          (runs pre post : list (string * CoRe_run)) (r01 r : CoRe_run)
          (k : string) (x0 : pyfloat) (e : exn),
      sim (env st) !! skey = Some s ->
      heap (env st) !! sim_run s = Some runs ->
      PyDict.getitem "R01" runs = Some r01 ->
      run_ecc r01 = Ok x0 ->
      isnan x0 = false ->
      PyDict.remove "R01" runs = (pre ++ (k, r) :: post)%list ->
      Forall (fun kr => numeric kr.2) pre ->
      run_ecc r = Raise e ->
      (e = KeyError \/ e = ValueError) /\
      exists st',
        get_runkey_lowest_eccentricity skey st = (Raise e, st') /\
        trace st'
        = (trace st ++ EvEccentricity "R01" :: reads pre
             ++ [EvEccentricity k])%list).
Proof.
  split; [|split; [|split]].
  - intros skey st Hs.
    unfold get_runkey_lowest_eccentricity, bind, cdb_sim. by rewrite Hs.
  - intros skey st s runs Hs Hruns H01.
    unfold get_runkey_lowest_eccentricity, bind at 1, cdb_sim.
    rewrite Hs. simpl. unfold bind at 1, PyDict.copy. rewrite Hruns.
    unfold bind at 1, PyDict.pop. simpl. rewrite lookup_insert_eq, H01.
    by eexists.
  - intros skey st s runs r01 e Hs Hruns H01 He. split.
    { destruct (run_ecc_raises _ _ He) as [[-> _]|[-> _]]; auto. }
    rewrite (lowest_eccentricity_unfold_raise _ _ _ _ _ _ Hs Hruns H01 He).
    by eexists.
  - intros skey st s runs pre post r01 r k x0 e
      Hs Hruns H01 Hx0 Hnum Hsplit Hpre He. split.
    { destruct (run_ecc_raises _ _ He) as [[-> _]|[-> _]]; auto. }
    rewrite (lowest_eccentricity_unfold _ _ _ _ _ _ Hs Hruns H01 Hx0), Hnum.
    rewrite Hsplit.
    destruct (lowest_loop_numeric pre ((k, r) :: post) "R01" x0
                (after_pop runs st) Hpre) as (k' & e' & -> & _).
    rewrite (lowest_loop_raise _ _ _ _ _ e) by done.
    eexists. split; [reflexivity|].
    simpl. rewrite <- !app_assoc. reflexivity.
Qed.

(** X15. When the runs hold numbers that are all different, the run
    selected does not depend on the order in which the dictionary of runs
    is iterated: two managers whose simulations hold the same numbers
    under the same keys select the same run. *)
Theorem lowest_eccentricity_order_free (skey : string) (st st' : state)
  (s s' : CoRe_sim) (runs runs' : list (string * CoRe_run))
  (r01 r01' : CoRe_run) (x0 : pyfloat) (vals vals' : list (string * pyfloat)) :
  sim (env st) !! skey = Some s ->
  heap (env st) !! sim_run s = Some runs ->
  PyDict.getitem "R01" runs = Some r01 ->
  run_ecc r01 = Ok x0 ->
  sim (env st') !! skey = Some s' ->
  heap (env st') !! sim_run s' = Some runs' ->
  PyDict.getitem "R01" runs' = Some r01' ->
  run_ecc r01' = Ok x0 ->
  isnan x0 = false ->
  holds (PyDict.remove "R01" runs) vals ->
  holds (PyDict.remove "R01" runs') vals' ->
  vals ≡ₚ vals' ->
  distinct_values (("R01", x0) :: vals) ->
  (get_runkey_lowest_eccentricity skey st).1
  = (get_runkey_lowest_eccentricity skey st').1.
Proof.
  intros Hs Hruns H01 Hx0 Hs' Hruns' H01' Hx0' Hnum Hv Hv' Hperm Hdist.
  rewrite (lowest_eccentricity_unfold _ _ _ _ _ _ Hs Hruns H01 Hx0), Hnum.
  rewrite (lowest_eccentricity_unfold _ _ _ _ _ _ Hs' Hruns' H01' Hx0'), Hnum.
  destruct (lowest_loop_first_min _ vals "R01" x0 (after_pop runs st)
              Hnum Hv) as (i & k & e & Hi & -> & _ & Hmin & _).
  destruct (lowest_loop_first_min _ vals' "R01" x0 (after_pop runs' st')
              Hnum Hv') as (i' & k' & e' & Hi' & -> & _ & Hmin' & _).
  simpl. f_equal.
  assert (Hin' : (k', e') ∈ ("R01", x0) :: vals).
  { rewrite Hperm. by eapply list_elem_of_lookup_2. }
  assert (Hin : (k, e) ∈ ("R01", x0) :: vals').
  { rewrite <- Hperm. by eapply list_elem_of_lookup_2. }
  apply list_elem_of_lookup_1 in Hin' as [j Hj].
  apply list_elem_of_lookup_1 in Hin as [j' Hj'].
  pose proof (Hmin _ _ _ Hj) as F1.
  pose proof (Hmin' _ _ _ Hj') as F2.
  destruct (decide (i = j)) as [->|Hne]; [congruence|].
  destruct (Hdist _ _ _ _ _ _ Hi Hj Hne); congruence.
Qed.

(** *** On the sample runs *)

Lemma lowest_eccentricity_fails_witness :
  exists st',
    get_runkey_lowest_eccentricity "BAM:0001" (manager runs_unreadable ∅)
    = (Raise ValueError, st') /\
    trace st' = [EvEccentricity "R01"; EvEccentricity "R02"].
Proof.
  destruct (proj2 (proj2 (proj2 lowest_eccentricity_fails))
              "BAM:0001" (manager runs_unreadable ∅) sim_BAM
              runs_unreadable [] [("R03", r03_NAN)] r01_005
              (run_with "R02" (Some "circular")) "R02" f_0_05 ValueError)
    as [_ H];
    [vm_compute; reflexivity..|constructor|vm_compute; reflexivity|exact H].
Defined.

Lemma lowest_eccentricity_order_free_witness :
  (get_runkey_lowest_eccentricity "BAM:0001" (manager runs_distinct ∅)).1
  = (get_runkey_lowest_eccentricity "BAM:0001"
       (manager runs_distinct_rev ∅)).1.
Proof.
  apply (lowest_eccentricity_order_free "BAM:0001"
           (manager runs_distinct ∅) (manager runs_distinct_rev ∅)
           sim_BAM sim_BAM runs_distinct runs_distinct_rev
           r01_005 r01_005 f_0_05
           [("R02", f_0_01); ("R03", S754_zero false)]
           [("R03", S754_zero false); ("R02", f_0_01)]).
  1-9: vm_compute; reflexivity.
  - change (PyDict.remove "R01" runs_distinct)
      with [("R02", r02_001); ("R03", run_with "R03" (Some "0.0"))].
    repeat (constructor; [split; [|split]; vm_compute; reflexivity|]).
    constructor.
  - change (PyDict.remove "R01" runs_distinct_rev)
      with [("R03", run_with "R03" (Some "0.0")); ("R02", r02_001)].
    repeat (constructor; [split; [|split]; vm_compute; reflexivity|]).
    constructor.
  - apply perm_swap.
  - intros i j k x k' x' Hi Hj Hne.
    destruct i as [|[|[|i]]], j as [|[|[|j]]];
      first [done | injection Hi as <- <-; injection Hj as <- <-;
                    vm_compute; auto].
Defined.

End RunMore.

(** ** Loading what was downloaded *)

Module LoadFacts.
Import PyStr PyNum PyPath CoReManager Spec Examples.
Import DownloadFacts Loading MoreSpec MoreExamples DownloadMore.

Lemma iterates_singleton (values : gmap string Artifact -> list Artifact)
  (run : string) (a : Artifact) :
  iterates values -> values {[run := a]} = [a].
Proof.
  intros H. specialize (H {[run := a]}).
  rewrite map_to_list_singleton in H. simpl in H.
  by apply Permutation_singleton_r in H.
Qed.

Lemma iterates_nonempty (values : gmap string Artifact -> list Artifact)
  (d : gmap string Artifact) :
  iterates values -> d <> ∅ -> values d <> [].
Proof.
  intros H Hd Hnil. specialize (H d). rewrite Hnil in H.
  apply Permutation_nil_l in H. symmetry in H. apply fmap_nil_inv in H.
  by apply map_to_list_empty_iff in H.
Qed.

Section WithCollaborators.
Context {array : Type}.
Variable cdb_sync : string -> string -> bool -> world -> result unit * world.
Variable read_dset :
  CoRe_run -> world
  -> result (gmap string (list (string * array))) * world.
Variable np_savetxt :
  Path -> array -> string -> world -> result unit * world.
Variable values : gmap string Artifact -> list Artifact.
Variable np_loadtxt : Path -> world -> result array.

Local Abbreviation download_strains :=
  (download_strains cdb_sync read_dset np_savetxt).
Local Abbreviation load_sim := (load_sim values np_loadtxt).

(** X17. In whatever order dictionaries are iterated: a simulation that
    [self.downloaded] does not have is a [KeyError]; on the index of a
    scan and after any downloads, [next] finds a run for every simulation
    it has; and after a download that ends well, [load_sim] reads the
    file that the download has recorded for the run it selected. *)
Theorem load_sim_reads_download :
  iterates values ->
  (forall (skey : string) (st : state),
      downloaded st !! skey = None ->
      load_sim skey st = LoadRaise KeyError) /\
  (forall (skey : string) (st : state),
      inner_nonempty (downloaded st) ->
      load_sim skey st <> StopIteration) /\
  (forall (skey : string) (keep_h5 overwrite : bool) (prot : string)
          (lfs verbose : bool) (st st' : state),
      overwrite = true \/ downloaded st !! skey = None ->
      download_strains [skey] keep_h5 overwrite prot lfs verbose st
      = (Ok tt, st') ->
      exists runkey a,
        downloaded st' !! skey = Some {[runkey := a]} /\
        load_sim skey st'
        = match np_loadtxt (file a) (env st') with
          | Ok gw_data => Loaded gw_data
          | Raise e => LoadRaise e
          end).
Proof.
  intros Hit. split; [|split].
  - intros skey st Hnone. unfold Loading.load_sim. by rewrite Hnone.
  - intros skey st Hne. unfold Loading.load_sim.
    destruct (downloaded st !! skey) as [d|] eqn:Hd; [|done].
    pose proof (iterates_nonempty values d Hit (Hne _ _ Hd)) as Hv.
    destruct (values d) as [|a l]; [done|].
    by destruct (np_loadtxt (file a) (env st)).
  - intros skey keep_h5 overwrite prot lfs verbose st st' Hnew H.
    rewrite download_strains_cons, not_skipped in H by done.
    apply bind_Ok in H as ([] & st1 & H1 & Hnil).
    unfold CoReManager.download_strains, ret in Hnil. simplify_eq.
    destruct (download_one_outcome _ _ _ _ _ _ _ _ _ _ _ H1)
      as [[_ [e ?]]|(rk & a & _ & _ & _ & _ & Hd & _)]; [done|].
    exists rk, a. unfold Loading.load_sim.
    rewrite Hd, lookup_insert_eq. split; [done|].
    by rewrite (iterates_singleton values rk a Hit).
Qed.

End WithCollaborators.

Lemma load_sim_reads_download_witness :
  let st := manager runs_nan_last tree_clone in
  let st' := (download_strains sync_noop dset_two savetxt_header
                ["BAM:0001"] false false "https" false false st).2 in
  iterates values_by_key /\
  download_strains sync_noop dset_two savetxt_header
    ["BAM:0001"] false false "https" false false st = (Ok tt, st') /\
  exists runkey a,
    downloaded st' !! "BAM:0001" = Some {[runkey := a]} /\
    load_sim values_by_key loadtxt_lines "BAM:0001" st'
    = match loadtxt_lines (file a) (env st') with
      | Ok gw_data => Loaded gw_data
      | Raise e => LoadRaise e
      end.
Proof.
  intros st st'.
  assert (Hit : iterates values_by_key) by (by intros d).
  assert (H : download_strains sync_noop dset_two savetxt_header
                ["BAM:0001"] false false "https" false false st
              = (Ok tt, st')).
  { rewrite (surjective_pairing (download_strains _ _ _ _ _ _ _ _ _ st)).
    apply (f_equal2 pair); [vm_compute|]; reflexivity. }
  split; [exact Hit|]. split; [exact H|].
  exact (proj2 (proj2 (load_sim_reads_download sync_noop dset_two
                         savetxt_header values_by_key loadtxt_lines Hit))
           "BAM:0001" false false "https" false false st st'
           (or_intror eq_refl) H).
Defined.

Example load_sim_after_download :
  let st' := (download_strains sync_noop dset_two savetxt_header
                ["BAM:0001"] false false "https" false false
                (manager runs_nan_last tree_clone)).2 in
  load_sim values_by_key loadtxt_lines "BAM:0001" st' = Loaded 1%nat /\
  load_sim values_by_key loadtxt_lines "THC:0001" st' = LoadRaise KeyError.
Proof. vm_compute. split; reflexivity. Qed.

End LoadFacts.
